(** * nr-kitap: the listings application [app.py], embedded and verified

    The development follows [app.py] top to bottom: the record store kept in
    [submissions.csv], the photo directories under [UPLOADS_DIR], the session
    gate, and the request handlers that the properties below talk about.

    Conventions.
    - A Python [str] is a [string]; every character is a code point in
      0..255.
    - The text of [submissions.csv] is a [string]: what the file, opened
      as UTF-8 text with untranslated line ends, reads and writes.
    - [csv.reader] / [csv.writer] are the [excel] dialect the application
      relies on (delimiter [,], quote character code 34, doubled quotes,
      minimal quoting, line terminator CR LF, non-strict reader).  The
      reader raises [csv.Error] when a field is longer than
      [Csv.field_size_limit]: [Csv.reader] gives the records of a text on
      which it does not raise, [Csv.reader_raises] tells when it does, and
      [Store.readable] when the store can be read.  The functions and
      handlers that read the store are given for a readable store; on
      another one the exception escapes and the answer is status 500.
    - The upload tree has no symbolic links, so resolving a path is taking
      its [..] steps.  The store file lies outside the upload tree and is
      kept apart from it in [World]: a request whose id is [..] leaves the
      upload tree and can reach the store, and is outside what [World]
      describes.
    - Saving, removing and listing files are given as they act when the
      operating system carries them out; a name the file system refuses
      raises in the code.
    - A handler is a function from the configuration, the world (store file
      and upload tree), the session and the request to a response, a new
      world and a new session; an exception that escapes a handler is the
      response [ServerError]. *)

From Stdlib Require Import Ascii String ZArith.
From stdpp Require Import gmap strings list fin_maps.

(** ** Python string primitives used by the application *)
Module Py.

Definition code (c : ascii) : N := N_of_ascii c.

(** [str.isspace] on one character, for code points below 256. *)
Definition isspace (c : ascii) : bool :=
  let n := code c in
  ((9 <=? n) && (n <=? 13) || (28 <=? n) && (n <=? 32)
   || (n =? 133) || (n =? 160))%N.

Fixpoint lstrip (s : string) : string :=
  match s with
  | EmptyString => EmptyString
  | String c r => if isspace c then lstrip r else s
  end.

Definition rstrip (s : string) : string := String.rev (lstrip (String.rev s)).

(** [s.strip()] *)
Definition strip (s : string) : string := rstrip (lstrip s).

(** [str.lower] on one character, for code points below 256. *)
Definition lower_char (c : ascii) : ascii :=
  let n := code c in
  if ((65 <=? n) && (n <=? 90)
      || (192 <=? n) && (n <=? 222) && negb (n =? 215))%N
  then ascii_of_N (n + 32) else c.

Fixpoint lower (s : string) : string :=
  match s with
  | EmptyString => EmptyString
  | String c r => String (lower_char c) (lower r)
  end.

(** Truth value of a [str]. *)
Definition truthy (s : string) : bool :=
  match s with EmptyString => false | _ => true end.

(** [v or d] where [v] is [None] or a [str]. *)
Definition or_ (v : option string) (d : string) : string :=
  match v with
  | Some s => if truthy s then s else d
  | None => d
  end.

(** [sep.join(parts)] *)
Fixpoint join (sep : string) (parts : list string) : string :=
  match parts with
  | [] => EmptyString
  | p :: rest =>
      match rest with
      | [] => p
      | _ => p +:+ sep +:+ join sep rest
      end
  end.

(** [s.startswith(p)] *)
Definition startswith (s p : string) : bool := String.prefix p s.

(** All characters below 128 ([str.isascii]). *)
Fixpoint isascii (s : string) : bool :=
  match s with
  | EmptyString => true
  | String c r => (code c <? 128)%N && isascii r
  end.

(** [s.rfind(".")]: index of the last dot, if any. *)
Fixpoint rfind_dot (s : string) : option nat :=
  match s with
  | EmptyString => None
  | String c r =>
      match rfind_dot r with
      | Some i => Some (S i)
      | None => if Ascii.eqb c "." then Some 0 else None
      end
  end.

End Py.

(** ** The [csv] module, [excel] dialect *)
Module Csv.

Definition DQ : ascii := ascii_of_N 34.
Definition COMMA : ascii := ascii_of_N 44.
Definition CR : ascii := ascii_of_N 13.
Definition LF : ascii := ascii_of_N 10.

Definition lineterminator : string := String CR (String LF EmptyString).

(** *** Writer *)

(** Characters that force quoting: delimiter, quote character, and the
    characters of the line terminator. *)
Definition special (c : ascii) : bool :=
  Ascii.eqb c COMMA || Ascii.eqb c DQ || Ascii.eqb c CR || Ascii.eqb c LF.

Fixpoint needs_quote (field : string) : bool :=
  match field with
  | EmptyString => false
  | String c r => special c || needs_quote r
  end.

(** Field data with every quote character doubled. *)
Fixpoint double_quotes (field : string) : string :=
  match field with
  | EmptyString => EmptyString
  | String c r =>
      if Ascii.eqb c DQ then String DQ (String DQ (double_quotes r))
      else String c (double_quotes r)
  end.

Definition quoted (field : string) : string :=
  String DQ (double_quotes field +:+ String DQ EmptyString).

(** [join_append]: one field as it goes into the record buffer. *)
Definition join_append (field : string) : string :=
  if needs_quote field then quoted field else field.

Fixpoint join_record (row : list string) : string :=
  match row with
  | [] => EmptyString
  | f :: rest =>
      match rest with
      | [] => join_append f
      | _ => join_append f +:+ String COMMA (join_record rest)
      end
  end.

(** [writer.writerow(row)]: a record that would come out empty although
    it has a field (a single empty field) is written as a quoted empty
    field. *)
Definition writerow (row : list string) : string :=
  let rec := join_record row in
  match row, rec with
  | _ :: _, EmptyString => quoted EmptyString +:+ lineterminator
  | _, _ => rec +:+ lineterminator
  end.

(** [writer.writerows(rows)] *)
Fixpoint writerows (rows : list (list string)) : string :=
  match rows with
  | [] => EmptyString
  | r :: rest => writerow r +:+ writerows rest
  end.

(** *** Reader *)

Inductive ParserState : Set :=
| START_RECORD
| START_FIELD
| IN_FIELD
| IN_QUOTED_FIELD
| QUOTE_IN_QUOTED_FIELD.

Definition is_newline (c : ascii) : bool := Ascii.eqb c CR || Ascii.eqb c LF.

(** The reader's state machine run over the whole text.  [field] is the
    field being collected, [fields] the fields of the current record
    already saved.  A CR that ends a record takes the LF that follows it
    along (the two are one line ending of the file).  At the end of the
    text a record that has been started is still returned. *)
Fixpoint parse (st : ParserState) (field : string) (fields : list string)
         (text : string) : list (list string) :=
  match text with
  | EmptyString =>
      match st with
      | START_RECORD => []
      | _ => [fields ++ [field]]
      end
  | String c rest =>
      let end_record := fun (rec : list string) =>
        rec :: (if Ascii.eqb c CR then
                  match rest with
                  | String c2 rest2 =>
                      if Ascii.eqb c2 LF
                      then parse START_RECORD EmptyString [] rest2
                      else parse START_RECORD EmptyString [] rest
                  | EmptyString => parse START_RECORD EmptyString [] rest
                  end
                else parse START_RECORD EmptyString [] rest) in
      let add_char := field +:+ String c EmptyString in
      match st with
      | START_RECORD =>
          if is_newline c then end_record []
          else if Ascii.eqb c DQ then parse IN_QUOTED_FIELD field fields rest
          else if Ascii.eqb c COMMA
               then parse START_FIELD EmptyString (fields ++ [field]) rest
          else parse IN_FIELD add_char fields rest
      | START_FIELD =>
          if is_newline c then end_record (fields ++ [field])
          else if Ascii.eqb c DQ then parse IN_QUOTED_FIELD field fields rest
          else if Ascii.eqb c COMMA
               then parse START_FIELD EmptyString (fields ++ [field]) rest
          else parse IN_FIELD add_char fields rest
      | IN_FIELD =>
          if is_newline c then end_record (fields ++ [field])
          else if Ascii.eqb c COMMA
               then parse START_FIELD EmptyString (fields ++ [field]) rest
          else parse IN_FIELD add_char fields rest
      | IN_QUOTED_FIELD =>
          if Ascii.eqb c DQ then parse QUOTE_IN_QUOTED_FIELD field fields rest
          else parse IN_QUOTED_FIELD add_char fields rest
      | QUOTE_IN_QUOTED_FIELD =>
          if Ascii.eqb c DQ then parse IN_QUOTED_FIELD add_char fields rest
          else if Ascii.eqb c COMMA
               then parse START_FIELD EmptyString (fields ++ [field]) rest
          else if is_newline c then end_record (fields ++ [field])
          else parse IN_FIELD add_char fields rest
      end
  end.

(** [list(csv.reader(f))] for a file whose text is [text]. *)
Definition reader (text : string) : list (list string) :=
  parse START_RECORD EmptyString [] text.

(** [csv.field_size_limit()]: the longest field the reader collects. *)
Definition field_size_limit : N := 131072.

Definition too_long (field : string) : bool :=
  (field_size_limit <? N.of_nat (String.length field))%N.

(** The reader refuses to add a character to a field that has reached the
    limit, and raises [csv.Error]: reading a text to its end raises
    exactly when one of its fields is longer than the limit. *)
Definition reader_raises (text : string) : bool :=
  existsb (existsb too_long) (reader text).

End Csv.

(** ** Rows of the store, as [csv.DictReader] yields them *)
Module Dict.

(** A row is a [dict]: under each field name a [str], or [None] where the
    line was shorter than the header ([restval]); the surplus fields of a
    longer line are kept under the key [None] ([restkey]). *)
Record row : Type := Row {
  fields : gmap string (option string);
  rest : option (list string)
}.

(** [r.get(k)] *)
Definition get (r : row) (k : string) : option string :=
  match fields r !! k with
  | Some v => v
  | None => None
  end.

(** [r.get(k, d)] *)
Definition get_default (r : row) (k : string) (d : string) : option string :=
  match fields r !! k with
  | Some v => v
  | None => Some d
  end.

(** [r[k] = v] *)
Definition set (r : row) (k : string) (v : string) : row :=
  {| fields := <[k := Some v]> (fields r); rest := rest r |}.

(** Truth value of the dict: it has a key. *)
Definition truthy (r : row) : bool :=
  negb (bool_decide (fields r = ∅)) || bool_decide (is_Some (rest r)).

(** [dict(zip(fieldnames, line))], later columns overwriting earlier ones
    of the same name. *)
Fixpoint zip_into (d : gmap string (option string))
         (fieldnames line : list string) : gmap string (option string) :=
  match fieldnames, line with
  | k :: ks, v :: vs => zip_into (<[k := Some v]> d) ks vs
  | _, _ => d
  end.

(** [for key in keys: d[key] = restval] *)
Fixpoint fill_restval (d : gmap string (option string))
         (keys : list string) : gmap string (option string) :=
  match keys with
  | [] => d
  | k :: ks => fill_restval (<[k := None]> d) ks
  end.

(** One line of the file turned into a row by [DictReader.__next__]. *)
Definition make_row (fieldnames line : list string) : row :=
  let d := zip_into ∅ fieldnames line in
  let lf := length fieldnames in
  let lr := length line in
  if lf <? lr then {| fields := d; rest := Some (drop lf line) |}
  else if lr <? lf
       then {| fields := fill_restval d (drop lr fieldnames); rest := None |}
  else {| fields := d; rest := None |}.

Definition is_blank_line (line : list string) : bool :=
  match line with [] => true | _ => false end.

(** [list(csv.DictReader(f))]: the first line read is the header, blank
    lines after it are skipped. *)
Definition DictReader (text : string) : list row :=
  match Csv.reader text with
  | [] => []
  | fieldnames :: lines =>
      map (make_row fieldnames)
          (List.filter (λ l, negb (is_blank_line l)) lines)
  end.

End Dict.

(** ** The world outside the process *)

(** The store file (absent, or its text) and the upload tree: regular files
    by resolved absolute path, and the directories that exist. *)
Record World : Type := mkWorld {
  csv : option string;
  files : gmap (list string) string;
  dirs : gset (list string)
}.

(** ** Record store *)
Module Store.
Import Dict.

Definition _csv_columns : list string :=
  [ "id"; "created_utc"; "kind"; "title"; "price_tenge"; "phone";
    "description"; "photos"; "password" ].

Definition set_csv (w : World) (text : string) : World :=
  {| csv := Some text; files := files w; dirs := dirs w |}.

Definition _ensure_csv_header (w : World) : World :=
  match csv w with
  | None => set_csv w (Csv.writerow _csv_columns)
  | Some text =>
      let rows := Csv.reader text in
      match rows with
      | [] => set_csv w (Csv.writerow _csv_columns)
      | header :: body =>
          let expected := _csv_columns in
          if decide (header = expected) then w
          else if decide ("password" ∉ header) then
            let new_header := header ++ ["password"] in
            let new_rows := new_header :: map (λ r, r ++ [EmptyString]) body in
            set_csv w (Csv.writerows new_rows)
          else w
      end
  end.

(** The lines [_ensure_csv_header] writes when [password] is missing:
    [new_rows]. *)
Definition migrated (header : list string) (body : list (list string))
  : list (list string) :=
  (header ++ ["password"]) :: map (λ r, r ++ [EmptyString]) body.

(** The file is opened for appending: it exists after
    [_ensure_csv_header]. *)
Definition _save_submission_row (w : World)
    (sid created_utc kind title price_tenge phone description : string)
    (photos : list string) (password : string) : World :=
  let w1 := _ensure_csv_header w in
  let line := Csv.writerow [ sid; created_utc; kind; title; price_tenge;
                             phone; description; Py.join ";" photos;
                             password ] in
  match csv w1 with
  | Some text => set_csv w1 (text +:+ line)
  | None => set_csv w1 line
  end.

(** [(r.get("id") or "").strip()] *)
Definition row_id (r : row) : string :=
  Py.strip (Py.or_ (get r "id") EmptyString).

Definition _read_all_rows (w : World) : list row :=
  match csv w with
  | None => []
  | Some text =>
      List.filter (λ r, Py.truthy (row_id r)) (DictReader text)
  end.

(** [_ensure_csv_header] and [_read_all_rows] read the store to its end:
    they return when there is no store or the reader does not raise on
    it. *)
Definition readable (w : World) : bool :=
  match csv w with
  | None => true
  | Some text => negb (Csv.reader_raises text)
  end.

(** [{c: (r.get(c, "") or "") for c in cols}], in column order. *)
Definition out_line (r : row) : list string :=
  map (λ c, Py.or_ (get_default r c EmptyString) EmptyString) _csv_columns.

(** The row [DictReader] makes of the line written for [r]. *)
Definition reread (r : row) : row := make_row _csv_columns (out_line r).

(** The temporary file is written in full and then replaces the store. *)
Definition _write_all_rows (w : World) (rows : list row) : World :=
  let tmp := Csv.writerow _csv_columns
             +:+ Csv.writerows (map out_line rows) in
  set_csv w tmp.

Fixpoint _find_row (rows : list row) (sid : string) : option row :=
  match rows with
  | [] => None
  | r :: rest => if String.eqb (row_id r) sid then Some r
                 else _find_row rest sid
  end.

(** [r[k] = v] on the row [_find_row] returned: the row is an element of
    [rows], so the list the caller goes on to write holds the change. *)
Fixpoint set_found (rows : list row) (sid k v : string) : list row :=
  match rows with
  | [] => []
  | r :: rest => if String.eqb (row_id r) sid then Dict.set r k v :: rest
                 else r :: set_found rest sid k v
  end.

End Store.

(** ** Paths ([pathlib]) and the upload tree *)
Module Path.

(** [s.split(sep)] for a one-character separator. *)
Fixpoint split (sep : ascii) (s : string) : list string :=
  match s with
  | EmptyString => [EmptyString]
  | String c r =>
      if Ascii.eqb c sep then EmptyString :: split sep r
      else match split sep r with
           | h :: t => String c h :: t
           | [] => [String c EmptyString]
           end
  end.

(** The components of a path string; empty components and [.] are
    dropped when a path is built. *)
Definition parts (s : string) : list string :=
  List.filter (λ p, negb (String.eqb p EmptyString || String.eqb p "."))
              (split "/" s).

Definition is_abs (s : string) : bool :=
  match s with
  | String c _ => Ascii.eqb c "/"
  | EmptyString => false
  end.

(** [p / s]: an absolute right operand replaces the left one. *)
Definition joinpath (p : list string) (s : string) : list string :=
  if is_abs s then parts s else p ++ parts s.

(** [p.resolve()] in a tree without symbolic links: [..] steps are
    taken, and the parent of the root is the root.  [stack] holds the
    components walked so far, innermost first. *)
Fixpoint resolve_from (stack : list string) (comps : list string) : list string :=
  match comps with
  | [] => reverse stack
  | c :: cs =>
      if String.eqb c ".." then resolve_from (tail stack) cs
      else resolve_from (c :: stack) cs
  end.

Definition resolve (p : list string) : list string := resolve_from [] p.

(** [str(p)] of an absolute path. *)
Definition str (p : list string) : string :=
  match p with
  | [] => "/"
  | _ => foldr (λ c acc, "/" +:+ c +:+ acc) EmptyString p
  end.

(** [p.name] *)
Definition name (p : list string) : string := List.last p EmptyString.

(** [p.stem] and [p.suffix] of a file name. *)
Definition has_suffix (nm : string) : option nat :=
  match Py.rfind_dot nm with
  | Some i => if (0 <? i) && (i <? String.length nm - 1) then Some i else None
  | None => None
  end.

Definition stem (nm : string) : string :=
  match has_suffix nm with
  | Some i => String.substring 0 i nm
  | None => nm
  end.

Definition suffix (nm : string) : string :=
  match has_suffix nm with
  | Some i => String.substring i (String.length nm - i) nm
  | None => EmptyString
  end.

(** [q] lies strictly below the directory [base]: the components of
    [base], and at least one more. *)
Definition strictly_inside (base q : list string) : Prop :=
  ∃ more, more ≠ [] ∧ q = base ++ more.

End Path.

Module Fs.

Definition is_file (w : World) (p : list string) : bool :=
  bool_decide (is_Some (files w !! Path.resolve p)).

Definition is_dir (w : World) (p : list string) : bool :=
  bool_decide (Path.resolve p ∈ dirs w).

Definition exists_ (w : World) (p : list string) : bool :=
  is_file w p || is_dir w p.

Definition unlink (w : World) (p : list string) : World :=
  {| csv := csv w; files := delete (Path.resolve p) (files w); dirs := dirs w |}.

Fixpoint prefixes (p : list string) : list (list string) :=
  match p with
  | [] => [[]]
  | c :: cs => [] :: map (cons c) (prefixes cs)
  end.

(** [d.mkdir(parents=True, exist_ok=True)] *)
Definition mkdir (w : World) (d : list string) : World :=
  {| csv := csv w; files := files w;
     dirs := dirs w ∪ list_to_set (prefixes (Path.resolve d)) |}.

(** [f.save(target)]: the uploaded body is written to [target]. *)
Definition save (w : World) (target : list string) (body : string) : World :=
  {| csv := csv w; files := <[Path.resolve target := body]> (files w);
     dirs := dirs w |}.

(** Names of the regular files directly in [d] ([d.iterdir()] with
    [is_file()]), in no particular order. *)
Definition file_names (w : World) (d : list string) : list string :=
  omap (λ kv, match reverse (fst kv) with
              | nm :: up => if decide (reverse up = Path.resolve d)
                            then Some nm else None
              | [] => None
              end)
       (map_to_list (files w)).

(** [sorted(names)] *)
Fixpoint insert_sorted (x : string) (l : list string) : list string :=
  match l with
  | [] => [x]
  | y :: t => if String.leb x y then x :: l else y :: insert_sorted x t
  end.

Definition sorted (l : list string) : list string :=
  foldr insert_sorted [] l.

End Fs.

(** ** Configuration, session, requests and responses *)

Record Config : Type := mkConfig {
  UPLOADS_DIR : list string;   (* resolved at start-up *)
  ADMIN_KEY : string;          (* stripped at start-up *)
  MAX_FILES : Z;
  MAX_TOTAL_MB : Z;
  MAX_FILE_MB : Z
}.

(** [app.config["MAX_CONTENT_LENGTH"]] *)
Definition MAX_CONTENT_LENGTH (cfg : Config) : Z :=
  (MAX_TOTAL_MB cfg * 1024 * 1024)%Z.

Inductive flash_msg : Type :=
| Flash_wrong_password
| Flash_no_files_selected
| Flash_uploaded (saved : nat)
| Flash_admin_key_unset
| Flash_wrong_key.

(** The signed cookie session: the keys the application uses, each absent
    or present, and the flashed messages. *)
Record Session : Type := mkSession {
  admin_key : option string;
  unlocked_cards : option (list string);
  flashes : list flash_msg
}.

Definition flash (s : Session) (m : flash_msg) : Session :=
  {| admin_key := admin_key s; unlocked_cards := unlocked_cards s;
     flashes := flashes s ++ [m] |}.

Inductive response : Type :=
| Abort (status : nat)
| Redirect (location : string)
| SendFile (body : string)
| ServerError.

(** One part of a multipart upload. *)
Record FileStorage : Type := mkFile {
  filename : string;
  body : string
}.

Record UploadRequest : Type := mkUpload {
  content_length : Z;
  photos : list FileStorage
}.

(** A card of the public or admin feed. *)
Record Item : Type := mkItem {
  item_id : string;
  item_created_utc : string;
  item_kind : string;
  item_title : string;
  item_price_tenge : string;
  item_phone : string;
  item_description : string;
  item_photos : list string;
  item_thumb_url : string;
  item_password : string
}.

Record ThanksPage : Type := mkThanks {
  thanks_sid : string;
  thanks_photos : list string;
  thanks_kind : string
}.

(** ** The application *)
Module App.
Import Dict Store.

Section Handlers.

(** Library functions the handlers call on file names, and the random
    tokens they draw: [werkzeug.utils.secure_filename],
    [urllib.parse.quote], and the successive values of
    [uuid.uuid4().hex[:6]]. *)
Variable secure_filename : string → string.
Variable quote : string → string.
Variable uuid_hex6 : nat → string.

Variable cfg : Config.

(** [hmac.compare_digest] on two [str]: a [TypeError] (here [None])
    unless both are ASCII. *)
Definition compare_digest (a b : string) : option bool :=
  if Py.isascii a && Py.isascii b then Some (String.eqb a b) else None.

(** [(r.get(k) or "").strip()] *)
Definition field_of (r : row) (k : string) : string :=
  Py.strip (Py.or_ (get r k) EmptyString).

Definition _list_photos (w : World) (sid : string) : list string :=
  let d := Path.joinpath (UPLOADS_DIR cfg) sid in
  if negb (Fs.exists_ w d) || negb (Fs.is_dir w d) then []
  else Fs.sorted (Fs.file_names w d).

(** The text after the last dot, lower-cased; empty without a dot. *)
Definition ext_of (nm : string) : string :=
  match Py.rfind_dot nm with
  | Some i => Py.lower (String.substring (S i) (String.length nm - S i) nm)
  | None => EmptyString
  end.

Definition _thumb_url (sid kind : string) (photos : list string) : string :=
  match photos with
  | first :: _ =>
      if bool_decide (ext_of first ∈ ["jpg"; "jpeg"; "png"; "webp"; "gif"])
      then "/uploads/" +:+ sid +:+ "/" +:+ quote first
      else "/static/logo.jpeg"
  | [] => "/static/logo.jpeg"
  end.

(** [[p for p in photos_raw.split(";") if p]] *)
Definition split_photos (photos_raw : string) : list string :=
  List.filter Py.truthy (Path.split ";" photos_raw).

(** [items.sort(key=created_utc, reverse=True)]: stable, larger keys
    first. *)
Fixpoint insert_newest (x : Item) (l : list Item) : list Item :=
  match l with
  | [] => [x]
  | y :: t =>
      if String.ltb (item_created_utc x) (item_created_utc y)
      then y :: insert_newest x t
      else x :: l
  end.

Definition sort_newest (l : list Item) : list Item := foldr insert_newest [] l.

(** Line 235: the kind shown on the public page. *)
Definition public_kind (r : row) : string :=
  Py.lower (Py.strip (Py.or_ (get r "kind") "material")).

Definition public_item (r : row) : Item :=
  let sid := row_id r in
  let kind := public_kind r in
  let photos_raw := field_of r "photos" in
  let photos := if Py.truthy photos_raw then split_photos photos_raw else [] in
  {| item_id := sid;
     item_created_utc := field_of r "created_utc";
     item_kind := kind;
     item_title := field_of r "title";
     item_price_tenge := field_of r "price_tenge";
     item_phone := field_of r "phone";
     item_description := field_of r "description";
     item_photos := photos;
     item_thumb_url := _thumb_url sid kind photos;
     item_password := field_of r "password" |}.

Definition _load_submissions (w : World) (limit : nat) : list Item :=
  match csv w with
  | None => []
  | Some text =>
      let rows := List.filter (λ r, Py.truthy (row_id r)) (DictReader text) in
      take limit (sort_newest (map public_item rows))
  end.

(** [if kind not in {"buy", "sell"}: kind = "sell"] *)
Definition buy_or_sell (kind : string) : string :=
  if bool_decide (kind ∉ ["buy"; "sell"]) then "sell" else kind.

(** Lines 373 to 375: the kind shown on the admin page. *)
Definition admin_kind (r : row) : string :=
  buy_or_sell (Py.lower (Py.strip (Py.or_ (get r "kind") "sell"))).

Definition admin_item (w : World) (r : row) : Item :=
  let sid := row_id r in
  let kind := admin_kind r in
  let photos_raw := field_of r "photos" in
  let photos := if Py.truthy photos_raw then split_photos photos_raw
                else _list_photos w sid in
  {| item_id := sid;
     item_created_utc := field_of r "created_utc";
     item_kind := kind;
     item_title := field_of r "title";
     item_price_tenge := field_of r "price_tenge";
     item_phone := field_of r "phone";
     item_description := field_of r "description";
     item_photos := photos;
     item_thumb_url := _thumb_url sid kind photos;
     item_password := field_of r "password" |}.

Definition _admin_submissions (w : World) (limit : nat) : list Item :=
  take limit (sort_newest (map (admin_item w) (_read_all_rows w))).

(** A value used as a condition: [None] and the empty dict are false. *)
Definition found (r : option row) : bool :=
  match r with
  | Some d => Dict.truthy d
  | None => false
  end.

(** Lines 284 to 286. *)
Definition thanks_page_kind (r : option row) : string :=
  buy_or_sell
    (Py.lower (Py.strip (match r with
                         | Some d => if Dict.truthy d
                                     then Py.or_ (get d "kind") "sell"
                                     else "sell"
                         | None => "sell"
                         end))).

(** [GET /thanks/<sid>]: the values handed to the template. *)
Definition thanks (w : World) (sid : string) : ThanksPage :=
  let rows := _read_all_rows w in
  let r := _find_row rows sid in
  let kind := thanks_page_kind r in
  let sub_dir := Path.joinpath (UPLOADS_DIR cfg) sid in
  let photos := if Fs.exists_ w sub_dir && Fs.is_dir w sub_dir
                then Fs.sorted (Fs.file_names w sub_dir) else [] in
  {| thanks_sid := sid; thanks_photos := photos; thanks_kind := kind |}.

(** *** Session gate *)

Definition _is_admin (s : Session) : option bool :=
  if negb (Py.truthy (ADMIN_KEY cfg)) then Some false
  else
    let k := default EmptyString (admin_key s) in
    if negb (Py.truthy k) then Some false
    else compare_digest k (ADMIN_KEY cfg).

(** [session.get("unlocked_cards", []) or []] *)
Definition unlocked_of (s : Session) : list string :=
  default [] (unlocked_cards s).

Definition set_unlocked (s : Session) (l : list string) : Session :=
  {| admin_key := admin_key s; unlocked_cards := Some l;
     flashes := flashes s |}.

(** [POST /unlock/<sid>]; [form_password] is
    [request.form.get("password")]. *)
Definition unlock (w : World) (s : Session) (sid : string)
           (form_password : option string) : response * Session :=
  let password := Py.strip (Py.or_ form_password EmptyString) in
  let rows := _read_all_rows w in
  let r := _find_row rows sid in
  match r with
  | None => (Abort 404, s)
  | Some d =>
      if negb (Dict.truthy d) then (Abort 404, s)
      else
        let expected := field_of d "password" in
        if negb (Py.truthy expected) then (Redirect "/", s)
        else
          let wrong := (Redirect "/", flash s Flash_wrong_password) in
          if Py.truthy password then
            match compare_digest password expected with
            | None => (ServerError, s)
            | Some true =>
                let unlocked := unlocked_of s in
                let unlocked :=
                  if bool_decide (sid ∉ unlocked) then unlocked ++ [sid]
                  else unlocked in
                (Redirect "/", set_unlocked s unlocked)
            | Some false => wrong
            end
          else wrong
  end.

(** *** Serving photos *)

(** [posixpath.normpath] of a relative path, by components: a [..] step
    cancels the component before it, and stays when there is none. *)
Fixpoint normpath_from (stack : list string) (comps : list string) : list string :=
  match comps with
  | [] => reverse stack
  | c :: cs =>
      if String.eqb c ".." then
        match stack with
        | top :: below =>
            if String.eqb top ".." then normpath_from (c :: stack) cs
            else normpath_from below cs
        | [] => normpath_from (c :: stack) cs
        end
      else normpath_from (c :: stack) cs
  end.

(** [werkzeug.security.safe_join]: no absolute file name, none that
    leaves the directory. *)
Definition safe_join (directory : list string) (fname : string) : option (list string) :=
  if Path.is_abs fname then None
  else
    match normpath_from [] (Path.parts fname) with
    | c :: cs => if String.eqb c ".." then None else Some (directory ++ c :: cs)
    | [] => Some directory
    end.

(** [send_from_directory]: 404 unless the joined path is a regular
    file. *)
Definition send_from_directory (w : World) (directory : list string)
           (fname : string) : response :=
  match safe_join directory fname with
  | None => Abort 404
  | Some p =>
      match files w !! Path.resolve p with
      | Some content => SendFile content
      | None => Abort 404
      end
  end.

(** [GET /uploads/<sid>/<path:filename>] *)
Definition uploads (w : World) (s : Session) (sid fname : string) : response :=
  match _is_admin s with
  | None => ServerError
  | Some is_admin =>
      let forbidden :=
        if negb is_admin then
          let rows := _read_all_rows w in
          let r := _find_row rows sid in
          if found r then
            let expected :=
              match r with Some d => field_of d "password" | None => EmptyString end in
            if Py.truthy expected then
              let unlocked := unlocked_of s in
              bool_decide (sid ∉ unlocked)
            else false
          else false
        else false in
      if forbidden then Abort 403
      else send_from_directory w (Path.joinpath (UPLOADS_DIR cfg) sid) fname
  end.

(** *** Admin *)

(** [@admin_required]: without admin proof the handler is not run. *)
Definition admin_required {A : Type} (s : Session)
           (handler : response * A) (keep : A) : response * A :=
  match _is_admin s with
  | None => (ServerError, keep)
  | Some true => handler
  | Some false => (Redirect "/admin/login", keep)
  end.

(** The resynchronisation both photo handlers end with:
    [r["photos"] = ";".join(_list_photos(sid))] and a full rewrite, when
    the row exists. *)
Definition resync_photos (w : World) (sid : string) : World :=
  let rows := _read_all_rows w in
  let r := _find_row rows sid in
  if found r then
    _write_all_rows w
      (set_found rows sid "photos" (Py.join ";" (_list_photos w sid)))
  else w.

(** [POST /admin/photo_delete/<sid>/<path:filename>] *)
Definition admin_photo_delete (w : World) (s : Session) (sid fname : string)
  : response * World :=
  admin_required s
    (let p := Path.resolve (Path.joinpath (Path.joinpath (UPLOADS_DIR cfg) sid) fname) in
     let base := Path.resolve (Path.joinpath (UPLOADS_DIR cfg) sid) in
     if negb (Py.startswith (Path.str p) (Path.str base)) then (Abort 400, w)
     else
       let w1 := if Fs.exists_ w p && Fs.is_file w p then Fs.unlink w p else w in
       (Redirect ("/admin/edit/" +:+ sid), resync_photos w1 sid))
    w.

(** The body of the upload loop: world, tokens drawn and files saved so
    far. *)
Definition save_upload (sub_dir : list string)
           (st : World * nat * nat) (f : FileStorage) : World * nat * nat :=
  let '(w, drawn, saved) := st in
  let name := Py.or_ (Some (secure_filename (filename f))) "photo.jpg" in
  let target := Path.joinpath sub_dir name in
  let '(target, drawn) :=
    if Fs.exists_ w target
    then (Path.joinpath sub_dir
            (Path.stem (Path.name target) +:+ "_" +:+ uuid_hex6 drawn
             +:+ Path.suffix (Path.name target)),
          S drawn)
    else (target, drawn) in
  (Fs.save w target (body f), drawn, S saved).

(** [POST /admin/upload/<sid>].  [request.files] is where the framework
    refuses a request longer than [MAX_CONTENT_LENGTH] with 413. *)
Definition admin_upload (w : World) (s : Session) (sid : string)
           (req : UploadRequest) : response * (World * Session) :=
  admin_required s
    (if (MAX_CONTENT_LENGTH cfg <? content_length req)%Z then (Abort 413, (w, s))
     else
       let files := List.filter (λ f, Py.truthy (filename f)) (photos req) in
       match files with
       | [] => (Redirect ("/admin/edit/" +:+ sid), (w, flash s Flash_no_files_selected))
       | _ =>
           let sub_dir := Path.joinpath (UPLOADS_DIR cfg) sid in
           let w1 := Fs.mkdir w sub_dir in
           let '(w2, _, saved) := foldl (save_upload sub_dir) (w1, 0, 0) files in
           (Redirect ("/admin/edit/" +:+ sid),
            (resync_photos w2 sid, flash s (Flash_uploaded saved)))
       end)
    (w, s).

End Handlers.
End App.

(** ** Sample data *)
Module Sample.
Import Dict.

Definition cfg : Config :=
  {| UPLOADS_DIR := ["srv"; "uploads"]; ADMIN_KEY := "s3cret";
     MAX_FILES := 5; MAX_TOTAL_MB := 25; MAX_FILE_MB := 10 |}.

(** A file given line by line, every line ended by CR LF. *)
Definition text_of_lines (ls : list string) : string :=
  foldr (λ l acc, l +:+ Csv.lineterminator +:+ acc) EmptyString ls.

Definition header_line : string :=
  "id,created_utc,kind,title,price_tenge,phone,description,photos,password".


(** The listing X1 with the password [abc]. *)
Definition locked_store : string :=
  text_of_lines
    [ header_line;
      "X1,2024-01-01T00:00:00+00:00,material,Book,100,,A book,photo.jpg,abc" ].


(** A store with a column the application does not know. *)
Definition annotated_store : string :=
  text_of_lines
    [ "id,created_utc,kind,title,price_tenge,phone,description,photos,password,note";
      "X1,2024-01-01T00:00:00+00:00,material,Book,100,,A book,photo.jpg,abc,fragile" ].

(** The upload tree with one photo of listing [sid]. *)
Definition tree (sid : string) : gmap (list string) string :=
  {[ ["srv"; "uploads"; sid; "photo.jpg"] := "JPEG" ]}.

Definition tree_dirs (sid : string) : gset (list string) :=
  list_to_set (Fs.prefixes ["srv"; "uploads"; sid]).

Definition world (store : option string) (sid : string) : World :=
  {| csv := store; files := tree sid; dirs := tree_dirs sid |}.

Definition visitor : Session :=
  {| admin_key := None; unlocked_cards := None; flashes := [] |}.

Definition admin : Session :=
  {| admin_key := Some "s3cret"; unlocked_cards := None; flashes := [] |}.

(** A row whose id is one space. *)
Definition blank_id_row : row :=
  {| fields := <["id" := Some " "]> (<["title" := Some "Book"]> ∅);
     rest := None |}.

Definition noted_row : row :=
  {| fields := <["id" := Some "X1"]> (<["note" := Some "fragile"]> ∅);
     rest := None |}.

(** A text of [n] characters. *)
Fixpoint filler (n : nat) : string :=
  match n with
  | O => EmptyString
  | S k => String "x" (filler k)
  end.

(** A title one character longer than the reader's field limit, and the
    row X1 with it. *)
Definition long_title : string :=
  String "x" (filler (N.to_nat Csv.field_size_limit)).

Definition long_title_row : row := Dict.set noted_row "title" long_title.

Definition row_of_kind (kind : option string) : row :=
  {| fields := <["id" := Some "X1"]> (<["kind" := kind]> ∅); rest := None |}.

Definition photo (nm : string) : FileStorage :=
  {| filename := nm; body := "JPEG" |}.

Definition six_photos : UploadRequest :=
  {| content_length := 4096;
     photos := [ photo "a.jpg"; photo "b.jpg"; photo "c.jpg";
                 photo "d.jpg"; photo "e.jpg"; photo "f.jpg" ] |}.

End Sample.

(** * Properties *)

(** A decidable proposition about concrete data, settled by evaluation. *)
Ltac by_evaluation := apply (bool_decide_unpack _); vm_compute; exact I.

(** ** Strings *)
Section StringFacts.
Lemma str_app_cons (c : ascii) (s t : string) : String c s +:+ t = String c (s +:+ t).
Proof. reflexivity. Qed.

Lemma str_app_nil_l (s : string) : EmptyString +:+ s = s.
Proof. reflexivity. Qed.

Lemma str_app_nil_r (s : string) : s +:+ EmptyString = s.
Proof. induction s as [|c s IH]; [reflexivity|]. rewrite str_app_cons. by rewrite IH. Qed.

Lemma str_app_assoc (s t u : string) : (s +:+ t) +:+ u = s +:+ (t +:+ u).
Proof. induction s as [|c s IH]; [reflexivity|]. rewrite !str_app_cons. by rewrite IH. Qed.

Lemma str_app_snoc (s : string) (c : ascii) (t : string) :
  (s +:+ String c EmptyString) +:+ t = s +:+ String c t.
Proof. by rewrite str_app_assoc. Qed.
End StringFacts.

(** ** The reader inverts the writer *)
Module CsvFacts.
Import Csv.

Lemma special_false c :
  special c = false →
  Ascii.eqb c COMMA = false ∧ Ascii.eqb c DQ = false ∧ is_newline c = false.
Proof.
  unfold special, is_newline.
  destruct (Ascii.eqb c COMMA), (Ascii.eqb c DQ), (Ascii.eqb c CR), (Ascii.eqb c LF);
    simpl; intros; try discriminate; auto.
Qed.

Lemma parse_unquoted f : ∀ acc fs rest,
  needs_quote f = false →
  parse IN_FIELD acc fs (f +:+ rest) = parse IN_FIELD (acc +:+ f) fs rest.
Proof.
  induction f as [|c f IH]; intros acc fs rest Hq.
  - by rewrite str_app_nil_r.
  - simpl in Hq. apply orb_false_elim in Hq as [Hc Hq].
    apply special_false in Hc as (Hcomma & _ & Hnl).
    rewrite str_app_cons. cbn [parse]. rewrite Hnl, Hcomma.
    rewrite IH by done. by rewrite str_app_snoc.
Qed.

Lemma parse_quoted f : ∀ acc fs rest,
  parse IN_QUOTED_FIELD acc fs (double_quotes f +:+ String DQ rest)
  = parse QUOTE_IN_QUOTED_FIELD (acc +:+ f) fs rest.
Proof.
  induction f as [|c f IH]; intros acc fs rest.
  - rewrite str_app_nil_r. cbn. reflexivity.
  - cbn [double_quotes]. destruct (Ascii.eqb c DQ) eqn:E.
    + apply Ascii.eqb_eq in E as ->.
      rewrite !str_app_cons. cbn [parse]. rewrite Ascii.eqb_refl.
      rewrite IH. by rewrite str_app_snoc.
    + rewrite str_app_cons. cbn [parse]. rewrite E.
      rewrite IH. by rewrite str_app_snoc.
Qed.

Lemma is_newline_DQ : is_newline DQ = false.
Proof. reflexivity. Qed.

(** In front of a character that is no line end, the start of a record
    is the start of a field. *)
Lemma parse_start_record c text f fs :
  is_newline c = false →
  parse START_RECORD f fs (String c text) = parse START_FIELD f fs (String c text).
Proof. intros H. cbn [parse]. by rewrite H. Qed.

Lemma parse_crlf st f fs rest :
  st = START_FIELD ∨ st = IN_FIELD ∨ st = QUOTE_IN_QUOTED_FIELD →
  parse st f fs (lineterminator +:+ rest)
  = (fs ++ [f]) :: parse START_RECORD EmptyString [] rest.
Proof. intros [->|[->| ->]]; reflexivity. Qed.

Lemma parse_comma st f fs rest :
  st = START_FIELD ∨ st = IN_FIELD ∨ st = QUOTE_IN_QUOTED_FIELD →
  parse st f fs (String COMMA rest)
  = parse START_FIELD EmptyString (fs ++ [f]) rest.
Proof. intros [->|[->| ->]]; reflexivity. Qed.

(** After a written field the reader holds exactly that field, in a state
    from which a delimiter or a line end saves it. *)
Lemma parse_join_append f fs rest :
  ∃ st, (st = START_FIELD ∨ st = IN_FIELD ∨ st = QUOTE_IN_QUOTED_FIELD)
        ∧ parse START_FIELD EmptyString fs (join_append f +:+ rest)
          = parse st f fs rest.
Proof.
  unfold join_append. destruct (needs_quote f) eqn:Hq.
  - exists QUOTE_IN_QUOTED_FIELD. split; [auto|].
    unfold quoted. rewrite str_app_cons, str_app_assoc, str_app_cons, str_app_nil_l.
    cbn [parse]. rewrite is_newline_DQ, Ascii.eqb_refl.
    by rewrite parse_quoted.
  - destruct f as [|c f].
    + exists START_FIELD. by split; [auto|].
    + exists IN_FIELD. split; [auto|].
      simpl in Hq. apply orb_false_elim in Hq as [Hc Hq].
      apply special_false in Hc as (Hcomma & Hdq & Hnl).
      rewrite str_app_cons. cbn [parse]. rewrite Hnl, Hdq, Hcomma.
      rewrite str_app_nil_l. by rewrite parse_unquoted.
Qed.

Lemma parse_join_record row : ∀ fs rest,
  row ≠ [] →
  parse START_FIELD EmptyString fs (join_record row +:+ (lineterminator +:+ rest))
  = (fs ++ row) :: parse START_RECORD EmptyString [] rest.
Proof.
  induction row as [|f row IH]; intros fs rest Hne; [done|].
  destruct row as [|f2 row].
  - cbn [join_record].
    destruct (parse_join_append f fs (lineterminator +:+ rest)) as (st & Hst & ->).
    by apply parse_crlf.
  - change (join_record (f :: f2 :: row))
      with (join_append f +:+ String COMMA (join_record (f2 :: row))).
    rewrite str_app_assoc, str_app_cons.
    destruct (parse_join_append f fs
                (String COMMA (join_record (f2 :: row) +:+ (lineterminator +:+ rest))))
      as (st & Hst & ->).
    rewrite parse_comma by done. rewrite IH by done.
    by rewrite <- (assoc_L (++)).
Qed.

Lemma join_append_head f c s :
  join_append f = String c s → is_newline c = false.
Proof.
  unfold join_append. destruct (needs_quote f) eqn:Hq.
  - unfold quoted. intros [= <- _]. reflexivity.
  - intros ->. simpl in Hq. apply orb_false_elim in Hq as [Hc _].
    by apply special_false in Hc as (_ & _ & Hnl).
Qed.

Lemma join_record_head row c s :
  join_record row = String c s → is_newline c = false.
Proof.
  destruct row as [|f [|f2 row]]; [done| |].
  - apply join_append_head.
  - change (join_record (f :: f2 :: row))
      with (join_append f +:+ String COMMA (join_record (f2 :: row))).
    destruct (join_append f) as [|c' s'] eqn:Hf.
    + rewrite str_app_nil_l. intros [= <- _]. reflexivity.
    + rewrite str_app_cons. intros [= <- _]. by eapply join_append_head.
Qed.

Lemma join_record_empty row :
  join_record row = EmptyString → row = [] ∨ row = [EmptyString].
Proof.
  destruct row as [|f [|f2 row]]; [by left| |].
  - cbn [join_record]. unfold join_append.
    destruct (needs_quote f); [done|]. intros ->. by right.
  - change (join_record (f :: f2 :: row))
      with (join_append f +:+ String COMMA (join_record (f2 :: row))).
    destruct (join_append f); [rewrite str_app_nil_l | rewrite str_app_cons]; done.
Qed.

(** One written row reads back as that row, whatever follows it. *)
Lemma parse_writerow row rest :
  parse START_RECORD EmptyString [] (writerow row +:+ rest)
  = row :: parse START_RECORD EmptyString [] rest.
Proof.
  unfold writerow. destruct row as [|f row]; [reflexivity|].
  destruct (join_record (f :: row)) as [|c s] eqn:Hrec.
  - apply join_record_empty in Hrec as [?| ->]; [done|]. reflexivity.
  - rewrite str_app_assoc, str_app_cons.
    rewrite parse_start_record by (by eapply join_record_head).
    rewrite <- str_app_cons, <- Hrec.
    by rewrite parse_join_record.
Qed.

(** The reader inverts the writer. *)
Lemma reader_writerows rows : reader (writerows rows) = rows.
Proof.
  unfold reader. induction rows as [|row rows IH]; [reflexivity|].
  cbn [writerows]. by rewrite parse_writerow, IH.
Qed.

End CsvFacts.

(** ** Record store: what a full rewrite keeps *)
Module StoreFacts.
Import Dict Store CsvFacts.

Lemma reader_writerow line : Csv.reader (Csv.writerow line) = [line].
Proof.
  rewrite <- (str_app_nil_r (Csv.writerow line)).
  unfold Csv.reader. by rewrite parse_writerow.
Qed.

Lemma reader_written header lines :
  Csv.reader (Csv.writerow header +:+ Csv.writerows lines) = header :: lines.
Proof. apply (reader_writerows (header :: lines)). Qed.

Lemma or_get_default (r : row) k :
  Py.or_ (get_default r k EmptyString) EmptyString = Py.or_ (get r k) EmptyString.
Proof. unfold get_default, get. by destruct (fields r !! k) as [[[|c s]|]|]. Qed.

Lemma or_idem v : Py.or_ (Some (Py.or_ v EmptyString)) EmptyString = Py.or_ v EmptyString.
Proof. by destruct v as [[|c s]|]. Qed.

(** The value [_write_all_rows] emits for column [c]: the stored string,
    or the empty string where there is none. *)
Lemma or_get_value (r : row) c :
  Py.or_ (get r c) EmptyString
  = match fields r !! c with Some (Some v) => v | _ => EmptyString end.
Proof. unfold get. by destruct (fields r !! c) as [[[|a s]|]|]. Qed.

Lemma zip_into_lookup (f : string → string) ks : ∀ d k,
  zip_into d ks (map f ks) !! k
  = if decide (k ∈ ks) then Some (Some (f k)) else d !! k.
Proof.
  induction ks as [|k0 ks IH]; intros d k; cbn [zip_into map].
  - rewrite decide_False; [done | apply not_elem_of_nil].
  - rewrite IH. destruct (decide (k ∈ ks)) as [Hin|Hout].
    + rewrite decide_True; [done | by apply list_elem_of_further].
    + destruct (decide (k = k0)) as [->|Hne].
      * rewrite lookup_insert_eq. rewrite decide_True; [done | apply list_elem_of_here].
      * rewrite lookup_insert_ne by done.
        rewrite decide_False; [done | by intros [?|?]%elem_of_cons].
Qed.

Lemma reread_fields r k :
  fields (reread r) !! k
  = if decide (k ∈ _csv_columns)
    then Some (Some (Py.or_ (get r k) EmptyString)) else None.
Proof.
  unfold reread, make_row, out_line. rewrite length_map.
  rewrite Nat.ltb_irrefl. cbn [fields]. rewrite zip_into_lookup.
  rewrite or_get_default. by rewrite lookup_empty.
Qed.

Lemma reread_id r : row_id (reread r) = row_id r.
Proof.
  unfold row_id at 1. unfold get. rewrite reread_fields.
  rewrite decide_True by (unfold _csv_columns; set_solver).
  by rewrite or_idem.
Qed.

Lemma filter_not_blank rows :
  List.filter (λ l, negb (is_blank_line l)) (map out_line rows) = map out_line rows.
Proof. induction rows as [|r rows IH]; [done|]. cbn. by rewrite IH. Qed.

Lemma DictReader_written w rows :
  csv (_write_all_rows w rows) = Some (Csv.writerow _csv_columns
                                       +:+ Csv.writerows (map out_line rows))
  ∧ DictReader (Csv.writerow _csv_columns +:+ Csv.writerows (map out_line rows))
    = map reread rows.
Proof.
  split; [done|]. unfold DictReader. rewrite reader_written.
  rewrite filter_not_blank. by rewrite map_map.
Qed.

(** Reading after a full rewrite: the rows with an id, each projected on
    the columns. *)
Lemma read_after_write w rows :
  _read_all_rows (_write_all_rows w rows)
  = map reread (List.filter (λ r, Py.truthy (row_id r)) rows).
Proof.
  unfold _read_all_rows.
  destruct (DictReader_written w rows) as [-> ->].
  induction rows as [|r rows IH]; [done|].
  cbn [map List.filter]. rewrite reread_id.
  destruct (Py.truthy (row_id r)); cbn [map]; by rewrite IH.
Qed.

Lemma find_row_elem rows sid r :
  _find_row rows sid = Some r → r ∈ rows ∧ row_id r = sid.
Proof.
  induction rows as [|r0 rows IH]; [done|]. cbn [_find_row].
  destruct (String.eqb (row_id r0) sid) eqn:E.
  - intros [= <-]. apply String.eqb_eq in E. split; [apply list_elem_of_here | done].
  - intros H. destruct (IH H). split; [by apply list_elem_of_further | done].
Qed.

Lemma read_all_rows_id w r :
  r ∈ _read_all_rows w → Py.truthy (row_id r) = true.
Proof.
  unfold _read_all_rows. destruct (csv w); [|by intros ?%not_elem_of_nil].
  rewrite list_elem_of_In. intros H. by apply List.filter_In in H as [_ H].
Qed.

(** A row with an id is a true value: it has the key [id]. *)
Lemma row_with_id_truthy r : Py.truthy (row_id r) = true → Dict.truthy r = true.
Proof.
  unfold row_id, get, Dict.truthy. intros H.
  destruct (fields r !! "id") as [v|] eqn:Hid; [|done].
  apply orb_true_intro. left. apply negb_true_iff, bool_decide_eq_false.
  intros Hempty. rewrite Hempty in Hid. by rewrite lookup_empty in Hid.
Qed.

Lemma found_in_store w sid r :
  _find_row (_read_all_rows w) sid = Some r → App.found (Some r) = true.
Proof.
  intros [Hin _]%find_row_elem. cbn.
  by apply row_with_id_truthy, (read_all_rows_id w).
Qed.

End StoreFacts.

(** ** The reader's field limit and the stores the application writes *)
Module LimitFacts.
Import Dict Store StoreFacts CsvFacts.

(** Every value of the row, under whatever key, fits in a field. *)
Definition row_fits (r : row) : Prop :=
  ∀ c, Csv.too_long (Py.or_ (get r c) EmptyString) = false.

Lemma empty_fits : Csv.too_long EmptyString = false.
Proof. reflexivity. Qed.

Lemma columns_fit : existsb Csv.too_long _csv_columns = false.
Proof. by vm_compute. Qed.

Lemma no_long_field lines :
  existsb (existsb Csv.too_long) lines = false
  ↔ Forall (Forall (λ v, Csv.too_long v = false)) lines.
Proof.
  assert (Hline : ∀ line, existsb Csv.too_long line = false
                          ↔ Forall (λ v, Csv.too_long v = false) line).
  { induction line as [|v line IH]; cbn [existsb]; [by split; [constructor|]|].
    rewrite orb_false_iff, Forall_cons. by rewrite IH. }
  induction lines as [|line lines IH]; cbn [existsb]; [by split; [constructor|]|].
  rewrite orb_false_iff, Forall_cons. by rewrite IH, Hline.
Qed.

(** What the writer wrote is read without an exception exactly when no
    field written is longer than the limit. *)
Lemma raises_writerows lines :
  Csv.reader_raises (Csv.writerows lines) = existsb (existsb Csv.too_long) lines.
Proof. unfold Csv.reader_raises. by rewrite reader_writerows. Qed.

Lemma readable_lines w lines :
  csv w = Some (Csv.writerows (_csv_columns :: lines)) →
  readable w = true ↔ Forall (Forall (λ v, Csv.too_long v = false)) lines.
Proof.
  intros Hcsv. unfold readable. rewrite Hcsv, raises_writerows.
  cbn [existsb]. rewrite columns_fit, orb_false_l, negb_true_iff.
  apply no_long_field.
Qed.

Lemma readable_write_all w rows :
  readable (_write_all_rows w rows) = true
  ↔ Forall (λ r, Forall (λ v, Csv.too_long v = false) (out_line r)) rows.
Proof.
  rewrite (readable_lines _ (map out_line rows)) by done.
  by rewrite Forall_fmap.
Qed.

Lemma row_fits_out_line r :
  row_fits r → Forall (λ v, Csv.too_long v = false) (out_line r).
Proof.
  intros Hr. unfold out_line. apply Forall_fmap, Forall_forall. intros c _.
  cbn. rewrite or_get_default. apply Hr.
Qed.

Lemma zip_into_value ks : ∀ d vs k v,
  zip_into d ks vs !! k = Some (Some v) → v ∈ vs ∨ d !! k = Some (Some v).
Proof.
  induction ks as [|k0 ks IH]; intros d vs k v; [by right|].
  destruct vs as [|v0 vs]; [by right|]. cbn [zip_into].
  intros [Hin|Hd]%IH; [left; by apply list_elem_of_further|].
  destruct (decide (k = k0)) as [->|Hne].
  - rewrite lookup_insert_eq in Hd. injection Hd as <-. left. apply list_elem_of_here.
  - rewrite lookup_insert_ne in Hd by done. by right.
Qed.

Lemma fill_restval_value ks : ∀ d k v,
  fill_restval d ks !! k = Some (Some v) → d !! k = Some (Some v).
Proof.
  induction ks as [|k0 ks IH]; intros d k v; [done|]. cbn [fill_restval].
  intros Hd%IH. destruct (decide (k = k0)) as [->|Hne].
  - by rewrite lookup_insert_eq in Hd.
  - by rewrite lookup_insert_ne in Hd.
Qed.

(** A value of a row of [DictReader] is a field of its line. *)
Lemma make_row_value fieldnames line c v :
  get (make_row fieldnames line) c = Some v → v ∈ line.
Proof.
  unfold get. destruct (fields (make_row fieldnames line) !! c) as [[v0|]|] eqn:Hc;
    [|done..].
  intros [= ->]. unfold make_row in Hc.
  destruct (_ <? _); [|destruct (_ <? _)]; cbn [fields] in Hc.
  - apply zip_into_value in Hc as [?|Hc]; [done | by rewrite lookup_empty in Hc].
  - apply fill_restval_value, zip_into_value in Hc as [?|Hc];
      [done | by rewrite lookup_empty in Hc].
  - apply zip_into_value in Hc as [?|Hc]; [done | by rewrite lookup_empty in Hc].
Qed.

(** The rows read from a readable store hold no value longer than the
    limit. *)
Lemma read_rows_fit w : readable w = true → Forall row_fits (_read_all_rows w).
Proof.
  unfold readable, _read_all_rows. destruct (csv w) as [text|]; [|by constructor].
  rewrite negb_true_iff. unfold Csv.reader_raises. intros Hfit%no_long_field.
  apply Forall_forall. intros r Hr.
  apply list_elem_of_In, List.filter_In in Hr as [Hr%list_elem_of_In _].
  unfold DictReader in Hr. destruct (Csv.reader text) as [|fieldnames lines];
    [by apply not_elem_of_nil in Hr|].
  apply list_elem_of_fmap in Hr as (line & -> & Hline).
  apply list_elem_of_In, List.filter_In in Hline as [Hline%list_elem_of_In _].
  apply Forall_cons in Hfit as [_ Hfit].
  intros c. destruct (get (make_row fieldnames line) c) as [v|] eqn:Hv; [|done].
  cbn [Py.or_]. destruct (Py.truthy v); [|done].
  apply make_row_value in Hv.
  eapply Forall_forall in Hfit; [|exact Hline].
  by eapply Forall_forall in Hfit.
Qed.

Lemma set_fits r k v :
  row_fits r → Csv.too_long v = false → row_fits (Dict.set r k v).
Proof.
  intros Hr Hv c. unfold get, Dict.set. cbn [fields].
  destruct (decide (c = k)) as [->|Hne].
  - rewrite lookup_insert_eq. cbn [Py.or_]. by destruct (Py.truthy v).
  - rewrite lookup_insert_ne by done. apply Hr.
Qed.

Lemma or_fits v d :
  Csv.too_long (Py.or_ v EmptyString) = false → Csv.too_long d = false →
  Csv.too_long (Py.or_ v d) = false.
Proof. destruct v as [[|a v]|]; cbn [Py.or_ Py.truthy]; done. Qed.

End LimitFacts.

(** ** Record store: round trip and projection *)
Section StoreProperties.
Import Dict Store StoreFacts LimitFacts.

Lemma out_line_set (r : row) k v :
  k ∉ _csv_columns → out_line (Dict.set r k v) = out_line r.
Proof.
  unfold out_line. generalize _csv_columns as cols.
  induction cols as [|c cols IH]; intros Hk; [done|].
  apply not_elem_of_cons in Hk as [Hne Hk]. cbn [map].
  rewrite IH by done. f_equal. unfold get_default, Dict.set; cbn [fields].
  by rewrite lookup_insert_ne.
Qed.

(** A value longer than the reader's limit makes the store that
    [_write_all_rows] leaves unreadable. *)
Lemma long_value_unreadable (w : World) (rows : list row) :
  Exists (λ r, Exists (λ v, Csv.too_long v = true) (out_line r)) rows →
  readable (_write_all_rows w rows) = false.
Proof.
  intros Hlong. apply not_true_is_false. intros Hread%readable_write_all.
  apply Exists_exists in Hlong as (r & Hr & Hlong).
  apply Exists_exists in Hlong as (v & Hv & Hlong).
  eapply Forall_forall in Hread; [|exact Hr].
  eapply Forall_forall in Hread; [|exact Hv]. congruence.
Qed.

Lemma filler_length n : String.length (Sample.filler n) = n.
Proof. induction n as [|n IH]; [done|]. cbn [Sample.filler String.length]. by rewrite IH. Qed.

Lemma too_long_above (v : string) :
  String.length v = S (N.to_nat Csv.field_size_limit) → Csv.too_long v = true.
Proof.
  intros Hlen. unfold Csv.too_long. rewrite Hlen, Nat2N.inj_succ, N2Nat.id.
  reflexivity.
Qed.

Lemma length_cons (c : ascii) (v : string) :
  String.length (String c v) = S (String.length v).
Proof. reflexivity. Qed.

Lemma long_title_too_long : Csv.too_long Sample.long_title = true.
Proof.
  apply too_long_above. unfold Sample.long_title.
  rewrite length_cons, filler_length. reflexivity.
Qed.

(** A row with a title of 131073 characters is written, and the store
    cannot be read afterwards. *)
Lemma long_title_unreadable (w : World) :
  readable (_write_all_rows w [Sample.long_title_row]) = false.
Proof.
  apply long_value_unreadable. constructor. apply Exists_exists.
  exists Sample.long_title. split; [|apply long_title_too_long].
  unfold out_line. apply list_elem_of_fmap. exists "title".
  split; [|by_evaluation].
  unfold get_default, Sample.long_title_row, Dict.set. cbn [fields].
  rewrite lookup_insert_eq. unfold Sample.long_title. reflexivity.
Qed.

(** C6, amended.  Writing with [_write_all_rows] a list of rows none of
    whose values under [_csv_columns] is longer than the reader's field
    limit leaves a store that [_read_all_rows] reads without an exception,
    and reading returns, in order, the rows whose id is not empty once
    surrounding whitespace is trimmed; in each of them every column of
    [_csv_columns] holds the string the written row had there, unchanged,
    and the empty string where the written row had no string. *)
Theorem write_then_read_roundtrip (w : World) (rows : list row) :
  Forall (λ r, Forall (λ v, Csv.too_long v = false) (out_line r)) rows →
  readable (_write_all_rows w rows) = true
  ∧ Forall2
    (λ r r',
       Forall (λ c, fields r' !! c
                    = Some (Some (match fields r !! c with
                                  | Some (Some v) => v
                                  | _ => EmptyString
                                  end)))
              _csv_columns)
    (List.filter (λ r, Py.truthy (Py.strip (Py.or_ (get r "id") EmptyString))) rows)
    (_read_all_rows (_write_all_rows w rows)).
Proof.
  intros Hfit. split; [by apply readable_write_all|].
  rewrite read_after_write. fold row_id.
  change (λ r, Py.truthy (Py.strip (Py.or_ (get r "id") EmptyString)))
    with (λ r, Py.truthy (row_id r)).
  induction (List.filter (λ r, Py.truthy (row_id r)) rows) as [|r l IH];
    constructor; [|done].
  apply Forall_forall. intros c Hc. rewrite reread_fields.
  destruct (decide (c ∈ _csv_columns)); [|done]. by rewrite or_get_value.
Qed.

Lemma write_then_read_roundtrip_witness :
  let rows := [Sample.blank_id_row; Sample.noted_row] in
  Forall (λ r, Forall (λ v, Csv.too_long v = false) (out_line r)) rows
  ∧ readable (_write_all_rows (Sample.world None "X1") rows) = true
  ∧ Forall2
      (λ r r',
         Forall (λ c, fields r' !! c
                      = Some (Some (match fields r !! c with
                                    | Some (Some v) => v
                                    | _ => EmptyString
                                    end)))
                _csv_columns)
      [Sample.noted_row]
      (_read_all_rows (_write_all_rows (Sample.world None "X1") rows)).
Proof.
  cbv zeta.
  assert (Hfit : Forall (λ r, Forall (λ v, Csv.too_long v = false) (out_line r))
                        [Sample.blank_id_row; Sample.noted_row])
    by (repeat constructor).
  split; [exact Hfit|].
  exact (write_then_read_roundtrip (Sample.world None "X1")
           [Sample.blank_id_row; Sample.noted_row] Hfit).
Defined.

(** C6 as stated fails.  A row whose id is one space has a non-empty
    id, and it is gone after writing and reading back; the row X1 comes
    back, without the field [note] it was written with. *)
Lemma roundtrip_drops_blank_id :
  get Sample.blank_id_row "id" = Some " "
  ∧ (" " ≠ EmptyString)
  ∧ get Sample.noted_row "note" = Some "fragile"
  ∧ map (λ r, (get r "id", get r "note"))
        (_read_all_rows
           (_write_all_rows (Sample.world None "X1")
                            [Sample.blank_id_row; Sample.noted_row]))
    = [(Some "X1", None)].
Proof. split; [|split; [|split]]; [by vm_compute | done | by vm_compute..]. Qed.

(** C10.  [_write_all_rows] projects every row on [_csv_columns]: the
    store it writes is the header line followed by one line for every
    row, in order, holding the row's strings under the nine columns and
    the empty string where it has none.  So a key outside [_csv_columns]
    does not reach the file: whatever value rows carry under it, the same
    store is written; and when the store written can be read, the rows
    with an id come back with the nine columns as their only keys, and no
    row read back has that key, nor any surplus field. *)
Theorem write_all_projects_on_columns (w : World) (rows : list row) (k : string) :
  k ∉ _csv_columns →
  csv (_write_all_rows w rows)
  = Some (Csv.writerows
            (_csv_columns
               :: map (λ r, map (λ c, match fields r !! c with
                                      | Some (Some v) => v
                                      | _ => EmptyString
                                      end) _csv_columns) rows))
  ∧ (∀ v, _write_all_rows w (map (λ r, Dict.set r k v) rows) = _write_all_rows w rows)
  ∧ (readable (_write_all_rows w rows) = true →
     Forall2
       (λ r r',
          (∀ c, fields r' !! c
                = if decide (c ∈ _csv_columns)
                  then Some (Some (match fields r !! c with
                                   | Some (Some v) => v
                                   | _ => EmptyString
                                   end))
                  else None)
          ∧ rest r' = None)
       (List.filter (λ r, Py.truthy (row_id r)) rows)
       (_read_all_rows (_write_all_rows w rows)))
  ∧ Forall (λ r', fields r' !! k = None ∧ rest r' = None)
           (_read_all_rows (_write_all_rows w rows)).
Proof.
  intros Hk. split_and!.
  - unfold _write_all_rows. cbn [csv set_csv Csv.writerows]. do 3 f_equal.
    apply map_ext. intros r. unfold out_line. apply map_ext. intros c.
    by rewrite or_get_default, or_get_value.
  - intros v. unfold _write_all_rows. do 3 f_equal.
    rewrite map_map. apply map_ext. intros r. by apply out_line_set.
  - intros _. rewrite read_after_write.
    apply Forall2_fmap_r, Forall_Forall2_diag, Forall_forall. intros r _.
    split; [|done]. intros c. rewrite reread_fields.
    destruct (decide (c ∈ _csv_columns)); [|done]. by rewrite or_get_value.
  - rewrite read_after_write. apply Forall_forall. intros r' Hr'.
    apply list_elem_of_fmap in Hr' as (r & -> & _).
    rewrite reread_fields. by destruct (decide (k ∈ _csv_columns)).
Qed.

Lemma write_all_projects_on_columns_witness :
  ("note" ∉ _csv_columns)
  ∧ get Sample.noted_row "note" = Some "fragile"
  ∧ csv (_write_all_rows (Sample.world None "X1") [Sample.noted_row])
    = Some (Sample.text_of_lines [Sample.header_line; "X1,,,,,,,,"])
  ∧ Forall (λ r', fields r' !! "note" = None ∧ rest r' = None)
           (_read_all_rows
              (_write_all_rows (Sample.world None "X1") [Sample.noted_row])).
Proof.
  assert (Hk : "note" ∉ _csv_columns) by by_evaluation.
  split; [exact Hk|]. split; [by vm_compute|].
  pose proof (write_all_projects_on_columns
                (Sample.world None "X1") [Sample.noted_row] "note" Hk)
    as (Htext & _ & _ & Hread).
  split; [|exact Hread]. rewrite Htext. by vm_compute.
Defined.

End StoreProperties.

(** ** Header migration *)
Section Migration.
Import Store StoreFacts CsvFacts.

Lemma password_expected : "password" ∈ _csv_columns.
Proof. by_evaluation. Qed.

Lemma ensure_absent w :
  csv w = None → _ensure_csv_header w = set_csv w (Csv.writerow _csv_columns).
Proof. unfold _ensure_csv_header. by intros ->. Qed.

Lemma ensure_no_line w text :
  csv w = Some text → Csv.reader text = [] →
  _ensure_csv_header w = set_csv w (Csv.writerow _csv_columns).
Proof. unfold _ensure_csv_header. by intros -> ->. Qed.

Lemma ensure_with_password w text header body :
  csv w = Some text → Csv.reader text = header :: body →
  "password" ∈ header → _ensure_csv_header w = w.
Proof.
  unfold _ensure_csv_header. intros -> -> Hin.
  destruct (decide (header = _csv_columns)); [done|].
  by destruct (decide ("password" ∉ header)).
Qed.

Lemma ensure_without_password w text header body :
  csv w = Some text → Csv.reader text = header :: body →
  "password" ∉ header →
  _ensure_csv_header w = set_csv w (Csv.writerows (migrated header body)).
Proof.
  unfold _ensure_csv_header. intros -> -> Hout.
  destruct (decide (header = _csv_columns)) as [->|_].
  - destruct (Hout password_expected).
  - by destruct (decide ("password" ∉ header)).
Qed.

Lemma ensure_header_present w :
  _ensure_csv_header w = w
  ∨ ∃ header body,
      csv (_ensure_csv_header w) = Some (Csv.writerows (header :: body))
      ∧ "password" ∈ header.
Proof.
  destruct (csv w) as [text|] eqn:Hcsv.
  - destruct (Csv.reader text) as [|header body] eqn:Hrows.
    + right. exists _csv_columns, []. rewrite (ensure_no_line w text) by done.
      cbn [csv set_csv Csv.writerows]. rewrite str_app_nil_r.
      split; [done | apply password_expected].
    + destruct (decide ("password" ∈ header)) as [Hin|Hout].
      * left. by eapply ensure_with_password.
      * right. exists (header ++ ["password"]), (map (λ r, r ++ [EmptyString]) body).
        rewrite (ensure_without_password w text header body) by done.
        split; [done|]. apply elem_of_app. right. apply list_elem_of_here.
  - right. exists _csv_columns, []. rewrite ensure_absent by done.
    cbn [csv set_csv Csv.writerows]. rewrite str_app_nil_r.
    split; [done | apply password_expected].
Qed.

(** C7.  [_ensure_csv_header] is idempotent: on the store it has left
    (created, migrated, or left alone) a second run changes nothing. *)
Theorem ensure_csv_header_idempotent (w : World) :
  _ensure_csv_header (_ensure_csv_header w) = _ensure_csv_header w.
Proof.
  destruct (ensure_header_present w) as [Hsame|(header & body & Hcsv & Hin)].
  { by rewrite !Hsame. }
  eapply ensure_with_password; [exact Hcsv | | exact Hin].
  apply reader_writerows.
Qed.




End Migration.

(** ** Photo access and unlocking *)
Section Gate.
Import Dict Store StoreFacts App.







(** C8.  Unlocking an id that the session's unlock list already holds
    leaves the list as it is, whatever the outcome of the request; a
    successful unlock in particular. *)
Theorem unlock_idempotent (w : World) (s : Session) (sid : string)
        (form_password : option string) :
  sid ∈ unlocked_of s →
  unlocked_cards (unlock w s sid form_password).2 = unlocked_cards s.
Proof.
  intros Hin. assert (Hsome : unlocked_cards s = Some (unlocked_of s)).
  { unfold unlocked_of in *. destruct (unlocked_cards s); [done|].
    by apply not_elem_of_nil in Hin. }
  unfold unlock. destruct (_find_row _ sid) as [d|]; [|done].
  destruct (Dict.truthy d); [|done]. cbn [negb].
  destruct (Py.truthy (field_of d "password")); [|done]. cbn [negb].
  destruct (Py.truthy _); [|done].
  destruct (compare_digest _ _) as [[|]|]; [|done..].
  cbn [snd set_unlocked unlocked_cards].
  by rewrite bool_decide_eq_false_2 by auto.
Qed.

(** X1 is unlocked already and the right password is sent again. *)
Lemma unlock_idempotent_witness :
  let s := {| admin_key := None; unlocked_cards := Some ["X1"]; flashes := [] |} in
  let w := Sample.world (Some Sample.locked_store) "X1" in
  ("X1" ∈ unlocked_of s)
  ∧ (unlock w s "X1" (Some "abc")).1 = Redirect "/"
  ∧ flashes (unlock w s "X1" (Some "abc")).2 = []
  ∧ unlocked_cards (unlock w s "X1" (Some "abc")).2 = Some ["X1"].
Proof.
  cbv zeta.
  assert (Hin : "X1" ∈ unlocked_of
                  {| admin_key := None; unlocked_cards := Some ["X1"]; flashes := [] |})
    by by_evaluation.
  split; [exact Hin|]. split; [by vm_compute|]. split; [by vm_compute|].
  exact (unlock_idempotent (Sample.world (Some Sample.locked_store) "X1") _ "X1"
           (Some "abc") Hin).
Defined.

(** The first successful unlock does add the id. *)
Lemma unlock_adds_id :
  let w := Sample.world (Some Sample.locked_store) "X1" in
  unlock w Sample.visitor "X1" (Some "abc")
  = (Redirect "/", {| admin_key := None; unlocked_cards := Some ["X1"]; flashes := [] |})
  ∧ unlock w Sample.visitor "X1" (Some "abd")
    = (Redirect "/", flash Sample.visitor Flash_wrong_password).
Proof. cbv zeta. split; by vm_compute. Qed.

End Gate.

(** ** The kind shown by each page *)
Section Kinds.
Import Dict Store App.

Lemma buy_or_sell_cases kind :
  buy_or_sell kind = if decide (kind = "buy") then "buy" else "sell".
Proof.
  unfold buy_or_sell. destruct (decide (kind = "buy")) as [->|Hbuy]; [done|].
  destruct (decide (kind = "sell")) as [->|Hsell]; [done|].
  rewrite bool_decide_eq_true_2; [done|].
  intros Hin. apply elem_of_cons in Hin as [?|Hin]; [done|].
  by apply list_elem_of_singleton in Hin.
Qed.

(** C5, amended.  The public feed shows [material] for a row whose kind
    is absent or empty, and otherwise the stored kind trimmed and
    lower-cased, whether or not it is one of the known kinds.  The admin
    feed and the thanks page show [buy] when the trimmed, lower-cased
    kind is [buy], and [sell] in every other case: unknown, absent or
    empty kinds, and for the thanks page an unknown id. *)
Theorem kind_defaults (r : row) :
  public_kind r
  = match get r "kind" with
    | Some (String c k) => Py.lower (Py.strip (String c k))
    | _ => "material"
    end
  ∧ admin_kind r
    = match get r "kind" with
      | Some k => if decide (Py.lower (Py.strip k) = "buy") then "buy" else "sell"
      | None => "sell"
      end
  ∧ thanks_page_kind None = "sell"
  ∧ thanks_page_kind (Some r) = if Dict.truthy r then admin_kind r else "sell".
Proof.
  unfold public_kind, admin_kind, thanks_page_kind.
  repeat split.
  - by destruct (get r "kind") as [[|c k]|].
  - rewrite buy_or_sell_cases. by destruct (get r "kind") as [[|c k]|].
  - by destruct (Dict.truthy r).
Qed.

(** C5 as stated fails: a stored kind outside the enum reaches the
    public feed as it is, lower-cased, and is not turned into
    [material]. *)
Lemma public_kind_keeps_unknown :
  get (Sample.row_of_kind (Some "Rent")) "kind" = Some "Rent"
  ∧ public_kind (Sample.row_of_kind (Some "Rent")) = "rent"
  ∧ admin_kind (Sample.row_of_kind (Some "Rent")) = "sell"
  ∧ public_kind (Sample.row_of_kind None) = "material".
Proof. repeat split; by vm_compute. Qed.

End Kinds.

(** ** Deleting one photo *)
Section PhotoDelete.
Import App.

(** C3 fails on the code.  The photo of listing AB is deleted through
    the route of listing A: the resolved path is not below the directory
    of A, but its text starts with the text of that directory, so the
    request is not refused and the file is unlinked. *)
Theorem photo_delete_leaves_directory :
  let w := Sample.world None "AB" in
  let base := Path.resolve (Path.joinpath (UPLOADS_DIR Sample.cfg) "A") in
  let p := Path.resolve
             (Path.joinpath (Path.joinpath (UPLOADS_DIR Sample.cfg) "A")
                            "../AB/photo.jpg") in
  base = ["srv"; "uploads"; "A"]
  ∧ p = ["srv"; "uploads"; "AB"; "photo.jpg"]
  ∧ ¬ Path.strictly_inside base p
  ∧ Py.startswith (Path.str p) (Path.str base) = true
  ∧ files w !! p = Some "JPEG"
  ∧ (admin_photo_delete Sample.cfg w Sample.admin "A" "../AB/photo.jpg").1
    = Redirect "/admin/edit/A"
  ∧ files (admin_photo_delete Sample.cfg w Sample.admin "A" "../AB/photo.jpg").2 !! p
    = None.
Proof.
  cbv zeta. split; [by vm_compute|]. split; [by vm_compute|]. split.
  { intros (more & _ & H). vm_compute in H. discriminate H. }
  repeat split; by vm_compute.
Qed.

(** Where the text of the resolved path does not start with the text of
    the directory, the request is refused and nothing is touched. *)
Lemma photo_delete_refused (cfg : Config) (w : World) (s : Session) (sid fname : string) :
  _is_admin cfg s = Some true →
  Py.startswith
    (Path.str (Path.resolve (Path.joinpath (Path.joinpath (UPLOADS_DIR cfg) sid) fname)))
    (Path.str (Path.resolve (Path.joinpath (UPLOADS_DIR cfg) sid))) = false →
  admin_photo_delete cfg w s sid fname = (Abort 400, w).
Proof.
  intros Hadmin Hcheck. unfold admin_photo_delete, admin_required.
  by rewrite Hadmin, Hcheck.
Qed.

Lemma photo_delete_refuses_parent :
  let w := Sample.world None "AB" in
  admin_photo_delete Sample.cfg w Sample.admin "A" "../../etc/passwd" = (Abort 400, w).
Proof. cbv zeta. by vm_compute. Qed.

End PhotoDelete.

(** ** Uploading photos *)
Section Upload.
Import Store App.

Variable secure_filename : string → string.
Variable uuid_hex6 : nat → string.
Variable cfg : Config.

Lemma save_upload_saved sub_dir st f :
  (save_upload secure_filename uuid_hex6 sub_dir st f).2 = S st.2.
Proof.
  destruct st as [[w drawn] saved]. unfold save_upload.
  by destruct (Fs.exists_ w _).
Qed.

Lemma save_upload_body sub_dir st f :
  ∃ p, files (save_upload secure_filename uuid_hex6 sub_dir st f).1.1 !! p
       = Some (body f).
Proof.
  destruct st as [[w drawn] saved]. unfold save_upload.
  destruct (Fs.exists_ w _); eexists; cbn [fst Fs.save files];
    apply lookup_insert_eq.
Qed.

Lemma fold_save_upload_saved sub_dir fs : ∀ st,
  (foldl (save_upload secure_filename uuid_hex6 sub_dir) st fs).2
  = st.2 + length fs.
Proof.
  induction fs as [|f fs IH]; intros st; cbn [foldl length]; [lia|].
  rewrite IH, save_upload_saved. lia.
Qed.

Lemma resync_photos_files w sid : files (resync_photos cfg w sid) = files w.
Proof. unfold resync_photos. by destruct (found _). Qed.

(** C2 fails on the code.  An admin upload that passes the framework's
    check on the length of the whole request saves every file it
    carries: however many there are and however long each one is, the
    handler answers with the count of all of them, and the last one is
    in the upload tree afterwards.  [MAX_FILES] and [MAX_FILE_MB] are
    not consulted. *)
Theorem upload_saves_every_file (w : World) (s : Session) (sid : string)
        (req : UploadRequest) (before : list FileStorage) (f : FileStorage) :
  _is_admin cfg s = Some true →
  (content_length req ≤ MAX_CONTENT_LENGTH cfg)%Z →
  List.filter (λ f, Py.truthy (filename f)) (photos req) = before ++ [f] →
  ∃ w',
    admin_upload secure_filename uuid_hex6 cfg w s sid req
    = (Redirect ("/admin/edit/" +:+ sid),
       (w', flash s (Flash_uploaded (S (length before)))))
    ∧ ∃ p, files w' !! p = Some (body f).
Proof.
  intros Hadmin Hlen Hfiles. unfold admin_upload, admin_required.
  rewrite Hadmin, Hfiles.
  destruct (Z.ltb_spec (MAX_CONTENT_LENGTH cfg) (content_length req)) as [?|_]; [lia|].
  destruct (before ++ [f]) as [|f0 fs] eqn:Hsplit.
  { by destruct before. }
  rewrite <- Hsplit. rewrite foldl_app. cbn [foldl].
  set (sub_dir := Path.joinpath (UPLOADS_DIR cfg) sid).
  set (st := foldl (save_upload secure_filename uuid_hex6 sub_dir)
                   (Fs.mkdir w sub_dir, 0, 0) before).
  pose proof (save_upload_saved sub_dir st f) as Hsaved.
  pose proof (save_upload_body sub_dir st f) as [p Hp].
  pose proof (fold_save_upload_saved sub_dir before (Fs.mkdir w sub_dir, 0, 0)) as Hn.
  fold st in Hn. cbn [snd] in Hn.
  destruct (save_upload secure_filename uuid_hex6 sub_dir st f) as [[w2 drawn] saved].
  cbn [fst snd] in *. subst saved. rewrite Hn. cbn [Nat.add].
  eexists. split; [reflexivity|]. exists p. by rewrite resync_photos_files.
Qed.

End Upload.

Section UploadScenario.
Import Store App.

(** Six photos against [MAX_FILES = 5]: all six are saved beside the one
    that was there, and the row of X1 is rewritten to list them. *)
Lemma upload_saves_every_file_witness :
  let w := Sample.world (Some Sample.locked_store) "X1" in
  let run := admin_upload (λ nm, nm) (λ _, "0a1b2c") Sample.cfg w Sample.admin "X1"
                          Sample.six_photos in
  (MAX_FILES Sample.cfg < Z.of_nat (length (photos Sample.six_photos)))%Z
  ∧ (∃ w', run = (Redirect "/admin/edit/X1",
                  (w', flash Sample.admin (Flash_uploaded 6)))
           ∧ ∃ p, files w' !! p = Some "JPEG")
  ∧ _list_photos Sample.cfg run.2.1 "X1"
    = ["a.jpg"; "b.jpg"; "c.jpg"; "d.jpg"; "e.jpg"; "f.jpg"; "photo.jpg"]
  ∧ csv run.2.1
    = Some (Sample.text_of_lines
              [ Sample.header_line;
                "X1,2024-01-01T00:00:00+00:00,material,Book,100,,A book,a.jpg;b.jpg;c.jpg;d.jpg;e.jpg;f.jpg;photo.jpg,abc" ]).
Proof.
  cbv zeta. split; [by vm_compute|]. split; [|split; by vm_compute].
  refine (upload_saves_every_file (λ nm, nm) (λ _, "0a1b2c") Sample.cfg _ Sample.admin
            "X1" Sample.six_photos
            [ Sample.photo "a.jpg"; Sample.photo "b.jpg"; Sample.photo "c.jpg";
              Sample.photo "d.jpg"; Sample.photo "e.jpg" ]
            (Sample.photo "f.jpg") _ _ _); by vm_compute.
Defined.

End UploadScenario.

(** ** The pages show the kinds computed above *)
Section Feeds.
Import Dict Store App.

Variable quote : string → string.
Variable cfg : Config.

Lemma insert_newest_perm x l : insert_newest x l ≡ₚ x :: l.
Proof.
  induction l as [|y l IH]; [done|]. cbn [insert_newest].
  destruct (String.ltb _ _); [|done].
  rewrite IH. apply Permutation_swap.
Qed.

Lemma sort_newest_perm l : sort_newest l ≡ₚ l.
Proof.
  induction l as [|x l IH]; [done|]. cbn [sort_newest foldr].
  fold (sort_newest l). by rewrite insert_newest_perm, IH.
Qed.

Lemma shown_items {A} (mk : A → Item) (rows : list A) limit it :
  it ∈ take limit (sort_newest (map mk rows)) → ∃ r, r ∈ rows ∧ it = mk r.
Proof.
  intros Hit%(subseteq_take limit). rewrite sort_newest_perm in Hit.
  apply list_elem_of_fmap in Hit as (r & -> & Hr). by exists r.
Qed.

(** Every card of the public feed carries [public_kind] of a row of the
    store. *)
Lemma load_submissions_kind w limit it :
  it ∈ _load_submissions quote w limit →
  ∃ r, item_id it = row_id r ∧ item_kind it = public_kind r.
Proof.
  unfold _load_submissions. destruct (csv w); [|by intros ?%not_elem_of_nil].
  intros (r & _ & ->)%shown_items. by exists r.
Qed.

(** Every card of the admin feed carries [admin_kind] of a row of the
    store. *)
Lemma admin_submissions_kind w limit it :
  it ∈ _admin_submissions quote cfg w limit →
  ∃ r, r ∈ _read_all_rows w ∧ item_id it = row_id r ∧ item_kind it = admin_kind r.
Proof.
  unfold _admin_submissions. intros (r & Hr & ->)%shown_items. by exists r.
Qed.

Lemma thanks_shows_kind w sid :
  thanks_kind (thanks cfg w sid)
  = thanks_page_kind (_find_row (_read_all_rows w) sid).
Proof. reflexivity. Qed.

(** Cards come newest first, and cards of the same instant keep the
    order of the store. *)
Lemma feed_order :
  map item_id
      (_load_submissions quote
         {| csv := Some (Sample.text_of_lines
                           [ Sample.header_line;
                             "T1,2024-01-01T00:00:00+00:00,sell,,,,,,";
                             "T3,2024-03-01T00:00:00+00:00,buy,,,,,,";
                             "T2,2024-02-01T00:00:00+00:00,,,,,,,";
                             "T2b,2024-02-01T00:00:00+00:00,,,,,,," ]);
            files := ∅; dirs := ∅ |} 200)
  = ["T3"; "T2"; "T2b"; "T1"].
Proof. by vm_compute. Qed.

End Feeds.

(** ** A store with a column of its own *)
Section AnnotatedStore.
Import Dict Store App.

(** The migration leaves a store with the extra column [note] alone,
    since its header has [password]; the next handler that rewrites the
    store (here a photo deletion naming an absent file) writes the
    fixed columns only, and [note] is gone. *)
Lemma annotated_store_loses_note :
  let w := Sample.world (Some Sample.annotated_store) "X1" in
  _ensure_csv_header w = w
  ∧ match _find_row (_read_all_rows w) "X1" with
    | Some r => get r "note"
    | None => None
    end = Some "fragile"
  ∧ csv (admin_photo_delete Sample.cfg w Sample.admin "X1" "gone.jpg").2
    = Some (Sample.text_of_lines
              [ Sample.header_line;
                "X1,2024-01-01T00:00:00+00:00,material,Book,100,,A book,photo.jpg,abc" ]).
Proof. cbv zeta. repeat split; by vm_compute. Qed.

End AnnotatedStore.

From stdpp Require Import sorting.

(** * The rest of the application

    The helpers and handlers of [app.py] that the properties above did not
    need, and what they guarantee. *)

(** ** Template filter and upload policy *)
Module Policy.

Definition ALLOWED_EXT : list string := ["jpg"; "jpeg"; "png"; "webp"].

(** [s.replace(ch, empty)] for a one-character [ch]. *)
Fixpoint remove_char (ch : ascii) (s : string) : string :=
  match s with
  | EmptyString => EmptyString
  | String c r => if Ascii.eqb c ch then remove_char ch r
                  else String c (remove_char ch r)
  end.

(** [str.isdigit] on one character, for code points below 256: the
    decimal digits and the superscripts one, two and three. *)
Definition isdigit_char (c : ascii) : bool :=
  let n := Py.code c in
  ((48 <=? n) && (n <=? 57) || (n =? 178) || (n =? 179) || (n =? 185))%N.

Fixpoint all_digits (s : string) : bool :=
  match s with
  | EmptyString => true
  | String c r => isdigit_char c && all_digits r
  end.

(** [s.isdigit()]: at least one character, and digits only. *)
Definition isdigit (s : string) : bool := Py.truthy s && all_digits s.

(** The separators the filter removes: space, no-break space, comma, dot
    and underscore, in the order of the loop. *)
Definition separators : list ascii :=
  [ " "%char; ascii_of_N 160; ","%char; "."%char; "_"%char ].

(** [is_numeric_filter(value)] for a value that is [None] or a [str]. *)
Definition is_numeric_filter (value : option string) : bool :=
  match value with
  | None => false
  | Some v =>
      let s := Py.strip v in
      if negb (Py.truthy s) then false
      else isdigit (foldl (λ s ch, remove_char ch s) s separators)
  end.

Definition _allowed_file (filename : string) : bool :=
  bool_decide (App.ext_of filename ∈ ALLOWED_EXT).

End Policy.

(** ** Removing a directory tree *)
Module Tree.

(** [shutil.rmtree(d)]: the directory and everything below it. *)
Definition rmtree (w : World) (d : list string) : World :=
  let root := Path.resolve d in
  {| csv := csv w;
     files := filter (λ kv, ¬ root `prefix_of` kv.1) (files w);
     dirs := filter (λ p, ¬ root `prefix_of` p) (dirs w) |}.

End Tree.

(** ** Login, the index page, and the admin handlers that edit listings *)

(** Messages flashed by the handlers that edit listings; these handlers
    are given without the session they flash into, and the message is
    returned beside the world. *)
Inductive notice : Type :=
| Notice_created
| Notice_saved
| Notice_deleted (sid : string).

(** The form of [POST /admin/create] with its uploaded photos. *)
Record CreateRequest : Type := mkCreate {
  create_length : Z;
  create_title : option string;
  create_price : option string;
  create_description : option string;
  create_password : option string;
  create_photos : list FileStorage
}.

(** The form of [POST /admin/save/<sid>]. *)
Record SaveRequest : Type := mkSave {
  save_length : Z;
  save_title : option string;
  save_price_tenge : option string;
  save_description : option string;
  save_password : option string
}.

(** What [admin_edit] hands to its template. *)
Record EditPage : Type := mkEdit {
  edit_sid : string;
  edit_row : gmap string string;
  edit_photos : list string;
  edit_first_photo : string
}.

(** A handler that renders a page, or answers otherwise. *)
Inductive rendered (P : Type) : Type :=
| Page (p : P)
| Answer (r : response).
Arguments Page {P} p.
Arguments Answer {P} r.

Module Admin.
Import Dict Store App.

Section Handlers.

Variable secure_filename : string → string.
Variable quote : string → string.
Variable uuid_hex6 : nat → string.
Variable cfg : Config.

(** [GET /]: every card with its [unlocked] flag. *)
Definition index (w : World) (s : Session) (limit : nat) : list (Item * bool) :=
  let submissions := _load_submissions quote w limit in
  let unlocked := unlocked_of s in
  map (λ it, (it, Py.truthy (item_id it) && bool_decide (item_id it ∈ unlocked)))
      submissions.

Definition set_admin_key (s : Session) (k : option string) : Session :=
  {| admin_key := k; unlocked_cards := unlocked_cards s; flashes := flashes s |}.

(** [POST /admin/login]; [form_key] is [request.form.get("key")].  A
    flashed message goes into the session. *)
Definition admin_login_post (s : Session) (form_key : option string)
  : response * Session :=
  let key := Py.strip (Py.or_ form_key EmptyString) in
  if negb (Py.truthy (ADMIN_KEY cfg))
  then (Redirect "/admin/login", flash s Flash_admin_key_unset)
  else
    match compare_digest key (ADMIN_KEY cfg) with
    | None => (ServerError, s)
    | Some true => (Redirect "/admin", set_admin_key s (Some key))
    | Some false => (Redirect "/admin/login", flash s Flash_wrong_key)
    end.

(** [GET /admin/logout]: [session.pop("admin_key", None)]. *)
Definition admin_logout (s : Session) : response * Session :=
  (Redirect "/", set_admin_key s None).

(** [@admin_required] in front of a handler that renders a page. *)
Definition admin_required_page {P : Type} (s : Session) (handler : rendered P)
  : rendered P :=
  match _is_admin cfg s with
  | None => Answer ServerError
  | Some true => handler
  | Some false => Answer (Redirect "/admin/login")
  end.

(** [GET /admin]: the cards of the admin page, 500 at most. *)
Definition admin_index (w : World) (s : Session) : rendered (list Item) :=
  admin_required_page s (Page (_admin_submissions quote cfg w 500)).

(** The body of the loop of [admin_create]: world, tokens drawn, and the
    names saved so far. *)
Definition save_created (sub_dir : list string)
           (st : World * nat * list string) (f : FileStorage)
  : World * nat * list string :=
  let '(w, drawn, saved_names) := st in
  let safe := Py.or_ (Some (secure_filename (filename f))) "file" in
  let target := Path.joinpath sub_dir safe in
  let '(target, drawn) :=
    if Fs.exists_ w target
    then (Path.joinpath sub_dir
            (Path.stem (Path.name target) +:+ "_" +:+ uuid_hex6 drawn
             +:+ Path.suffix (Path.name target)),
          S drawn)
    else (target, drawn) in
  (Fs.save w target (body f), drawn, saved_names ++ [Path.name target]).

(** [POST /admin/create]; [new_id] and [now_iso] are what [_new_id()] and
    [_now_iso()] return in this request.  Reading the form is where the
    framework refuses a request longer than [MAX_CONTENT_LENGTH]. *)
Definition admin_create (w : World) (s : Session) (req : CreateRequest)
           (new_id now_iso : string) : response * (option notice * World) :=
  admin_required cfg s
    (if (MAX_CONTENT_LENGTH cfg <? create_length req)%Z then (Abort 413, (None, w))
     else
       let title := Py.strip (Py.or_ (create_title req) EmptyString) in
       let price_tenge := Py.strip (Py.or_ (create_price req) EmptyString) in
       let description := Py.strip (Py.or_ (create_description req) EmptyString) in
       let password := Py.strip (Py.or_ (create_password req) EmptyString) in
       let files := List.filter (λ f, Py.truthy (filename f)) (create_photos req) in
       let sid := new_id in
       let created_utc := now_iso in
       let '(w1, saved_names) :=
         match files with
         | [] => (w, [])
         | _ =>
             let sub_dir := Path.joinpath (UPLOADS_DIR cfg) sid in
             let '(w1, _, saved_names) :=
               foldl (save_created sub_dir) (Fs.mkdir w sub_dir, 0, []) files in
             (w1, saved_names)
         end in
       let w2 := _save_submission_row w1 sid created_utc "material" title
                   price_tenge EmptyString description saved_names password in
       (Redirect ("/admin/edit/" +:+ sid), (Some Notice_created, w2)))
    (None, w).

(** [{c: (r.get(c, empty) or empty) for c in _csv_columns()}] *)
Definition edit_values (r : row) : gmap string string :=
  list_to_map (map (λ c, (c, Py.or_ (get_default r c EmptyString) EmptyString))
                   _csv_columns).

(** [GET /admin/edit/<sid>] *)
Definition admin_edit (w : World) (s : Session) (sid : string) : rendered EditPage :=
  admin_required_page s
    (let rows := _read_all_rows w in
     let r := _find_row rows sid in
     match r with
     | None => Answer (Abort 404)
     | Some d =>
         if negb (Dict.truthy d) then Answer (Abort 404)
         else
           let photos := _list_photos cfg w sid in
           let first_photo := match photos with p :: _ => p | [] => EmptyString end in
           Page {| edit_sid := sid; edit_row := edit_values d;
                   edit_photos := photos; edit_first_photo := first_photo |}
     end).

(** The row [_find_row] returned is changed in place by [change]; the
    list the caller goes on to write holds the changed row. *)
Fixpoint alter_found (change : row → row) (rows : list row) (sid : string)
  : list row :=
  match rows with
  | [] => []
  | r :: rest => if String.eqb (row_id r) sid then change r :: rest
                 else r :: alter_found change rest sid
  end.

(** The assignments of [admin_save] to the row, in their order. *)
Definition saved_row (w : World) (sid : string) (req : SaveRequest) (r : row) : row :=
  let r := Dict.set r "kind" (Py.or_ (get r "kind") "material") in
  let r := Dict.set r "title" (Py.strip (Py.or_ (save_title req) EmptyString)) in
  let r := Dict.set r "price_tenge"
                    (Py.strip (Py.or_ (save_price_tenge req) EmptyString)) in
  let r := Dict.set r "description"
                    (Py.strip (Py.or_ (save_description req) EmptyString)) in
  let r := Dict.set r "password"
                    (Py.strip (Py.or_ (save_password req) EmptyString)) in
  Dict.set r "photos" (Py.join ";" (_list_photos cfg w sid)).

(** [POST /admin/save/<sid>]: 404 for an unknown id before the form is
    read. *)
Definition admin_save (w : World) (s : Session) (sid : string) (req : SaveRequest)
  : response * (option notice * World) :=
  admin_required cfg s
    (let rows := _read_all_rows w in
     let r := _find_row rows sid in
     if negb (found r) then (Abort 404, (None, w))
     else if (MAX_CONTENT_LENGTH cfg <? save_length req)%Z then (Abort 413, (None, w))
     else
       (Redirect ("/admin/edit/" +:+ sid),
        (Some Notice_saved,
         _write_all_rows w (alter_found (saved_row w sid req) rows sid))))
    (None, w).

(** [POST /admin/delete/<sid>].  With the id [..] the directory removed
    is the parent of the upload tree, and [shutil.rmtree] raises once it
    has emptied it; the properties about what the handler removes take an
    id that is a plain path component. *)
Definition admin_delete (w : World) (s : Session) (sid : string)
  : response * (option notice * World) :=
  admin_required cfg s
    (let rows := _read_all_rows w in
     let rows2 := List.filter (λ r, negb (String.eqb (row_id r) sid)) rows in
     let w1 := _write_all_rows w rows2 in
     let d := Path.joinpath (UPLOADS_DIR cfg) sid in
     let w2 := if Fs.exists_ w1 d && Fs.is_dir w1 d then Tree.rmtree w1 d else w1 in
     (Redirect "/admin", (Some (Notice_deleted sid), w2)))
    (None, w).

(** [GET /admin/csv]: the store file as it is, 404 without one. *)
Definition admin_csv_download (w : World) (s : Session) : response :=
  (admin_required cfg s
     (match csv w with
      | None => Abort 404
      | Some text => SendFile text
      end, tt)
     tt).1.

End Handlers.
End Admin.

(** ** A shop with one listing, and requests to it *)
Module Visit.

(** The listing X1, locked with [abc], and its photo. *)
Definition shop : World := Sample.world (Some Sample.locked_store) "X1".

(** The data lines of the store of [shop]. *)
Definition shop_lines : list (list string) :=
  [ [ "X1"; "2024-01-01T00:00:00+00:00"; "material"; "Book"; "100"; EmptyString;
      "A book"; "photo.jpg"; "abc" ] ].

(** [secure_filename] and [quote] on names they leave as they are. *)
Definition as_given (nm : string) : string := nm.

(** A source of tokens for [uuid.uuid4().hex[:6]]. *)
Definition token (n : nat) : string := "0a1b2c".

Definition create_lamp : CreateRequest :=
  {| create_length := 4096; create_title := Some " Lamp "; create_price := Some "500";
     create_description := None; create_password := Some "abc";
     create_photos := [ Sample.photo "lamp.jpg"; Sample.photo EmptyString ] |}.

(** A create request without photos. *)
Definition create_plain : CreateRequest :=
  {| create_length := 512; create_title := Some " Lamp "; create_price := Some "500";
     create_description := None; create_password := Some "abc";
     create_photos := [ Sample.photo EmptyString ] |}.

Definition save_book : SaveRequest :=
  {| save_length := 512; save_title := Some "Book"; save_price_tenge := Some " 700";
     save_description := Some "A book"; save_password := Some " key " |}.

Definition one_photo : UploadRequest :=
  {| content_length := 4096; photos := [ Sample.photo "back.jpg" ] |}.

End Visit.

(** ** Trimming, extensions and text prefixes *)
Module TextFacts.

(** Leading white space dropped, on the list of characters. *)
Fixpoint ldrop (l : list ascii) : list ascii :=
  match l with
  | [] => []
  | c :: r => if Py.isspace c then ldrop r else l
  end.

Definition no_leading_space (l : list ascii) : Prop :=
  match l with
  | [] => True
  | c :: _ => Py.isspace c = false
  end.

Lemma chars_inj s t : list_ascii_of_string s = list_ascii_of_string t → s = t.
Proof.
  intros H. rewrite <- (string_of_list_ascii_of_string s).
  rewrite <- (string_of_list_ascii_of_string t). by rewrite H.
Qed.

Lemma chars_lstrip s : list_ascii_of_string (Py.lstrip s) = ldrop (list_ascii_of_string s).
Proof.
  induction s as [|c s IH]; [done|]. cbn [Py.lstrip list_ascii_of_string ldrop].
  by destruct (Py.isspace c).
Qed.

Lemma chars_rev_app s t :
  list_ascii_of_string (String.rev_app s t)
  = rev (list_ascii_of_string s) ++ list_ascii_of_string t.
Proof.
  revert t. induction s as [|c s IH]; intros t; [done|].
  cbn [String.rev_app list_ascii_of_string rev]. rewrite IH.
  cbn [list_ascii_of_string]. by rewrite <- (assoc_L (++)).
Qed.

Lemma chars_rev s : list_ascii_of_string (String.rev s) = rev (list_ascii_of_string s).
Proof. unfold String.rev. rewrite chars_rev_app. cbn. by rewrite app_nil_r. Qed.

Lemma chars_strip s :
  list_ascii_of_string (Py.strip s)
  = rev (ldrop (rev (ldrop (list_ascii_of_string s)))).
Proof.
  unfold Py.strip, Py.rstrip.
  by rewrite chars_rev, chars_lstrip, chars_rev, chars_lstrip.
Qed.

Lemma ldrop_head l : no_leading_space (ldrop l).
Proof.
  induction l as [|c l IH]; [done|]. cbn [ldrop].
  by destruct (Py.isspace c) eqn:E.
Qed.

Lemma ldrop_id l : no_leading_space l → ldrop l = l.
Proof. destruct l as [|c l]; [done|]. cbn. by intros ->. Qed.

Lemma ldrop_suffix l : ∃ spaces, l = spaces ++ ldrop l.
Proof.
  induction l as [|c l [sp IH]]; [by exists []|]. cbn [ldrop].
  destruct (Py.isspace c).
  - exists (c :: sp). cbn. by rewrite <- IH.
  - by exists [].
Qed.

Lemma rdrop_head m :
  no_leading_space m → no_leading_space (rev (ldrop (rev m))).
Proof.
  intros Hm. destruct (ldrop_suffix (rev m)) as [sp Hsp].
  apply (f_equal (@rev ascii)) in Hsp. rewrite rev_involutive, rev_app_distr in Hsp.
  destruct (rev (ldrop (rev m))) as [|c k]; [done|].
  rewrite Hsp in Hm. exact Hm.
Qed.

(** Trimming twice is trimming once. *)
Lemma strip_idempotent s : Py.strip (Py.strip s) = Py.strip s.
Proof.
  apply chars_inj. rewrite (chars_strip (Py.strip s)), chars_strip.
  set (m := ldrop (list_ascii_of_string s)).
  rewrite (ldrop_id (rev (ldrop (rev m)))) by apply rdrop_head, ldrop_head.
  rewrite rev_involutive. by rewrite (ldrop_id (ldrop (rev m))) by apply ldrop_head.
Qed.

Lemma strip_empty : Py.strip EmptyString = EmptyString.
Proof. reflexivity. Qed.


Lemma length_app s t : String.length (s +:+ t) = String.length s + String.length t.
Proof. induction s as [|c s IH]; [done|]. rewrite str_app_cons. cbn. by rewrite IH. Qed.

Lemma substring_all s : String.substring 0 (String.length s) s = s.
Proof. induction s as [|c s IH]; [done|]. cbn. by rewrite IH. Qed.

Lemma substring_skip s t m :
  String.substring (String.length s) m (s +:+ t) = String.substring 0 m t.
Proof. induction s as [|c s IH]; [done|]. rewrite str_app_cons. cbn. by rewrite IH. Qed.

Lemma rfind_dot_last stem ext :
  Py.rfind_dot ext = None →
  Py.rfind_dot (stem +:+ String "." ext) = Some (String.length stem).
Proof.
  intros Hext. induction stem as [|c stem IH].
  - rewrite str_app_nil_l. cbn [Py.rfind_dot]. by rewrite Hext.
  - rewrite str_app_cons. cbn [Py.rfind_dot String.length]. by rewrite IH.
Qed.

(** The extension of [stem.ext], when [ext] has no dot, is [ext]
    lower-cased. *)
Lemma ext_of_split stem ext :
  Py.rfind_dot ext = None →
  App.ext_of (stem +:+ String "." ext) = Py.lower ext.
Proof.
  intros Hext. unfold App.ext_of. rewrite rfind_dot_last by done.
  f_equal. rewrite length_app. cbn [String.length].
  replace (String.length stem + S (String.length ext) - S (String.length stem))
    with (String.length ext) by lia.
  change (S (String.length stem)) with (String.length (String "."%char stem)) at 1.
  replace (stem +:+ String "." ext) with ((stem +:+ ".") +:+ ext)
    by (by rewrite str_app_assoc).
  replace (String.length (String "."%char stem)) with (String.length (stem +:+ "."))
    by (rewrite length_app; cbn; lia).
  rewrite substring_skip. apply substring_all.
Qed.

Lemma ext_of_no_dot nm : Py.rfind_dot nm = None → App.ext_of nm = EmptyString.
Proof. unfold App.ext_of. by intros ->. Qed.

End TextFacts.

(** ** Upload policy and the numeric filter *)
Section PolicyProperties.
Import Policy TextFacts.

Variable quote : string → string.

(** X1.  [_allowed_file] goes by the text after the last dot only, and
    without regard to case: a name [stem.ext] whose [ext] has no dot is
    allowed exactly when [ext], lower-cased, is one of the four allowed
    extensions, whatever [stem] is; a name without any dot is refused. *)
Theorem allowed_file_by_extension (stem ext : string) :
  Py.rfind_dot ext = None →
  _allowed_file (stem +:+ String "." ext) = bool_decide (Py.lower ext ∈ ALLOWED_EXT)
  ∧ _allowed_file ext = false.
Proof.
  intros Hext. unfold _allowed_file.
  rewrite ext_of_split, (ext_of_no_dot ext) by done. split; [done | by vm_compute].
Qed.

Lemma allowed_file_by_extension_witness :
  Py.rfind_dot "JPG" = None
  ∧ _allowed_file "holiday.photo.JPG" = true
  ∧ _allowed_file "JPG" = false.
Proof.
  split; [reflexivity|].
  exact (allowed_file_by_extension "holiday.photo" "JPG" eq_refl).
Defined.

(** X2.  A first photo whose name [_allowed_file] accepts is the
    thumbnail of the card, under the listing's upload path; the photos
    after it play no part. *)
Theorem allowed_photo_is_thumbnail (sid kind nm : string) (more : list string) :
  _allowed_file nm = true →
  App._thumb_url quote sid kind (nm :: more)
  = "/uploads/" +:+ sid +:+ "/" +:+ quote nm.
Proof.
  unfold _allowed_file, App._thumb_url, ALLOWED_EXT.
  intros Hin%bool_decide_eq_true.
  rewrite bool_decide_eq_true_2; [done|].
  repeat (apply elem_of_cons in Hin as [->|Hin]; [by_evaluation|]).
  by apply not_elem_of_nil in Hin.
Qed.

End PolicyProperties.

Lemma allowed_photo_is_thumbnail_witness :
  Policy._allowed_file "cover.PNG" = true
  ∧ App._thumb_url (λ nm, nm) "X1" "material" ["cover.PNG"; "back.txt"]
    = "/uploads/X1/cover.PNG".
Proof.
  split; [reflexivity|].
  exact (allowed_photo_is_thumbnail (λ nm, nm) "X1" "material" "cover.PNG"
           ["back.txt"] eq_refl).
Defined.

Section NumericFilter.
Import Policy.

Definition is_separator (c : ascii) : bool := existsb (Ascii.eqb c) separators.

Lemma remove_all_nil seps :
  foldl (λ s ch, remove_char ch s) EmptyString seps = EmptyString.
Proof. induction seps as [|ch seps IH]; [done|]. exact IH. Qed.

Lemma remove_all_cons seps : ∀ c r,
  foldl (λ s ch, remove_char ch s) (String c r) seps
  = if existsb (Ascii.eqb c) seps
    then foldl (λ s ch, remove_char ch s) r seps
    else String c (foldl (λ s ch, remove_char ch s) r seps).
Proof.
  induction seps as [|ch seps IH]; intros c r; [done|].
  cbn [foldl existsb remove_char]. destruct (Ascii.eqb c ch); [done|].
  cbn [orb]. apply IH.
Qed.

Lemma separator_no_digit c : is_separator c = true → isdigit_char c = false.
Proof.
  unfold is_separator, separators. cbn [existsb]. rewrite !orb_true_iff.
  intros [H|[H|[H|[H|[H|H]]]]]; try discriminate H;
    apply Ascii.eqb_eq in H; by subst c.
Qed.

Lemma all_digits_removed s :
  all_digits (foldl (λ s ch, remove_char ch s) s separators)
  = forallb (λ c, isdigit_char c || is_separator c) (list_ascii_of_string s).
Proof.
  induction s as [|c s IH]; [done|]. rewrite remove_all_cons.
  cbn [list_ascii_of_string forallb]. fold (is_separator c).
  destruct (is_separator c) eqn:E.
  - by rewrite IH, orb_true_r.
  - cbn [all_digits]. by rewrite IH, orb_false_r.
Qed.

Lemma truthy_removed s :
  all_digits (foldl (λ s ch, remove_char ch s) s separators) = true →
  Py.truthy (foldl (λ s ch, remove_char ch s) s separators)
  = existsb isdigit_char (list_ascii_of_string s).
Proof.
  induction s as [|c s IH]; [done|]. rewrite remove_all_cons.
  cbn [list_ascii_of_string existsb]. fold (is_separator c).
  destruct (is_separator c) eqn:E.
  - intros H. by rewrite (separator_no_digit c E), IH.
  - cbn [all_digits Py.truthy]. by intros [-> _]%andb_true_iff.
Qed.

Lemma isdigit_removed s :
  isdigit (foldl (λ s ch, remove_char ch s) s separators)
  = existsb isdigit_char (list_ascii_of_string s)
    && forallb (λ c, isdigit_char c || is_separator c) (list_ascii_of_string s).
Proof.
  unfold isdigit. rewrite <- all_digits_removed.
  destruct (all_digits _) eqn:E.
  - by rewrite truthy_removed.
  - by rewrite !andb_false_r.
Qed.

(** X3.  [is_numeric_filter] accepts a string exactly when, trimmed of
    surrounding white space, it has at least one digit and nothing but
    digits and the five separators (space, no-break space, comma, dot,
    underscore), wherever and however often the separators stand; [None]
    is refused. *)
Theorem is_numeric_filter_spec (v : string) :
  is_numeric_filter (Some v)
  = existsb isdigit_char (list_ascii_of_string (Py.strip v))
    && forallb (λ c, isdigit_char c || is_separator c)
               (list_ascii_of_string (Py.strip v))
  ∧ is_numeric_filter None = false.
Proof.
  split; [|done]. unfold is_numeric_filter.
  destruct (Py.strip v) as [|c s] eqn:E; [done|].
  cbn [Py.truthy negb]. apply isdigit_removed.
Qed.

End NumericFilter.

(** ** Finding a row, and the stores the application writes *)
Module StoreFacts2.
Import Dict Store StoreFacts CsvFacts.

Lemma writerows_app rows more :
  Csv.writerows (rows ++ more) = Csv.writerows rows +:+ Csv.writerows more.
Proof.
  induction rows as [|r rows IH]; [done|].
  cbn [app Csv.writerows]. by rewrite IH, str_app_assoc.
Qed.

Lemma writerows_snoc rows line :
  Csv.writerows rows +:+ Csv.writerow line = Csv.writerows (rows ++ [line]).
Proof. rewrite writerows_app. cbn [Csv.writerows]. by rewrite str_app_nil_r. Qed.

(** The store has the expected header and is text of the csv writer. *)
Definition written (w : World) : Prop :=
  ∃ lines, csv w = Some (Csv.writerows (_csv_columns :: lines)).

(** No store yet, or a written one. *)
Definition store_ok (w : World) : Prop := csv w = None ∨ written w.

Lemma written_ensure w : written w → _ensure_csv_header w = w.
Proof.
  intros [lines Hcsv]. unfold _ensure_csv_header. rewrite Hcsv.
  rewrite reader_writerows. by rewrite decide_True.
Qed.

Lemma ensure_written w : store_ok w → written (_ensure_csv_header w).
Proof.
  intros [Hnone|Hw].
  - unfold _ensure_csv_header. rewrite Hnone. exists []. cbn.
    by rewrite str_app_nil_r.
  - by rewrite written_ensure.
Qed.

Lemma write_all_written w rows : written (_write_all_rows w rows).
Proof. by exists (map out_line rows). Qed.

Lemma save_row_written w sid created kind title price phone description photos password :
  store_ok w →
  ∃ lines,
    csv (_ensure_csv_header w) = Some (Csv.writerows (_csv_columns :: lines))
    ∧ csv (_save_submission_row w sid created kind title price phone description
             photos password)
      = Some (Csv.writerows
                (_csv_columns
                   :: lines ++ [[sid; created; kind; title; price; phone; description;
                                 Py.join ";" photos; password]])).
Proof.
  intros [lines Hcsv]%ensure_written. exists lines. split; [done|].
  unfold _save_submission_row. rewrite Hcsv. cbn [csv set_csv].
  by rewrite writerows_snoc.
Qed.

Lemma read_written w lines :
  csv w = Some (Csv.writerows (_csv_columns :: lines)) →
  _read_all_rows w
  = List.filter (λ r, Py.truthy (row_id r))
      (map (make_row _csv_columns)
           (List.filter (λ l, negb (is_blank_line l)) lines)).
Proof.
  intros Hcsv. unfold _read_all_rows, DictReader. by rewrite Hcsv, reader_writerows.
Qed.

Lemma read_ensure w : store_ok w → _read_all_rows (_ensure_csv_header w) = _read_all_rows w.
Proof.
  intros [Hnone|Hw]; [|by rewrite written_ensure].
  unfold _read_all_rows at 2. rewrite Hnone.
  unfold _ensure_csv_header. rewrite Hnone.
  unfold _read_all_rows, DictReader. cbn [csv set_csv].
  by rewrite reader_writerow.
Qed.

Lemma find_row_app rows more sid :
  _find_row (rows ++ more) sid
  = match _find_row rows sid with
    | Some r => Some r
    | None => _find_row more sid
    end.
Proof.
  induction rows as [|r rows IH]; [done|]. cbn [app _find_row].
  by destruct (String.eqb (row_id r) sid).
Qed.

Lemma find_row_reread rows sid :
  _find_row (map reread rows) sid = reread <$> _find_row rows sid.
Proof.
  induction rows as [|r rows IH]; [done|]. cbn [map _find_row].
  rewrite reread_id. by destruct (String.eqb (row_id r) sid).
Qed.

Lemma filter_read_all w :
  List.filter (λ r, Py.truthy (row_id r)) (_read_all_rows w) = _read_all_rows w.
Proof.
  unfold _read_all_rows. destruct (csv w); [|done].
  induction (DictReader s) as [|r l IH]; [done|]. cbn [List.filter].
  destruct (Py.truthy (row_id r)) eqn:E; [|done].
  cbn [List.filter]. by rewrite E, IH.
Qed.

Lemma read_same_csv w w' : csv w' = csv w → _read_all_rows w' = _read_all_rows w.
Proof. unfold _read_all_rows. by intros ->. Qed.

Lemma readable_same_csv w w' : csv w' = csv w → readable w' = readable w.
Proof. unfold readable. by intros ->. Qed.

Lemma readable_ensure w : store_ok w → readable (_ensure_csv_header w) = readable w.
Proof.
  intros [Hnone|Hw]; [|by rewrite written_ensure].
  unfold _ensure_csv_header, readable. by rewrite Hnone.
Qed.

(** A row appended to a readable store leaves a readable store when its
    nine values fit in a field. *)
Lemma save_row_readable w sid created kind title price phone description photos
      password :
  store_ok w → readable w = true →
  Forall (λ v, Csv.too_long v = false)
         [sid; created; kind; title; price; phone; description;
          Py.join ";" photos; password] →
  readable (_save_submission_row w sid created kind title price phone description
              photos password) = true.
Proof.
  intros Hok Hread Hfit.
  destruct (save_row_written w sid created kind title price phone description
              photos password Hok) as (lines & Hbefore & Hafter).
  rewrite <- (readable_ensure w Hok) in Hread.
  apply (LimitFacts.readable_lines _ _ Hbefore) in Hread.
  apply (LimitFacts.readable_lines _ _ Hafter).
  apply Forall_app. split; [done | by constructor].
Qed.

End StoreFacts2.

Section StoreProperties2.
Import Dict Store StoreFacts StoreFacts2 CsvFacts.

(** X4.  [_find_row] returns the first row of the list whose trimmed id
    is the one asked for: the rows before it have other ids; and it
    returns nothing exactly when no row of the list has the id. *)
Theorem find_row_first (rows : list row) (sid : string) :
  match _find_row rows sid with
  | Some r =>
      ∃ before after,
        rows = before ++ r :: after
        ∧ row_id r = sid
        ∧ Forall (λ x, row_id x ≠ sid) before
  | None => Forall (λ x, row_id x ≠ sid) rows
  end.
Proof.
  induction rows as [|r0 rows IH]; [by constructor|]. cbn [_find_row].
  destruct (String.eqb_spec (row_id r0) sid) as [Heq|Hne].
  - by exists [], rows.
  - destruct (_find_row rows sid) as [r|].
    + destruct IH as (before & after & -> & Hid & Hbefore).
      exists (r0 :: before), after. by repeat split; [|constructor].
    + by constructor.
Qed.


(** X6.  The store stays in the shape the application writes.  A store
    that is absent, or that has the expected header and is text of the csv
    writer, is after [_ensure_csv_header], after [_save_submission_row]
    and after [_write_all_rows] a store with the expected header and text
    of the csv writer; [_write_all_rows] leaves such a store whatever was
    there, and [_ensure_csv_header] does not touch one. *)
Theorem store_shape_kept (w : World) (rows : list row)
        (sid created kind title price phone description : string)
        (photos : list string) (password : string) :
  written (_write_all_rows w rows)
  ∧ (store_ok w →
     written (_ensure_csv_header w)
     ∧ written (_save_submission_row w sid created kind title price phone
                  description photos password))
  ∧ (written w → _ensure_csv_header w = w).
Proof.
  split; [apply write_all_written|]. split; [|apply written_ensure].
  intros Hok. split; [by apply ensure_written|].
  destruct (save_row_written w sid created kind title price phone description
              photos password Hok) as (lines & _ & Hcsv).
  by eexists.
Qed.

(** X7.  On a readable store that is absent, or has the expected header
    and is text of the csv writer, [_save_submission_row] with an id that
    is not blank and nine values that fit in a field of the
    reader adds one row at the end and changes no other: the store stays
    readable, and reading afterwards gives the rows read before, followed
    by a row that holds the nine values under the nine columns. *)
Theorem save_row_appends (w : World)
        (sid created kind title price phone description : string)
        (photos : list string) (password : string) :
  store_ok w →
  readable w = true →
  Py.truthy (Py.strip sid) = true →
  Forall (λ v, Csv.too_long v = false)
         [sid; created; kind; title; price; phone; description;
          Py.join ";" photos; password] →
  readable (_save_submission_row w sid created kind title price phone
              description photos password) = true
  ∧ ∃ r,
      _read_all_rows (_save_submission_row w sid created kind title price phone
                        description photos password)
      = _read_all_rows w ++ [r]
      ∧ Forall2 (λ c v, fields r !! c = Some (Some v)) _csv_columns
                [sid; created; kind; title; price; phone; description;
                 Py.join ";" photos; password]
      ∧ rest r = None.
Proof.
  intros Hok Hread Hsid Hfit. split; [by apply save_row_readable|].
  destruct (save_row_written w sid created kind title price phone description
              photos password Hok) as (lines & Hbefore & Hafter).
  set (line := [sid; created; kind; title; price; phone; description;
                Py.join ";" photos; password]) in *.
  exists (make_row _csv_columns line).
  rewrite (read_written _ _ Hafter), <- (read_ensure w Hok), (read_written _ _ Hbefore).
  rewrite !List.filter_app, map_app, List.filter_app. cbn [List.filter map negb is_blank_line line].
  assert (Hid : row_id (make_row _csv_columns line) = Py.strip sid).
  { unfold row_id. f_equal. by destruct sid. }
  rewrite Hid, Hsid. split; [done|]. split; [|done].
  unfold _csv_columns, line.
  repeat (constructor; [by vm_compute|]). constructor.
Qed.

End StoreProperties2.

Lemma save_row_appends_witness :
  StoreFacts2.store_ok (Sample.world None "X1")
  ∧ Store.readable (Sample.world None "X1") = true
  ∧ Py.truthy (Py.strip "X2") = true
  ∧ Forall (λ v, Csv.too_long v = false)
           [ "X2"; "2024-05-01T00:00:00+00:00"; "material"; "Lamp"; "500";
             EmptyString; "A lamp"; Py.join ";" ["lamp.jpg"; "shade.jpg"]; "abc" ]
  ∧ Store.readable
      (Store._save_submission_row (Sample.world None "X1") "X2"
         "2024-05-01T00:00:00+00:00" "material" "Lamp" "500" EmptyString
         "A lamp" ["lamp.jpg"; "shade.jpg"] "abc") = true
  ∧ ∃ r,
      Store._read_all_rows
        (Store._save_submission_row (Sample.world None "X1") "X2"
           "2024-05-01T00:00:00+00:00" "material" "Lamp" "500" EmptyString
           "A lamp" ["lamp.jpg"; "shade.jpg"] "abc")
      = Store._read_all_rows (Sample.world None "X1") ++ [r]
      ∧ Forall2 (λ c v, Dict.fields r !! c = Some (Some v)) Store._csv_columns
                [ "X2"; "2024-05-01T00:00:00+00:00"; "material"; "Lamp"; "500";
                  EmptyString; "A lamp"; Py.join ";" ["lamp.jpg"; "shade.jpg"]; "abc" ]
      ∧ Dict.rest r = None.
Proof.
  assert (Hok : StoreFacts2.store_ok (Sample.world None "X1")) by by left.
  assert (Hfit : Forall (λ v, Csv.too_long v = false)
                   [ "X2"; "2024-05-01T00:00:00+00:00"; "material"; "Lamp"; "500";
                     EmptyString; "A lamp"; Py.join ";" ["lamp.jpg"; "shade.jpg"];
                     "abc" ]) by (repeat constructor).
  split; [exact Hok|]. split; [reflexivity|]. split; [reflexivity|].
  split; [exact Hfit|].
  exact (save_row_appends (Sample.world None "X1") "X2" "2024-05-01T00:00:00+00:00"
           "material" "Lamp" "500" EmptyString "A lamp" ["lamp.jpg"; "shade.jpg"]
           "abc" Hok eq_refl eq_refl Hfit).
Defined.

(** ** Admin proof, login and logout *)
Section AdminProof.
Import App Admin.

Variable cfg : Config.

Lemma compare_digest_true a b : compare_digest a b = Some true → a = b.
Proof.
  unfold compare_digest. destruct (_ && _); [|done].
  intros [= H]. by apply String.eqb_eq.
Qed.

Lemma compare_digest_refl a : Py.isascii a = true → compare_digest a a = Some true.
Proof. unfold compare_digest. intros ->. cbn. by rewrite String.eqb_refl. Qed.

Lemma truthy_nonempty s : Py.truthy s = true ↔ s ≠ EmptyString.
Proof. by destruct s. Qed.

(** X8.  Admin proof is holding the secret: [_is_admin] says yes only to
    a session whose [admin_key] is the configured [ADMIN_KEY], and only
    when that key is not empty; with an empty [ADMIN_KEY] it says no to
    every session. *)
Theorem is_admin_sound (s : Session) :
  (_is_admin cfg s = Some true →
   admin_key s = Some (ADMIN_KEY cfg) ∧ ADMIN_KEY cfg ≠ EmptyString)
  ∧ (ADMIN_KEY cfg = EmptyString → _is_admin cfg s = Some false).
Proof.
  unfold _is_admin. split.
  - destruct (Py.truthy (ADMIN_KEY cfg)) eqn:Hkey; cbn [negb]; [|done].
    destruct (admin_key s) as [k|]; cbn [default from_option id]; [|done].
    destruct (Py.truthy k); cbn [negb]; [|done].
    intros ->%compare_digest_true. split; [done|]. by apply truthy_nonempty.
  - by intros ->.
Qed.


(** X10.  Logging in with the configured key works: when [ADMIN_KEY] is
    set and ASCII, and the key typed is [ADMIN_KEY] up to surrounding
    white space, the session holds admin proof afterwards; and after
    [GET /admin/logout] no session does. *)
Theorem login_then_logout (s : Session) (form_key : option string) :
  ADMIN_KEY cfg ≠ EmptyString →
  Py.isascii (ADMIN_KEY cfg) = true →
  Py.strip (Py.or_ form_key EmptyString) = ADMIN_KEY cfg →
  let s1 := (admin_login_post cfg s form_key).2 in
  _is_admin cfg s1 = Some true
  ∧ _is_admin cfg (admin_logout s1).2 = Some false
  ∧ unlocked_cards (admin_logout s1).2 = unlocked_cards s.
Proof.
  intros Hset%truthy_nonempty Hascii Hkey. cbv zeta.
  unfold admin_login_post. rewrite Hset, Hkey, compare_digest_refl by done.
  cbn [negb snd]. unfold _is_admin. rewrite Hset.
  cbn [negb admin_logout snd set_admin_key admin_key default from_option id
       unlocked_cards Py.truthy].
  rewrite Hset, compare_digest_refl by done. done.
Qed.

End AdminProof.

Lemma login_then_logout_witness :
  (ADMIN_KEY Sample.cfg ≠ EmptyString)
  ∧ Py.isascii (ADMIN_KEY Sample.cfg) = true
  ∧ Py.strip (Py.or_ (Some " s3cret ") EmptyString) = ADMIN_KEY Sample.cfg
  ∧ App._is_admin Sample.cfg
      (Admin.admin_login_post Sample.cfg Sample.visitor (Some " s3cret ")).2
    = Some true
  ∧ App._is_admin Sample.cfg
      (Admin.admin_logout
         (Admin.admin_login_post Sample.cfg Sample.visitor (Some " s3cret ")).2).2
    = Some false.
Proof.
  assert (Hset : ADMIN_KEY Sample.cfg ≠ EmptyString) by done.
  split; [exact Hset|]. split; [reflexivity|]. split; [by vm_compute|].
  pose proof (login_then_logout Sample.cfg Sample.visitor (Some " s3cret ")
                Hset eq_refl eq_refl) as H.
  split; [exact (proj1 H) | exact (proj1 (proj2 H))].
Defined.

(** ** The photo gate, for use below *)
Section GateFacts.
Import Dict Store StoreFacts App.

Lemma uploads_gate_general (cfg : Config) (w : World) (s : Session)
      (sid fname : string) (r : row) (is_admin : bool) :
  _find_row (_read_all_rows w) sid = Some r →
  _is_admin cfg s = Some is_admin →
  uploads cfg w s sid fname
  = if is_admin || negb (Py.truthy (field_of r "password"))
       || bool_decide (sid ∈ unlocked_of s)
    then send_from_directory w (Path.joinpath (UPLOADS_DIR cfg) sid) fname
    else Abort 403.
Proof.
  intros Hrow Hadmin. unfold uploads. rewrite Hadmin, Hrow.
  rewrite (found_in_store w sid r Hrow).
  destruct is_admin; [done|]. cbn [negb orb].
  destruct (Py.truthy (field_of r "password")); [|done]. cbn [negb orb].
  destruct (decide (sid ∈ unlocked_of s)) as [Hin|Hout].
  - by rewrite (bool_decide_eq_true_2 _ Hin), bool_decide_eq_false_2 by auto.
  - by rewrite (bool_decide_eq_false_2 _ Hout), bool_decide_eq_true_2.
Qed.

End GateFacts.

(** ** What unlocking can and cannot do *)
Section UnlockProperties.
Import Dict Store StoreFacts App Admin.

Variable cfg : Config.
Variable quote : string → string.

(** X11.  [POST /unlock/<sid>] never touches the admin key, never removes
    an id from the unlock list, and adds at most the id of the request;
    that id enters the list only when a row with the id exists and the
    password typed, trimmed, is not empty and equals the row's trimmed
    password. *)
Theorem unlock_only_adds (w : World) (s : Session) (sid : string)
        (form_password : option string) :
  let s' := (unlock w s sid form_password).2 in
  admin_key s' = admin_key s
  ∧ (unlocked_of s' = unlocked_of s
     ∨ unlocked_of s' = unlocked_of s ++ [sid]
       ∧ (sid ∉ unlocked_of s)
       ∧ ∃ r, _find_row (_read_all_rows w) sid = Some r
              ∧ field_of r "password" = Py.strip (Py.or_ form_password EmptyString)
              ∧ field_of r "password" ≠ EmptyString).
Proof.
  cbv zeta. unfold unlock.
  destruct (_find_row _ sid) as [r|] eqn:Hrow; [|by split; [|left]].
  destruct (Dict.truthy r); cbn [negb]; [|by split; [|left]].
  destruct (Py.truthy (field_of r "password")) eqn:Hpw; cbn [negb]; [|by split; [|left]].
  destruct (Py.truthy (Py.strip _)) eqn:Htyped; [|by split; [|left]].
  destruct (compare_digest _ _) as [[|]|] eqn:Hcmp; [|by split; [|left]..].
  cbn [snd set_unlocked admin_key]. split; [done|].
  unfold unlocked_of at 1. cbn [unlocked_cards default from_option id].
  destruct (decide (sid ∈ unlocked_of s)) as [Hin|Hout].
  - left. by rewrite bool_decide_eq_false_2 by auto.
  - right. rewrite bool_decide_eq_true_2 by done. split; [done|]. split; [done|].
    exists r. split; [done|]. split.
    + symmetry. by apply compare_digest_true.
    + by destruct (field_of r "password").
Qed.


End UnlockProperties.


(** ** Listing the photos of a listing *)
Module ListingFacts.
Import App.

Lemma insert_sorted_perm x l : Fs.insert_sorted x l ≡ₚ x :: l.
Proof.
  induction l as [|y l IH]; [done|]. cbn [Fs.insert_sorted].
  destruct (String.leb x y); [done|]. rewrite IH. apply Permutation_swap.
Qed.

Lemma sorted_perm l : Fs.sorted l ≡ₚ l.
Proof.
  induction l as [|x l IH]; [done|]. cbn [Fs.sorted foldr].
  fold (Fs.sorted l). by rewrite insert_sorted_perm, IH.
Qed.

Lemma leb_false_le x y : String.leb x y = false → String.le y x.
Proof.
  intros H. destruct (String.leb_total x y) as [Hxy|Hyx]; [congruence|].
  unfold String.le. by rewrite Hyx.
Qed.

Lemma insert_sorted_hd a x l :
  HdRel String.le a l → String.le a x → HdRel String.le a (Fs.insert_sorted x l).
Proof.
  intros Hhd Hax. destruct l as [|y l]; cbn [Fs.insert_sorted]; [by constructor|].
  destruct (String.leb x y); constructor; [done|]. by inversion Hhd.
Qed.

Lemma insert_sorted_Sorted x l :
  Sorted String.le l → Sorted String.le (Fs.insert_sorted x l).
Proof.
  induction l as [|y l IH]; intros Hl; cbn [Fs.insert_sorted].
  - by repeat constructor.
  - destruct (String.leb x y) eqn:E.
    + constructor; [done|]. constructor. unfold String.le. by rewrite E.
    + inversion Hl as [|? ? Hsorted Hhd]; subst. constructor; [by apply IH|].
      apply insert_sorted_hd; [done | by apply leb_false_le].
Qed.

Lemma sorted_Sorted l : StronglySorted String.le (Fs.sorted l).
Proof.
  apply Sorted_StronglySorted; [apply _|].
  induction l as [|x l IH]; [constructor|]. by apply insert_sorted_Sorted.
Qed.

Lemma file_names_elem w d nm :
  nm ∈ Fs.file_names w d ↔ is_Some (files w !! (Path.resolve d ++ [nm])).
Proof.
  unfold Fs.file_names. rewrite list_elem_of_omap. split.
  - intros ([p v] & Hin%elem_of_map_to_list & Hf). cbn [fst] in Hf.
    destruct (reverse p) as [|nm' up] eqn:Hrev; [done|].
    destruct (decide (reverse up = Path.resolve d)) as [Hup|]; [|done].
    injection Hf as ->. apply (f_equal reverse) in Hrev.
    rewrite reverse_involutive, reverse_cons, Hup in Hrev. subst p. by exists v.
  - intros [v Hv]. exists (Path.resolve d ++ [nm], v). split.
    + by apply elem_of_map_to_list.
    + cbn [fst]. rewrite reverse_app, reverse_singleton. cbn [app].
      rewrite reverse_involutive. by rewrite decide_True.
Qed.

Lemma file_names_NoDup w d : NoDup (Fs.file_names w d).
Proof.
  unfold Fs.file_names. pose proof (NoDup_fst_map_to_list (files w)) as Hkeys.
  induction (map_to_list (files w)) as [|[p v] l IH]; [constructor|].
  rewrite fmap_cons in Hkeys. apply NoDup_cons in Hkeys as [Hp Hkeys].
  cbn [omap list_omap fst]. destruct (reverse p) as [|nm up] eqn:Hrev; [by apply IH|].
  destruct (decide (reverse up = Path.resolve d)) as [Hup|]; [|by apply IH].
  apply NoDup_cons. split; [|by apply IH].
  intros ([q u] & Hq & Hf)%list_elem_of_omap. cbn [fst] in Hf.
  destruct (reverse q) as [|nm' up'] eqn:Hrevq; [done|].
  destruct (decide (reverse up' = Path.resolve d)) as [Hup'|]; [|done].
  injection Hf as ->. apply Hp.
  assert (q = p) as ->.
  { rewrite <- (reverse_involutive q), <- (reverse_involutive p), Hrev, Hrevq.
    rewrite !reverse_cons. by rewrite Hup, Hup'. }
  apply list_elem_of_fmap. by exists (p, u).
Qed.

Lemma list_photos_dir cfg w sid :
  _list_photos cfg w sid
  = if Fs.is_dir w (Path.joinpath (UPLOADS_DIR cfg) sid)
    then Fs.sorted (Fs.file_names w (Path.joinpath (UPLOADS_DIR cfg) sid))
    else [].
Proof.
  unfold _list_photos, Fs.exists_.
  destruct (Fs.is_dir w _); [|by rewrite orb_true_r]. by rewrite orb_true_r.
Qed.

Lemma list_photos_same cfg w w' sid :
  files w' = files w → dirs w' = dirs w →
  _list_photos cfg w' sid = _list_photos cfg w sid.
Proof.
  intros Hf Hd. unfold _list_photos, Fs.exists_, Fs.is_file, Fs.is_dir, Fs.file_names.
  by rewrite Hf, Hd.
Qed.

End ListingFacts.

Section ListingProperties.
Import App ListingFacts.

(** X13.  [_list_photos] is the directory of the listing as a sorted list
    without repetitions: a name is in it exactly when the directory
    exists and holds a regular file of that name directly below it; the
    names come in ascending order of their text. *)
Theorem list_photos_spec (cfg : Config) (w : World) (sid : string) :
  let d := Path.joinpath (UPLOADS_DIR cfg) sid in
  StronglySorted String.le (_list_photos cfg w sid)
  ∧ NoDup (_list_photos cfg w sid)
  ∧ ∀ nm, nm ∈ _list_photos cfg w sid
          ↔ Fs.is_dir w d = true ∧ is_Some (files w !! (Path.resolve d ++ [nm])).
Proof.
  cbv zeta. rewrite list_photos_dir.
  destruct (Fs.is_dir w _) eqn:Hdir.
  - split; [apply sorted_Sorted|]. split.
    + rewrite sorted_perm. apply file_names_NoDup.
    + intros nm. rewrite sorted_perm, file_names_elem.
      split; [by intros ? | by intros [_ ?]].
  - split; [constructor|]. split; [constructor|].
    intros nm. split; [by intros ?%not_elem_of_nil | by intros [? _]].
Qed.

End ListingProperties.

(** ** The feeds *)
Module FeedFacts.
Import Dict Store App.

(** [a] is shown before [b]: it is not older. *)
Definition not_older (a b : Item) : Prop :=
  String.le (item_created_utc b) (item_created_utc a).

Lemma ltb_true_le x y : String.ltb x y = true → String.le x y.
Proof.
  unfold String.ltb, String.le, String.leb. by destruct (String.compare x y).
Qed.

Lemma ltb_false_le x y : String.ltb x y = false → String.le y x.
Proof.
  unfold String.ltb, String.le, String.leb. rewrite (String.compare_antisym y x).
  by destruct (String.compare x y).
Qed.

Lemma not_older_trans : Transitive not_older.
Proof. intros a b c Hab Hbc. unfold not_older in *. by etrans. Qed.

Lemma insert_newest_hd a x l :
  HdRel not_older a l → not_older a x → HdRel not_older a (insert_newest x l).
Proof.
  intros Hhd Hax. destruct l as [|y l]; cbn [insert_newest]; [by constructor|].
  destruct (String.ltb _ _); constructor; [|done]. by inversion Hhd.
Qed.

Lemma insert_newest_Sorted x l :
  Sorted not_older l → Sorted not_older (insert_newest x l).
Proof.
  induction l as [|y l IH]; intros Hl; cbn [insert_newest].
  - by repeat constructor.
  - destruct (String.ltb _ _) eqn:E.
    + inversion Hl as [|? ? Hsorted Hhd]; subst. constructor; [by apply IH|].
      apply insert_newest_hd; [done | by apply ltb_true_le].
    + constructor; [done|]. constructor. by apply ltb_false_le.
Qed.

Lemma sort_newest_Sorted l : StronglySorted not_older (sort_newest l).
Proof.
  apply Sorted_StronglySorted; [apply not_older_trans|].
  induction l as [|x l IH]; [constructor|]. by apply insert_newest_Sorted.
Qed.

Lemma StronglySorted_take {A} (R : A → A → Prop) n l :
  StronglySorted R l → StronglySorted R (take n l).
Proof.
  revert n. induction l as [|x l IH]; intros [|n] Hl; cbn; try constructor.
  - apply IH. by inversion Hl.
  - apply StronglySorted_inv in Hl as [_ Hall].
    eapply Forall_impl; [|done]. apply Forall_forall.
    intros y Hy%(subseteq_take n). by eapply Forall_forall in Hall.
Qed.

Lemma shown_sorted {A} (mk : A → Item) (rows : list A) limit :
  StronglySorted not_older (take limit (sort_newest (map mk rows)))
  ∧ length (take limit (sort_newest (map mk rows))) ≤ limit
  ∧ (length rows ≤ limit → take limit (sort_newest (map mk rows)) ≡ₚ map mk rows).
Proof.
  split; [apply StronglySorted_take, sort_newest_Sorted|]. split.
  - rewrite length_take. lia.
  - intros Hlen. rewrite take_ge; [apply sort_newest_perm|].
    by rewrite sort_newest_perm, length_map.
Qed.

End FeedFacts.

Section FeedProperties.
Import Dict Store StoreFacts App Admin FeedFacts.

Variable quote : string → string.
Variable cfg : Config.

Lemma load_submissions_ids (w : World) (limit : nat) :
  Forall (λ it, item_id it ≠ EmptyString) (_load_submissions quote w limit).
Proof.
  unfold _load_submissions. destruct (csv w) as [text|]; [|constructor].
  apply Forall_forall. intros it (r & Hr & ->)%(shown_items _ _ _ it).
  apply list_elem_of_In, List.filter_In in Hr as [_ Hid].
  cbn [item_id public_item]. by destruct (row_id r).
Qed.

(** X14.  The public feed and the admin feed come newest first in the
    text order of [created_utc], hold at most [limit] cards, hold a card
    for every row that has an id when [limit] allows, and never a card
    with an empty id. *)
Theorem feeds_sorted_and_bounded (w : World) (limit : nat) :
  (StronglySorted not_older (_load_submissions quote w limit)
   ∧ length (_load_submissions quote w limit) ≤ limit
   ∧ Forall (λ it, item_id it ≠ EmptyString) (_load_submissions quote w limit)
   ∧ (length (_read_all_rows w) ≤ limit →
      _load_submissions quote w limit
      ≡ₚ map (public_item quote) (_read_all_rows w)))
  ∧ (StronglySorted not_older (_admin_submissions quote cfg w limit)
     ∧ length (_admin_submissions quote cfg w limit) ≤ limit
     ∧ Forall (λ it, item_id it ≠ EmptyString) (_admin_submissions quote cfg w limit)
     ∧ (length (_read_all_rows w) ≤ limit →
        _admin_submissions quote cfg w limit
        ≡ₚ map (admin_item quote cfg w) (_read_all_rows w))).
Proof.
  split.
  - pose proof (load_submissions_ids w limit) as Hids.
    unfold _load_submissions, _read_all_rows in *.
    destruct (csv w) as [text|] eqn:Hcsv.
    + destruct (shown_sorted (public_item quote)
                  (List.filter (λ r, Py.truthy (row_id r)) (DictReader text)) limit)
        as (Hsorted & Hlen & Hall).
      by split_and!.
    + split_and!; [constructor | cbn; lia | constructor | done].
  - unfold _admin_submissions.
    destruct (shown_sorted (admin_item quote cfg w) (_read_all_rows w) limit)
      as (Hsorted & Hlen & Hall).
    split; [done|]. split; [done|]. split; [|done]. apply Forall_forall.
    intros it (r & Hr & ->)%(shown_items _ _ _ it).
    apply read_all_rows_id in Hr. cbn [item_id admin_item]. by destruct (row_id r).
Qed.

(** X15.  On the index page a card is flagged [unlocked] exactly when its
    id is in the session's unlock list, and the cards are those of the
    public feed, in its order. *)
Theorem index_flags (w : World) (s : Session) (limit : nat) :
  map fst (index quote w s limit) = _load_submissions quote w limit
  ∧ Forall (λ card, card.2 = bool_decide (item_id card.1 ∈ unlocked_of s))
           (index quote w s limit).
Proof.
  pose proof (load_submissions_ids w limit) as Hids. unfold index. split.
  - rewrite map_map. cbn [fst]. apply map_id.
  - apply Forall_forall. intros [it flag] (it' & [= -> ->] & Hit)%list_elem_of_fmap.
    cbn [fst snd]. eapply Forall_forall in Hids; [|done].
    by destruct (item_id it').
Qed.

End FeedProperties.

(** ** The photos field *)
Section PhotosField.
Import App.

Lemma split_whole sep a b :
  Path.split sep a = [a] →
  Path.split sep (a +:+ String sep b) = a :: Path.split sep b.
Proof.
  induction a as [|c a IH]; intros Ha.
  - rewrite str_app_nil_l. cbn [Path.split]. by rewrite Ascii.eqb_refl.
  - rewrite str_app_cons. cbn [Path.split] in *.
    destruct (Ascii.eqb c sep); [done|].
    destruct (Path.split sep a) as [|h t] eqn:Hsplit.
    + injection Ha as <-. done.
    + injection Ha as -> ->. by rewrite IH.
Qed.

(** X16.  The photos field reads back as it was written: names that are
    not empty and hold no semicolon, joined with semicolons as
    [_save_submission_row] and the resynchronisation do, are split by the
    feeds into the same names in the same order. *)
Theorem photos_field_roundtrip (names : list string) :
  Forall (λ nm, Py.truthy nm = true ∧ Path.split ";" nm = [nm]) names →
  split_photos (Py.join ";" names) = names.
Proof.
  unfold split_photos. induction names as [|p names IH]; intros Hnames; [done|].
  apply Forall_cons in Hnames as [[Hp Hwhole] Hnames].
  destruct names as [|q names].
  - cbn [Py.join]. rewrite Hwhole. cbn [List.filter]. by rewrite Hp.
  - change (Py.join ";" (p :: q :: names))
      with (p +:+ String ";" (Py.join ";" (q :: names))).
    rewrite split_whole by done. cbn [List.filter]. rewrite Hp.
    by rewrite IH.
Qed.

Lemma photos_field_roundtrip_witness :
  Forall (λ nm, Py.truthy nm = true ∧ Path.split ";" nm = [nm])
         ["a.jpg"; "b c.png"; "d.webp"]
  ∧ Py.join ";" ["a.jpg"; "b c.png"; "d.webp"] = "a.jpg;b c.png;d.webp"
  ∧ split_photos "a.jpg;b c.png;d.webp" = ["a.jpg"; "b c.png"; "d.webp"].
Proof.
  assert (H : Forall (λ nm, Py.truthy nm = true ∧ Path.split ";" nm = [nm])
                     ["a.jpg"; "b c.png"; "d.webp"])
    by (repeat constructor).
  split; [exact H|]. split; [reflexivity|].
  exact (photos_field_roundtrip ["a.jpg"; "b c.png"; "d.webp"] H).
Defined.

End PhotosField.

(** ** Rows changed in place, and stores rewritten *)
Module AdminFacts.
Import Dict Store StoreFacts StoreFacts2 App Admin.

Lemma row_id_set r k v : k ≠ "id" → row_id (Dict.set r k v) = row_id r.
Proof.
  intros Hk. unfold row_id, get, Dict.set. cbn [fields].
  by rewrite lookup_insert_ne.
Qed.

Lemma get_set r k v : get (Dict.set r k v) k = Some v.
Proof. unfold get, Dict.set. cbn [fields]. by rewrite lookup_insert_eq. Qed.

Lemma get_set_ne r k k' v : k ≠ k' → get (Dict.set r k v) k' = get r k'.
Proof.
  intros Hk. unfold get, Dict.set. cbn [fields]. by rewrite lookup_insert_ne.
Qed.

Lemma set_found_alter rows sid k v :
  set_found rows sid k v = alter_found (λ r, Dict.set r k v) rows sid.
Proof. induction rows as [|r rows IH]; [done|]. cbn. by rewrite IH. Qed.

Section Alter.
Variable change : row → row.
Hypothesis change_id : ∀ r, row_id (change r) = row_id r.

Lemma find_altered rows sid r :
  _find_row rows sid = Some r →
  _find_row (alter_found change rows sid) sid = Some (change r).
Proof.
  induction rows as [|r0 rows IH]; [done|]. cbn [_find_row alter_found].
  destruct (String.eqb (row_id r0) sid) eqn:E.
  - intros [= ->]. cbn [_find_row]. by rewrite change_id, E.
  - intros H. cbn [_find_row]. rewrite E. by apply IH.
Qed.

Lemma find_altered_other rows sid sid' :
  sid' ≠ sid →
  _find_row (alter_found change rows sid) sid' = _find_row rows sid'.
Proof.
  intros Hne. induction rows as [|r0 rows IH]; [done|]. cbn [_find_row alter_found].
  destruct (String.eqb_spec (row_id r0) sid) as [Heq|_].
  - cbn [_find_row]. rewrite change_id.
    destruct (String.eqb_spec (row_id r0) sid') as [Heq'|_]; [congruence | done].
  - cbn [_find_row]. by rewrite IH.
Qed.

Lemma altered_ids rows sid :
  Forall (λ r, Py.truthy (row_id r) = true) rows →
  Forall (λ r, Py.truthy (row_id r) = true) (alter_found change rows sid).
Proof.
  induction 1 as [|r0 rows H0 Hrows IH]; [constructor|]. cbn [alter_found].
  destruct (String.eqb (row_id r0) sid); constructor; try done.
  by rewrite change_id.
Qed.

End Alter.

Lemma read_all_ids w : Forall (λ r, Py.truthy (row_id r) = true) (_read_all_rows w).
Proof. apply Forall_forall. intros r. apply read_all_rows_id. Qed.

Lemma filter_ids rows :
  Forall (λ r, Py.truthy (row_id r) = true) rows →
  List.filter (λ r, Py.truthy (row_id r)) rows = rows.
Proof.
  induction 1 as [|r rows Hr Hrows IH]; [done|]. cbn [List.filter].
  by rewrite Hr, IH.
Qed.

(** Rows that all have an id come back from a full rewrite one for
    one. *)
Lemma read_rewritten w rows :
  Forall (λ r, Py.truthy (row_id r) = true) rows →
  _read_all_rows (_write_all_rows w rows) = map reread rows.
Proof. intros Hrows. by rewrite read_after_write, filter_ids. Qed.

Lemma reread_get r c :
  c ∈ _csv_columns → get (reread r) c = Some (Py.or_ (get r c) EmptyString).
Proof.
  intros Hc. unfold get at 1. rewrite reread_fields. by rewrite decide_True.
Qed.

Lemma reread_truthy r : Dict.truthy (reread r) = true.
Proof.
  unfold Dict.truthy. apply orb_true_intro. left.
  apply negb_true_iff, bool_decide_eq_false. intros Hempty.
  pose proof (reread_fields r "id") as Hid. rewrite Hempty, lookup_empty in Hid.
  by rewrite decide_True in Hid by by_evaluation.
Qed.


Lemma find_filtered_other rows sid sid' :
  sid' ≠ sid →
  _find_row (List.filter (λ r, negb (String.eqb (row_id r) sid)) rows) sid'
  = _find_row rows sid'.
Proof.
  intros Hne. induction rows as [|r rows IH]; [done|]. cbn [List.filter _find_row].
  destruct (String.eqb_spec (row_id r) sid) as [Heq|_]; cbn [negb].
  - destruct (String.eqb_spec (row_id r) sid') as [Heq'|_]; [congruence | done].
  - cbn [_find_row]. by rewrite IH.
Qed.

Lemma filtered_ids (P : row → bool) rows :
  Forall (λ r, Py.truthy (row_id r) = true) rows →
  Forall (λ r, Py.truthy (row_id r) = true) (List.filter P rows).
Proof.
  induction 1 as [|r rows Hr Hrows IH]; [constructor|]. cbn [List.filter].
  destruct (P r); [by constructor | done].
Qed.

(** The value a column has after a full rewrite: the string stored, or
    the empty string. *)
Definition stored (r : row) (c : string) : string := Py.or_ (get r c) EmptyString.

Lemma edit_values_lookup r c :
  c ∈ _csv_columns → edit_values r !! c = Some (stored r c).
Proof.
  intros Hc. unfold edit_values, stored. rewrite <- or_get_default.
  apply elem_of_list_to_map_1'.
  - intros v Hv. apply list_elem_of_fmap in Hv as (c' & [= -> ->] & _). done.
  - apply list_elem_of_fmap. by exists c.
Qed.

End AdminFacts.

(** ** Paths below the upload directory *)
Module PathFacts.

(** A plain name: one path component, neither [.] nor [..]. *)
Definition plain (nm : string) : Prop :=
  Path.parts nm = [nm] ∧ nm ≠ "..".




Lemma resolve_from_app stack xs ys :
  Path.resolve_from stack (xs ++ ys)
  = Path.resolve_from (reverse (Path.resolve_from stack xs)) ys.
Proof.
  revert stack. induction xs as [|x xs IH]; intros stack; cbn [app Path.resolve_from].
  - by rewrite reverse_involutive.
  - by destruct (String.eqb x "..").
Qed.


Lemma resolve_from_clean stack comps :
  ".." ∉ stack → ".." ∉ Path.resolve_from stack comps.
Proof.
  revert stack. induction comps as [|c comps IH]; intros stack Hstack;
    cbn [Path.resolve_from].
  - by rewrite elem_of_reverse.
  - destruct (String.eqb_spec c "..") as [->|Hc]; apply IH.
    + destruct stack; [done|]. cbn. by apply not_elem_of_cons in Hstack as [_ ?].
    + by apply not_elem_of_cons.
Qed.

Lemma resolve_from_id stack comps :
  ".." ∉ comps → Path.resolve_from stack comps = reverse stack ++ comps.
Proof.
  revert stack. induction comps as [|c comps IH]; intros stack Hcomps;
    cbn [Path.resolve_from].
  - by rewrite app_nil_r.
  - apply not_elem_of_cons in Hcomps as [Hc Hcomps].
    destruct (String.eqb_spec c ".."); [done|].
    rewrite IH by done. rewrite reverse_cons. by rewrite <- (assoc_L (++)).
Qed.

(** Resolving a resolved path changes nothing. *)
Lemma resolve_idempotent p : Path.resolve (Path.resolve p) = Path.resolve p.
Proof.
  unfold Path.resolve at 1. rewrite resolve_from_id; [done|].
  apply resolve_from_clean, not_elem_of_nil.
Qed.


End PathFacts.

(** ** The admin handlers *)
Module HandlerFacts.
Import Dict Store StoreFacts StoreFacts2 App Admin AdminFacts ListingFacts.

Section Loops.
Variable secure_filename : string → string.
Variable uuid_hex6 : nat → string.

Lemma save_upload_csv sub_dir st f :
  csv (save_upload secure_filename uuid_hex6 sub_dir st f).1.1 = csv st.1.1.
Proof.
  destruct st as [[w drawn] saved]. unfold save_upload.
  by destruct (Fs.exists_ w _).
Qed.

Lemma fold_save_upload_csv sub_dir fs : ∀ st,
  csv (foldl (save_upload secure_filename uuid_hex6 sub_dir) st fs).1.1 = csv st.1.1.
Proof.
  induction fs as [|f fs IH]; intros st; [done|]. cbn [foldl].
  by rewrite IH, save_upload_csv.
Qed.

Lemma save_created_step sub_dir st f :
  csv (save_created secure_filename uuid_hex6 sub_dir st f).1.1 = csv st.1.1
  ∧ length (save_created secure_filename uuid_hex6 sub_dir st f).2 = S (length st.2).
Proof.
  destruct st as [[w drawn] names]. unfold save_created.
  destruct (Fs.exists_ w _); cbn [fst snd Fs.save csv];
    (split; [done|]); rewrite length_app; cbn; lia.
Qed.

Lemma fold_save_created sub_dir fs : ∀ st,
  csv (foldl (save_created secure_filename uuid_hex6 sub_dir) st fs).1.1 = csv st.1.1
  ∧ length (foldl (save_created secure_filename uuid_hex6 sub_dir) st fs).2
    = length st.2 + length fs.
Proof.
  induction fs as [|f fs IH]; intros st; cbn [foldl length]; [split; [done | lia]|].
  destruct (IH (save_created secure_filename uuid_hex6 sub_dir st f)) as [-> ->].
  destruct (save_created_step sub_dir st f) as [-> ->]. split; [done | lia].
Qed.

End Loops.

Lemma or_some x : Py.or_ (Some x) EmptyString = x.
Proof. by destruct x. Qed.

(** What the resynchronisation leaves: the row of the listing holds the
    directory listing, and the upload tree is as it was. *)
Lemma resync_found cfg w sid r :
  _find_row (_read_all_rows w) sid = Some r →
  files (resync_photos cfg w sid) = files w
  ∧ dirs (resync_photos cfg w sid) = dirs w
  ∧ ∃ r', _find_row (_read_all_rows (resync_photos cfg w sid)) sid = Some r'
          ∧ get r' "photos"
            = Some (Py.join ";" (_list_photos cfg (resync_photos cfg w sid) sid)).
Proof.
  intros Hrow. unfold resync_photos. rewrite Hrow, (found_in_store w sid r Hrow).
  split; [done|]. split; [done|].
  set (v := Py.join ";" (_list_photos cfg w sid)).
  exists (reread (Dict.set r "photos" v)).
  rewrite set_found_alter.
  rewrite read_rewritten
    by (apply altered_ids; [intros; by apply row_id_set | apply read_all_ids]).
  rewrite find_row_reread.
  rewrite (find_altered _ (λ r0, row_id_set r0 "photos" v ltac:(done)) _ _ r Hrow).
  split; [done|]. rewrite reread_get by by_evaluation.
  by rewrite get_set, or_some.
Qed.

Lemma resync_missing cfg w sid :
  _find_row (_read_all_rows w) sid = None → resync_photos cfg w sid = w.
Proof. intros Hrow. unfold resync_photos. by rewrite Hrow. Qed.

Lemma resync_store_ok cfg w sid : store_ok w → store_ok (resync_photos cfg w sid).
Proof.
  intros Hok. unfold resync_photos. destruct (found _); [|done].
  right. apply write_all_written.
Qed.

(** The outcome of [unlock] when the password typed is the stored one. *)
Lemma unlock_right_password w s sid form_password r :
  _find_row (_read_all_rows w) sid = Some r →
  field_of r "password" = Py.strip (Py.or_ form_password EmptyString) →
  Py.truthy (field_of r "password") = true →
  Py.isascii (field_of r "password") = true →
  (unlock w s sid form_password).1 = Redirect "/"
  ∧ sid ∈ unlocked_of (unlock w s sid form_password).2.
Proof.
  intros Hrow Hpw Hset Hascii. unfold unlock. rewrite Hrow.
  pose proof (found_in_store w sid r Hrow) as Hfound. cbn [found] in Hfound.
  rewrite Hfound, Hset. cbn [negb]. rewrite <- Hpw, Hset.
  rewrite compare_digest_refl by done. cbn [fst snd]. split; [done|].
  unfold unlocked_of at 1. cbn [set_unlocked unlocked_cards default from_option id].
  destruct (decide (sid ∈ unlocked_of s)) as [Hin|Hout].
  - by rewrite bool_decide_eq_false_2 by auto.
  - rewrite bool_decide_eq_true_2 by done. apply elem_of_app. right.
    apply list_elem_of_here.
Qed.

End HandlerFacts.

(** ** Stores the handlers rewrite stay readable *)
Module ReadableFacts.
Import Dict Store StoreFacts StoreFacts2 LimitFacts App Admin AdminFacts.

Lemma alter_fits change rows sid :
  (∀ r, row_fits r → row_fits (change r)) →
  Forall row_fits rows → Forall row_fits (alter_found change rows sid).
Proof.
  intros Hchange. induction 1 as [|r rows Hr Hrows IH]; [constructor|].
  cbn [alter_found]. destruct (String.eqb (row_id r) sid); constructor; auto.
Qed.

Lemma filter_fits (P : row → bool) rows :
  Forall row_fits rows → Forall row_fits (List.filter P rows).
Proof.
  induction 1 as [|r rows Hr Hrows IH]; [constructor|]. cbn [List.filter].
  destruct (P r); [by constructor | done].
Qed.

Lemma write_fits_readable w rows :
  Forall row_fits rows → readable (_write_all_rows w rows) = true.
Proof.
  intros Hrows. apply readable_write_all.
  eapply Forall_impl; [exact Hrows|]. apply row_fits_out_line.
Qed.

(** The resynchronisation keeps the store readable when the names of the
    directory, joined, fit in a field. *)
Lemma resync_readable cfg w sid :
  readable w = true →
  Csv.too_long (Py.join ";" (_list_photos cfg w sid)) = false →
  readable (resync_photos cfg w sid) = true.
Proof.
  intros Hread Hfit. unfold resync_photos. destruct (found _); [|done].
  rewrite set_found_alter. apply write_fits_readable, alter_fits.
  - intros r Hr. by apply set_fits.
  - by apply read_rows_fit.
Qed.

Lemma saved_row_fits cfg w sid req r :
  row_fits r →
  Forall (λ v, Csv.too_long v = false)
         [ Py.strip (Py.or_ (save_title req) EmptyString);
           Py.strip (Py.or_ (save_price_tenge req) EmptyString);
           Py.strip (Py.or_ (save_description req) EmptyString);
           Py.strip (Py.or_ (save_password req) EmptyString);
           Py.join ";" (_list_photos cfg w sid) ] →
  row_fits (saved_row cfg w sid req r).
Proof.
  intros Hr Hfit.
  apply Forall_cons in Hfit as [Htitle Hfit]. apply Forall_cons in Hfit as [Hprice Hfit].
  apply Forall_cons in Hfit as [Hdesc Hfit]. apply Forall_cons in Hfit as [Hpw Hfit].
  apply Forall_cons in Hfit as [Hphotos _].
  unfold saved_row. repeat apply set_fits; try done.
  by apply or_fits.
Qed.

(** [admin_save] on a readable store leaves a readable store when the
    values it stores fit in a field. *)
Lemma saved_readable cfg w sid req :
  readable w = true →
  Forall (λ v, Csv.too_long v = false)
         [ Py.strip (Py.or_ (save_title req) EmptyString);
           Py.strip (Py.or_ (save_price_tenge req) EmptyString);
           Py.strip (Py.or_ (save_description req) EmptyString);
           Py.strip (Py.or_ (save_password req) EmptyString);
           Py.join ";" (_list_photos cfg w sid) ] →
  readable (_write_all_rows w
              (alter_found (saved_row cfg w sid req) (_read_all_rows w) sid)) = true.
Proof.
  intros Hread Hfit. apply write_fits_readable, alter_fits.
  - intros r Hr. by apply saved_row_fits.
  - by apply read_rows_fit.
Qed.

(** Dropping rows of a readable store leaves a readable store. *)
Lemma filtered_readable w (P : row → bool) :
  readable w = true →
  readable (_write_all_rows w (List.filter P (_read_all_rows w))) = true.
Proof.
  intros Hread. by apply write_fits_readable, filter_fits, read_rows_fit.
Qed.

End ReadableFacts.

Section HandlerProperties.
Import Dict Store StoreFacts StoreFacts2 App Admin AdminFacts ListingFacts
       HandlerFacts TextFacts.

Variable secure_filename : string → string.
Variable quote : string → string.
Variable uuid_hex6 : nat → string.
Variable cfg : Config.

(** X17.  Without admin proof no admin handler does anything: each one
    answers with the redirect to the login page, and the world and the
    session are exactly as before. *)
Theorem admin_handlers_need_proof (w : World) (s : Session) (sid fname : string)
        (up : UploadRequest) (cr : CreateRequest) (sv : SaveRequest)
        (new_id now_iso : string) :
  _is_admin cfg s = Some false →
  admin_create secure_filename uuid_hex6 cfg w s cr new_id now_iso
  = (Redirect "/admin/login", (None, w))
  ∧ admin_save cfg w s sid sv = (Redirect "/admin/login", (None, w))
  ∧ admin_delete cfg w s sid = (Redirect "/admin/login", (None, w))
  ∧ admin_upload secure_filename uuid_hex6 cfg w s sid up
    = (Redirect "/admin/login", (w, s))
  ∧ admin_photo_delete cfg w s sid fname = (Redirect "/admin/login", w)
  ∧ admin_edit cfg w s sid = Answer (Redirect "/admin/login")
  ∧ admin_index quote cfg w s = Answer (Redirect "/admin/login")
  ∧ admin_csv_download cfg w s = Redirect "/admin/login".
Proof.
  intros Hadmin.
  unfold admin_create, admin_save, admin_delete, admin_upload, admin_photo_delete,
    admin_edit, admin_index, admin_csv_download, admin_required, admin_required_page.
  by rewrite Hadmin.
Qed.


End HandlerProperties.

Section CreateAndSave.
Import Dict Store StoreFacts StoreFacts2 App Admin AdminFacts ListingFacts
       HandlerFacts TextFacts ReadableFacts.

Variable secure_filename : string → string.
Variable uuid_hex6 : nat → string.
Variable cfg : Config.

Lemma saved_row_id w sid req r : row_id (saved_row cfg w sid req r) = row_id r.
Proof. unfold saved_row. by rewrite !row_id_set. Qed.

(** The world after the photos of [admin_create] are saved has the store
    file of before, and one name for each file. *)
Lemma created_photos_csv w sid fs :
  ∃ w1 names,
    match fs with
    | [] => (w, [])
    | _ =>
        let '(w1, _, saved_names) :=
          foldl (save_created secure_filename uuid_hex6
                   (Path.joinpath (UPLOADS_DIR cfg) sid))
                (Fs.mkdir w (Path.joinpath (UPLOADS_DIR cfg) sid), 0, []) fs in
        (w1, saved_names)
    end = (w1, names)
    ∧ csv w1 = csv w ∧ length names = length fs.
Proof.
  destruct fs as [|f fs]; [by exists w, []|].
  set (sub_dir := Path.joinpath (UPLOADS_DIR cfg) sid).
  pose proof (fold_save_created secure_filename uuid_hex6 sub_dir (f :: fs)
                (Fs.mkdir w sub_dir, 0, [])) as [Hcsv Hlen].
  destruct (foldl _ _ (f :: fs)) as [[w1 drawn] names]. by exists w1, names.
Qed.

(** X19.  A listing created is a listing found.  On a readable store
    that is absent or has the expected header and is text of the csv
    writer, [admin_create] without photos, with a fresh id (not blank, no
    surrounding white space, not in the store) and values that fit in a
    field of the reader, redirects to the edit page and leaves a readable
    store with one more row, which [_find_row] returns for that id; the
    row holds the id, the time given, kind [material], an empty phone, no
    photos and the form values trimmed; every other id is found as
    before. *)
Theorem create_then_find (w : World) (s : Session) (req : CreateRequest)
        (new_id now_iso : string) :
  _is_admin cfg s = Some true →
  (create_length req ≤ MAX_CONTENT_LENGTH cfg)%Z →
  store_ok w →
  readable w = true →
  Py.strip new_id = new_id →
  new_id ≠ EmptyString →
  _find_row (_read_all_rows w) new_id = None →
  List.filter (λ f, Py.truthy (filename f)) (create_photos req) = [] →
  Forall (λ v, Csv.too_long v = false)
         [ new_id; now_iso;
           Py.strip (Py.or_ (create_title req) EmptyString);
           Py.strip (Py.or_ (create_price req) EmptyString);
           Py.strip (Py.or_ (create_description req) EmptyString);
           Py.strip (Py.or_ (create_password req) EmptyString) ] →
  let run := admin_create secure_filename uuid_hex6 cfg w s req new_id now_iso in
  run.1 = Redirect ("/admin/edit/" +:+ new_id)
  ∧ files run.2.2 = files w
  ∧ readable run.2.2 = true
  ∧ (∃ r,
       _find_row (_read_all_rows run.2.2) new_id = Some r
       ∧ Forall2 (λ c v, get r c = Some v) _csv_columns
           [ new_id; now_iso; "material";
             Py.strip (Py.or_ (create_title req) EmptyString);
             Py.strip (Py.or_ (create_price req) EmptyString);
             EmptyString;
             Py.strip (Py.or_ (create_description req) EmptyString);
             EmptyString;
             Py.strip (Py.or_ (create_password req) EmptyString) ])
  ∧ ∀ sid, sid ≠ new_id →
           _find_row (_read_all_rows run.2.2) sid = _find_row (_read_all_rows w) sid.
Proof.
  intros Hadmin Hlen Hok Hreadable Hstrip Hset%truthy_nonempty Hfresh Hnone Hfit.
  cbv zeta. unfold admin_create, admin_required. rewrite Hadmin.
  destruct (Z.ltb_spec (MAX_CONTENT_LENGTH cfg) (create_length req)) as [?|_]; [lia|].
  cbv zeta. rewrite Hnone. cbn [fst snd].
  set (title := Py.strip (Py.or_ (create_title req) EmptyString)) in *.
  set (price := Py.strip (Py.or_ (create_price req) EmptyString)) in *.
  set (description := Py.strip (Py.or_ (create_description req) EmptyString)) in *.
  set (password := Py.strip (Py.or_ (create_password req) EmptyString)) in *.
  destruct (save_row_written w new_id now_iso "material" title price EmptyString
              description [] password Hok) as (lines & Hbefore & Hafter).
  cbn [Py.join] in Hafter.
  set (line := [new_id; now_iso; "material"; title; price; EmptyString; description;
                EmptyString; password]) in *.
  assert (Hread : _read_all_rows
                    (_save_submission_row w new_id now_iso "material" title price
                       EmptyString description [] password)
                  = _read_all_rows w ++ [make_row _csv_columns line]).
  { rewrite (read_written _ _ Hafter), <- (read_ensure w Hok), (read_written _ _ Hbefore).
    rewrite !List.filter_app, map_app, List.filter_app.
    cbn [List.filter map negb is_blank_line line].
    assert (Hid : row_id (make_row _csv_columns line) = Py.strip new_id).
    { unfold row_id. f_equal. by destruct new_id. }
    by rewrite Hid, Hstrip, Hset. }
  assert (Hid : row_id (make_row _csv_columns line) = new_id).
  { transitivity (Py.strip new_id); [|done]. unfold row_id. f_equal.
    by destruct new_id. }
  split; [done|]. split.
  { unfold _save_submission_row. cbv zeta.
    assert (Hfiles : files (_ensure_csv_header w) = files w).
    { destruct Hok as [Hcsv|Hw]; [|by rewrite written_ensure].
      unfold _ensure_csv_header. by rewrite Hcsv. }
    by destruct (csv (_ensure_csv_header w)). }
  split.
  { apply save_row_readable; [done..|]. cbn [Py.join].
    apply Forall_cons in Hfit as [Hf1 Hfit]. apply Forall_cons in Hfit as [Hf2 Hfit].
    apply Forall_cons in Hfit as [Hf3 Hfit]. apply Forall_cons in Hfit as [Hf4 Hfit].
    apply Forall_cons in Hfit as [Hf5 Hfit]. apply Forall_cons in Hfit as [Hf6 _].
    by repeat constructor. }
  split.
  - exists (make_row _csv_columns line). split.
    + rewrite Hread, find_row_app, Hfresh. cbn [_find_row].
      by rewrite Hid, String.eqb_refl.
    + unfold _csv_columns, line. repeat (constructor; [by vm_compute|]). constructor.
  - intros sid Hsid. rewrite Hread, find_row_app.
    destruct (_find_row (_read_all_rows w) sid); [done|]. cbn [_find_row].
    rewrite Hid. by destruct (String.eqb_spec new_id sid).
Qed.

(** X20.  What is saved is what the edit page shows.  After [admin_save]
    on an existing listing of a readable store, with form values and a
    directory listing that fit in a field of the reader, the store is
    readable and [admin_edit] renders the listing with the form values
    trimmed under [title], [price_tenge], [description] and [password],
    the directory listing under [photos] and as the photo list,
    [material] for a kind that was absent or empty, and the id, the
    creation time and the phone as they were stored. *)
Theorem save_then_edit (w : World) (s : Session) (sid : string) (req : SaveRequest)
        (r : row) :
  _is_admin cfg s = Some true →
  readable w = true →
  _find_row (_read_all_rows w) sid = Some r →
  (save_length req ≤ MAX_CONTENT_LENGTH cfg)%Z →
  Forall (λ v, Csv.too_long v = false)
         [ Py.strip (Py.or_ (save_title req) EmptyString);
           Py.strip (Py.or_ (save_price_tenge req) EmptyString);
           Py.strip (Py.or_ (save_description req) EmptyString);
           Py.strip (Py.or_ (save_password req) EmptyString);
           Py.join ";" (_list_photos cfg w sid) ] →
  (admin_save cfg w s sid req).1 = Redirect ("/admin/edit/" +:+ sid)
  ∧ readable (admin_save cfg w s sid req).2.2 = true
  ∧ ∃ page,
      admin_edit cfg (admin_save cfg w s sid req).2.2 s sid = Page page
      ∧ edit_sid page = sid
      ∧ edit_photos page = _list_photos cfg w sid
      ∧ Forall2 (λ c v, edit_row page !! c = Some v) _csv_columns
          [ Py.or_ (get r "id") EmptyString;
            Py.or_ (get r "created_utc") EmptyString;
            Py.or_ (get r "kind") "material";
            Py.strip (Py.or_ (save_title req) EmptyString);
            Py.strip (Py.or_ (save_price_tenge req) EmptyString);
            Py.or_ (get r "phone") EmptyString;
            Py.strip (Py.or_ (save_description req) EmptyString);
            Py.join ";" (_list_photos cfg w sid);
            Py.strip (Py.or_ (save_password req) EmptyString) ].
Proof.
  intros Hadmin Hreadable Hrow Hlen Hfit.
  unfold admin_save, admin_required. rewrite Hadmin, Hrow.
  rewrite (found_in_store w sid r Hrow). cbn [negb].
  destruct (Z.ltb_spec (MAX_CONTENT_LENGTH cfg) (save_length req)) as [?|_]; [lia|].
  cbn [fst snd]. split; [done|]. split; [by apply saved_readable|].
  set (change := saved_row cfg w sid req).
  assert (Hread : _read_all_rows
                    (_write_all_rows w (alter_found change (_read_all_rows w) sid))
                  = map reread (alter_found change (_read_all_rows w) sid)).
  { apply read_rewritten, altered_ids; [apply saved_row_id | apply read_all_ids]. }
  unfold admin_edit, admin_required_page. rewrite Hadmin, Hread, find_row_reread.
  rewrite (find_altered change (saved_row_id w sid req) _ _ r Hrow).
  cbn [fmap option_fmap option_map]. rewrite reread_truthy. cbn [negb].
  eexists. split; [reflexivity|]. cbn [edit_sid edit_photos edit_row].
  split; [done|]. split; [by apply list_photos_same|].
  assert (Hcol : ∀ c, c ∈ _csv_columns →
                      edit_values (reread (change r)) !! c
                      = Some (Py.or_ (get (change r) c) EmptyString)).
  { intros c Hc. rewrite edit_values_lookup by done. unfold stored.
    rewrite reread_get by done. by rewrite or_idem. }
  unfold _csv_columns.
  repeat (constructor;
          [rewrite Hcol by by_evaluation; unfold change, saved_row;
           rewrite ?get_set_ne by done; rewrite ?get_set, ?or_some; try done|]);
    try constructor.
Qed.

End CreateAndSave.

Section DeleteAndOthers.
Import Dict Store StoreFacts StoreFacts2 App Admin AdminFacts ListingFacts
       HandlerFacts TextFacts PathFacts ReadableFacts.

Variable secure_filename : string → string.
Variable uuid_hex6 : nat → string.
Variable cfg : Config.

Lemma rmtree_csv w d : csv (Tree.rmtree w d) = csv w.
Proof. reflexivity. Qed.





(** X22.  Saving or deleting one listing leaves the others.  On a
    readable store, after [admin_delete] of a plain id, or after an
    [admin_save] that is let through with values that fit in a field of
    the reader, the store is readable and [_find_row] finds for every
    other id the row it found before, as a full rewrite of the store
    leaves it: its nine columns, a missing value turned into the empty
    string. *)
Theorem other_listings_kept (w : World) (s : Session) (sid other : string)
        (req : SaveRequest) :
  _is_admin cfg s = Some true →
  readable w = true →
  other ≠ sid →
  (plain sid →
   readable (admin_delete cfg w s sid).2.2 = true
   ∧ _find_row (_read_all_rows (admin_delete cfg w s sid).2.2) other
     = reread <$> _find_row (_read_all_rows w) other)
  ∧ ((admin_save cfg w s sid req).1 = Redirect ("/admin/edit/" +:+ sid) →
     Forall (λ v, Csv.too_long v = false)
            [ Py.strip (Py.or_ (save_title req) EmptyString);
              Py.strip (Py.or_ (save_price_tenge req) EmptyString);
              Py.strip (Py.or_ (save_description req) EmptyString);
              Py.strip (Py.or_ (save_password req) EmptyString);
              Py.join ";" (_list_photos cfg w sid) ] →
     readable (admin_save cfg w s sid req).2.2 = true
     ∧ _find_row (_read_all_rows (admin_save cfg w s sid req).2.2) other
       = reread <$> _find_row (_read_all_rows w) other).
Proof.
  intros Hadmin Hreadable Hother. split.
  - intros _. unfold admin_delete, admin_required. rewrite Hadmin. cbn [snd].
    set (w1 := _write_all_rows w
                 (List.filter (λ r, negb (String.eqb (row_id r) sid)) (_read_all_rows w))).
    match goal with |- context [readable ?x] => set (w2 := x) end.
    assert (Hcsv : csv w2 = csv w1) by (unfold w2; by destruct (_ && _)).
    rewrite (readable_same_csv w1 w2 Hcsv), (read_same_csv w1 w2 Hcsv).
    split; [by apply filtered_readable|]. unfold w1.
    rewrite read_rewritten by apply filtered_ids, read_all_ids.
    by rewrite find_row_reread, find_filtered_other.
  - unfold admin_save, admin_required. rewrite Hadmin.
    destruct (found _); cbn [negb]; [|done].
    destruct (_ <? _)%Z; [done|]. cbn [fst snd]. intros _ Hfit.
    split; [by apply saved_readable|].
    rewrite read_rewritten
      by (apply altered_ids; [apply saved_row_id | apply read_all_ids]).
    rewrite find_row_reread.
    by rewrite (find_altered_other _ (saved_row_id cfg w sid req)).
Qed.

End DeleteAndOthers.

Section PhotoHandlers.
Import Dict Store StoreFacts StoreFacts2 App Admin AdminFacts ListingFacts
       HandlerFacts TextFacts PathFacts ReadableFacts.

Variable secure_filename : string → string.
Variable uuid_hex6 : nat → string.
Variable cfg : Config.

(** X23.  After a photo is deleted the row lists the directory.  When
    the listing has a plain id and a row in a readable store,
    [admin_photo_delete] is not refused with 400, and the names left in
    the directory, joined with semicolons, fit in a field of the reader,
    the store stays readable and the row of the listing holds under
    [photos] the names [_list_photos] returns in the world the handler
    leaves, joined with semicolons. *)
Theorem photos_resynced (w : World) (s : Session) (sid fname : string) (r : row) :
  _is_admin cfg s = Some true →
  plain sid →
  readable w = true →
  _find_row (_read_all_rows w) sid = Some r →
  (admin_photo_delete cfg w s sid fname).1 = Redirect ("/admin/edit/" +:+ sid) →
  let w' := (admin_photo_delete cfg w s sid fname).2 in
  Csv.too_long (Py.join ";" (_list_photos cfg w' sid)) = false →
  readable w' = true
  ∧ ∃ r', _find_row (_read_all_rows w') sid = Some r'
          ∧ get r' "photos" = Some (Py.join ";" (_list_photos cfg w' sid)).
Proof.
  intros Hadmin _ Hreadable Hrow. cbv zeta.
  unfold admin_photo_delete, admin_required. rewrite Hadmin.
  destruct (negb _); [done|]. cbn [fst snd]. intros _.
  match goal with |- context [resync_photos cfg ?x sid] => set (w1 := x) end.
  assert (Hcsv : csv w1 = csv w) by (unfold w1; by destruct (_ && _)).
  rewrite <- (read_same_csv w w1 Hcsv) in Hrow.
  rewrite <- (readable_same_csv w w1 Hcsv) in Hreadable.
  destruct (resync_found cfg w1 sid r Hrow) as (Hfiles & Hdirs & Hr').
  rewrite (list_photos_same cfg w1 (resync_photos cfg w1 sid) sid Hfiles Hdirs).
  intros Hfit. split; [by apply resync_readable|].
  by rewrite <- (list_photos_same cfg w1 (resync_photos cfg w1 sid) sid Hfiles Hdirs).
Qed.

(** X24.  [admin_photo_delete] removes one file at most: whatever the
    request, every path other than the resolved path of the request holds
    afterwards what it held before, and the directories are those of
    before. *)
Theorem photo_delete_touches_one_path (w : World) (s : Session) (sid fname : string) :
  let p := Path.resolve (Path.joinpath (Path.joinpath (UPLOADS_DIR cfg) sid) fname) in
  dirs (admin_photo_delete cfg w s sid fname).2 = dirs w
  ∧ ∀ q, q ≠ p → files (admin_photo_delete cfg w s sid fname).2 !! q = files w !! q.
Proof.
  cbv zeta. unfold admin_photo_delete, admin_required.
  destruct (_is_admin cfg s) as [[|]|]; [|done..].
  destruct (negb _); [done|]. cbn [snd].
  match goal with |- context [resync_photos cfg ?x sid] => set (w1 := x) end.
  assert (Hw1 : dirs w1 = dirs w
                ∧ ∀ q, q ≠ Path.resolve
                             (Path.joinpath (Path.joinpath (UPLOADS_DIR cfg) sid) fname) →
                       files w1 !! q = files w !! q).
  { unfold w1. destruct (_ && _); [|done]. split; [done|].
    intros q Hq. unfold Fs.unlink. cbn [files]. rewrite resolve_idempotent.
    by rewrite lookup_delete_ne. }
  destruct Hw1 as [Hdirs Hfiles].
  assert (Hre : files (resync_photos cfg w1 sid) = files w1
                ∧ dirs (resync_photos cfg w1 sid) = dirs w1).
  { unfold resync_photos. by destruct (found _). }
  destruct Hre as [-> ->]. by split.
Qed.


End PhotoHandlers.

(** ** Passwords set by the admin, the shape of the store, served paths *)
Module ServeFacts.
Import App PathFacts.

(** In the stack of [normpath_from] the [..] steps are all outermost:
    when the outermost component is none, no component is. *)
Definition dots_outermost (stack : list string) : Prop :=
  last stack ≠ Some ".." → ".." ∉ stack.

Lemma dots_outermost_push c stack :
  c ≠ ".." → dots_outermost stack → dots_outermost (c :: stack).
Proof.
  intros Hc Hstack Hlast. apply not_elem_of_cons. split; [done|].
  destruct stack as [|top below]; [apply not_elem_of_nil|].
  apply Hstack. by rewrite last_cons_cons in Hlast.
Qed.

Lemma dots_outermost_dots stack :
  dots_outermost (".." :: stack) → dots_outermost (".." :: ".." :: stack).
Proof.
  intros Hstack Hlast. rewrite last_cons_cons in Hlast.
  exfalso. apply (Hstack Hlast), list_elem_of_here.
Qed.

Lemma dots_outermost_pop top below :
  dots_outermost (top :: below) → dots_outermost below.
Proof.
  intros Hstack Hlast. destruct below as [|c below]; [apply not_elem_of_nil|].
  unfold dots_outermost in Hstack. rewrite last_cons_cons in Hstack.
  by apply Hstack, not_elem_of_cons in Hlast as [_ ?].
Qed.

Lemma normpath_from_dots stack comps :
  dots_outermost stack →
  head (normpath_from stack comps) ≠ Some ".." → ".." ∉ normpath_from stack comps.
Proof.
  revert stack. induction comps as [|c comps IH]; intros stack Hstack;
    cbn [normpath_from].
  - rewrite head_reverse, elem_of_reverse. apply Hstack.
  - destruct (String.eqb_spec c "..") as [->|Hc].
    + destruct stack as [|top below].
      * apply IH. intros Hlast. by cbn in Hlast.
      * destruct (String.eqb_spec top "..") as [->|Htop].
        -- by apply IH, dots_outermost_dots.
        -- by apply IH, (dots_outermost_pop top).
    + by apply IH, dots_outermost_push.
Qed.

(** The path [safe_join] returns resolves to a path at or below the
    resolved directory. *)
Lemma safe_join_below directory fname p :
  safe_join directory fname = Some p →
  ∃ more, Path.resolve p = Path.resolve directory ++ more.
Proof.
  unfold safe_join. destruct (Path.is_abs fname); [done|].
  pose proof (normpath_from_dots [] (Path.parts fname)) as Hclean.
  destruct (normpath_from [] (Path.parts fname)) as [|c cs].
  - intros [= <-]. exists []. by rewrite app_nil_r.
  - destruct (String.eqb_spec c "..") as [->|Hc]; [done|]. intros [= <-].
    exists (c :: cs). unfold Path.resolve. rewrite resolve_from_app.
    rewrite resolve_from_id; [by rewrite reverse_involutive|].
    apply Hclean; [intros _; apply not_elem_of_nil|]. cbn. by intros [= ->].
Qed.

End ServeFacts.

Section GateAndShape.
Import Dict Store StoreFacts StoreFacts2 App Admin AdminFacts ListingFacts
       HandlerFacts TextFacts PathFacts ServeFacts ReadableFacts.

Variable secure_filename : string → string.
Variable uuid_hex6 : nat → string.
Variable cfg : Config.

Lemma store_ok_csv w w' : csv w' = csv w → store_ok w → store_ok w'.
Proof.
  intros Hcsv [Hnone|[lines Hw]]; [left | right; exists lines]; congruence.
Qed.

(** X26.  The password the admin saves is the password of the gate.
    After [admin_save] on an existing listing of a readable store, with
    form values and a directory listing that fit in a field of the
    reader, the store is readable, and: if the trimmed form password is
    empty, [uploads] serves the photos of the listing to every session;
    if it is not, a visitor who has not unlocked the listing gets 403, and
    (for an ASCII password) [unlock] with that password answers with the
    redirect and puts the listing on the unlock list. *)
Theorem saved_password_gates (w : World) (s : Session) (sid : string)
        (req : SaveRequest) (r : row) :
  _is_admin cfg s = Some true →
  readable w = true →
  _find_row (_read_all_rows w) sid = Some r →
  (save_length req ≤ MAX_CONTENT_LENGTH cfg)%Z →
  Forall (λ v, Csv.too_long v = false)
         [ Py.strip (Py.or_ (save_title req) EmptyString);
           Py.strip (Py.or_ (save_price_tenge req) EmptyString);
           Py.strip (Py.or_ (save_description req) EmptyString);
           Py.strip (Py.or_ (save_password req) EmptyString);
           Py.join ";" (_list_photos cfg w sid) ] →
  let w' := (admin_save cfg w s sid req).2.2 in
  let p := Py.strip (Py.or_ (save_password req) EmptyString) in
  readable w' = true
  ∧ (p = EmptyString →
     ∀ s0 fname is_admin,
       _is_admin cfg s0 = Some is_admin →
       uploads cfg w' s0 sid fname
       = send_from_directory w' (Path.joinpath (UPLOADS_DIR cfg) sid) fname)
  ∧ (p ≠ EmptyString →
     ∀ s0 fname,
       _is_admin cfg s0 = Some false → sid ∉ unlocked_of s0 →
       uploads cfg w' s0 sid fname = Abort 403)
  ∧ (p ≠ EmptyString → Py.isascii p = true →
     ∀ s0 form_password,
       Py.strip (Py.or_ form_password EmptyString) = p →
       (unlock w' s0 sid form_password).1 = Redirect "/"
       ∧ sid ∈ unlocked_of (unlock w' s0 sid form_password).2).
Proof.
  intros Hadmin Hreadable Hrow Hlen Hfit. cbv zeta.
  unfold admin_save, admin_required. rewrite Hadmin, Hrow.
  rewrite (found_in_store w sid r Hrow). cbn [negb].
  destruct (Z.ltb_spec (MAX_CONTENT_LENGTH cfg) (save_length req)) as [?|_]; [lia|].
  cbn [fst snd]. split; [by apply saved_readable|].
  set (change := saved_row cfg w sid req).
  set (w' := _write_all_rows w (alter_found change (_read_all_rows w) sid)).
  set (p := Py.strip (Py.or_ (save_password req) EmptyString)).
  assert (Hrow' : _find_row (_read_all_rows w') sid = Some (reread (change r))).
  { unfold w'. rewrite read_rewritten
      by (apply altered_ids; [apply saved_row_id | apply read_all_ids]).
    rewrite find_row_reread.
    by rewrite (find_altered change (saved_row_id cfg w sid req) _ _ r Hrow). }
  assert (Hfield : field_of (reread (change r)) "password" = p).
  { unfold field_of. rewrite reread_get by by_evaluation.
    unfold change, saved_row. rewrite get_set_ne by done.
    rewrite get_set, !or_some. apply strip_idempotent. }
  split_and!.
  - intros Hp s0 fname is_admin Hs0.
    rewrite (uploads_gate_general cfg w' s0 sid fname _ is_admin Hrow' Hs0).
    rewrite Hfield, Hp. cbn [Py.truthy negb]. by rewrite orb_true_r.
  - intros Hp%truthy_nonempty s0 fname Hs0 Hlocked.
    rewrite (uploads_gate_general cfg w' s0 sid fname _ false Hrow' Hs0).
    rewrite Hfield, Hp. cbn [negb orb]. by rewrite bool_decide_eq_false_2.
  - intros Hp%truthy_nonempty Hascii s0 form_password Hform.
    apply (unlock_right_password w' s0 sid form_password _ Hrow'); rewrite Hfield;
      done.
Qed.

(** X27.  The admin handlers keep the store in shape.  When there is no
    store file, or the store file is text of the application's writer
    under the expected header, the same holds after [admin_create],
    [admin_save], [admin_delete], [admin_upload] and [admin_photo_delete],
    whatever the request and whether or not it is let through. *)
Theorem handlers_keep_store_shape (w : World) (s : Session) (sid fname : string)
        (cr : CreateRequest) (sv : SaveRequest) (up : UploadRequest)
        (new_id now_iso : string) :
  store_ok w →
  store_ok (admin_create secure_filename uuid_hex6 cfg w s cr new_id now_iso).2.2
  ∧ store_ok (admin_save cfg w s sid sv).2.2
  ∧ store_ok (admin_delete cfg w s sid).2.2
  ∧ store_ok (admin_upload secure_filename uuid_hex6 cfg w s sid up).2.1
  ∧ store_ok (admin_photo_delete cfg w s sid fname).2.
Proof.
  intros Hok.
  unfold admin_create, admin_save, admin_delete, admin_upload, admin_photo_delete,
    admin_required.
  destruct (_is_admin cfg s) as [[|]|]; [|done..]. split_and!.
  - destruct (_ <? _)%Z; [done|]. cbv zeta.
    destruct (created_photos_csv secure_filename uuid_hex6 cfg w new_id
                (List.filter (λ f, Py.truthy (filename f)) (create_photos cr)))
      as (w1 & names & -> & Hcsv & _).
    cbn [fst snd]. right.
    destruct (save_row_written w1 new_id now_iso "material"
                (Py.strip (Py.or_ (create_title cr) EmptyString))
                (Py.strip (Py.or_ (create_price cr) EmptyString)) EmptyString
                (Py.strip (Py.or_ (create_description cr) EmptyString)) names
                (Py.strip (Py.or_ (create_password cr) EmptyString))
                (store_ok_csv w w1 Hcsv Hok)) as (lines & _ & Hafter).
    by eexists.
  - destruct (negb _); [done|]. destruct (_ <? _)%Z; [done|].
    right. apply write_all_written.
  - cbn [snd]. right.
    destruct (_ && _); [|apply write_all_written].
    destruct (write_all_written w
                (List.filter (λ r, negb (String.eqb (row_id r) sid)) (_read_all_rows w)))
      as [lines Hw].
    by exists lines.
  - destruct (_ <? _)%Z; [done|].
    destruct (List.filter _ (photos up)) as [|f fs]; [done|].
    set (sub_dir := Path.joinpath (UPLOADS_DIR cfg) sid).
    pose proof (fold_save_upload_csv secure_filename uuid_hex6 sub_dir (f :: fs)
                  (Fs.mkdir w sub_dir, 0, 0)) as Hcsv.
    destruct (foldl _ _ (f :: fs)) as [[w2 drawn] saved]. cbn [fst snd] in *.
    by apply resync_store_ok, (store_ok_csv w).
  - destruct (negb _); [done|]. cbn [snd].
    apply resync_store_ok. by destruct (_ && _).
Qed.

(** X28.  [uploads] serves only from the directory of the listing: when
    it sends a file, the content sent is that of a file of the tree whose
    path is the resolved path of [UPLOADS_DIR/sid] followed by further
    components; no file name, whatever [..] steps it holds, makes it send
    a file from elsewhere. *)
Theorem served_from_listing_directory (w : World) (s : Session)
        (sid fname content : string) :
  uploads cfg w s sid fname = SendFile content →
  ∃ more,
    files w !! (Path.resolve (Path.joinpath (UPLOADS_DIR cfg) sid) ++ more)
    = Some content.
Proof.
  unfold uploads. destruct (_is_admin cfg s) as [is_admin|]; [|done].
  cbv zeta. match goal with |- context [if ?b then Abort 403 else _] =>
    destruct b end; [done|].
  unfold send_from_directory.
  destruct (safe_join _ fname) as [p|] eqn:Hjoin; [|done].
  destruct (safe_join_below _ _ _ Hjoin) as [more Hp]. rewrite Hp.
  destruct (files w !! _) as [v|] eqn:Hv; [|done].
  intros [= <-]. by exists more.
Qed.

End GateAndShape.

(** ** The properties above, on the shop with one listing *)

Lemma admin_handlers_need_proof_witness :
  App._is_admin Sample.cfg Sample.visitor = Some false
  ∧ Admin.admin_delete Sample.cfg Visit.shop Sample.visitor "X1"
    = (Redirect "/admin/login", (None, Visit.shop))
  ∧ Admin.admin_csv_download Sample.cfg Visit.shop Sample.visitor
    = Redirect "/admin/login".
Proof.
  split; [reflexivity|].
  pose proof (admin_handlers_need_proof Visit.as_given Visit.as_given Visit.token
                Sample.cfg Visit.shop Sample.visitor "X1" "photo.jpg" Visit.one_photo
                Visit.create_lamp Visit.save_book "X2" "2024-05-01T00:00:00+00:00"
                eq_refl) as (_ & _ & Hdelete & _ & _ & _ & _ & Hcsv).
  by split.
Defined.


Lemma create_then_find_witness :
  let run := Admin.admin_create Visit.as_given Visit.token Sample.cfg Visit.shop
               Sample.admin Visit.create_plain "X2" "2024-05-01T00:00:00+00:00" in
  App._is_admin Sample.cfg Sample.admin = Some true
  ∧ (create_length Visit.create_plain ≤ MAX_CONTENT_LENGTH Sample.cfg)%Z
  ∧ StoreFacts2.store_ok Visit.shop
  ∧ Store.readable Visit.shop = true
  ∧ Py.strip "X2" = "X2"
  ∧ ("X2" ≠ EmptyString)
  ∧ Store._find_row (Store._read_all_rows Visit.shop) "X2" = None
  ∧ List.filter (λ f, Py.truthy (filename f)) (create_photos Visit.create_plain) = []
  ∧ Forall (λ v, Csv.too_long v = false)
           [ "X2"; "2024-05-01T00:00:00+00:00";
             Py.strip (Py.or_ (create_title Visit.create_plain) EmptyString);
             Py.strip (Py.or_ (create_price Visit.create_plain) EmptyString);
             Py.strip (Py.or_ (create_description Visit.create_plain) EmptyString);
             Py.strip (Py.or_ (create_password Visit.create_plain) EmptyString) ]
  ∧ run.1 = Redirect ("/admin/edit/" +:+ "X2")
  ∧ Store.readable run.2.2 = true
  ∧ ∀ sid, sid ≠ "X2" →
           Store._find_row (Store._read_all_rows run.2.2) sid
           = Store._find_row (Store._read_all_rows Visit.shop) sid.
Proof.
  cbv zeta.
  assert (Hadmin : App._is_admin Sample.cfg Sample.admin = Some true) by reflexivity.
  assert (Hlen : (create_length Visit.create_plain ≤ MAX_CONTENT_LENGTH Sample.cfg)%Z)
    by (by vm_compute).
  assert (Hok : StoreFacts2.store_ok Visit.shop)
    by (right; exists Visit.shop_lines; by vm_compute).
  assert (Hreadable : Store.readable Visit.shop = true) by (by vm_compute).
  assert (Hstrip : Py.strip "X2" = "X2") by reflexivity.
  assert (Hset : "X2" ≠ EmptyString) by done.
  assert (Hfresh : Store._find_row (Store._read_all_rows Visit.shop) "X2" = None)
    by (by vm_compute).
  assert (Hnone : List.filter (λ f, Py.truthy (filename f))
                    (create_photos Visit.create_plain) = []) by reflexivity.
  assert (Hfit : Forall (λ v, Csv.too_long v = false)
                   [ "X2"; "2024-05-01T00:00:00+00:00";
                     Py.strip (Py.or_ (create_title Visit.create_plain) EmptyString);
                     Py.strip (Py.or_ (create_price Visit.create_plain) EmptyString);
                     Py.strip (Py.or_ (create_description Visit.create_plain)
                                 EmptyString);
                     Py.strip (Py.or_ (create_password Visit.create_plain)
                                 EmptyString) ])
    by (repeat constructor).
  pose proof (create_then_find Visit.as_given Visit.token Sample.cfg Visit.shop
                Sample.admin Visit.create_plain "X2" "2024-05-01T00:00:00+00:00"
                Hadmin Hlen Hok Hreadable Hstrip Hset Hfresh Hnone Hfit)
    as (Hanswer & _ & Hread' & _ & Hothers).
  by split_and!.
Defined.

Lemma save_then_edit_witness :
  App._is_admin Sample.cfg Sample.admin = Some true
  ∧ Store.readable Visit.shop = true
  ∧ (save_length Visit.save_book ≤ MAX_CONTENT_LENGTH Sample.cfg)%Z
  ∧ (∃ r, Store._find_row (Store._read_all_rows Visit.shop) "X1" = Some r)
  ∧ Forall (λ v, Csv.too_long v = false)
           [ Py.strip (Py.or_ (save_title Visit.save_book) EmptyString);
             Py.strip (Py.or_ (save_price_tenge Visit.save_book) EmptyString);
             Py.strip (Py.or_ (save_description Visit.save_book) EmptyString);
             Py.strip (Py.or_ (save_password Visit.save_book) EmptyString);
             Py.join ";" (App._list_photos Sample.cfg Visit.shop "X1") ]
  ∧ Store.readable
      (Admin.admin_save Sample.cfg Visit.shop Sample.admin "X1" Visit.save_book).2.2
    = true
  ∧ ∃ page,
      Admin.admin_edit Sample.cfg
        (Admin.admin_save Sample.cfg Visit.shop Sample.admin "X1" Visit.save_book).2.2
        Sample.admin "X1" = Page page
      ∧ edit_row page !! "price_tenge" = Some "700"
      ∧ edit_row page !! "password" = Some "key".
Proof.
  assert (Hadmin : App._is_admin Sample.cfg Sample.admin = Some true) by reflexivity.
  assert (Hreadable : Store.readable Visit.shop = true) by (by vm_compute).
  assert (Hlen : (save_length Visit.save_book ≤ MAX_CONTENT_LENGTH Sample.cfg)%Z)
    by (by vm_compute).
  assert (Hfit : Forall (λ v, Csv.too_long v = false)
           [ Py.strip (Py.or_ (save_title Visit.save_book) EmptyString);
             Py.strip (Py.or_ (save_price_tenge Visit.save_book) EmptyString);
             Py.strip (Py.or_ (save_description Visit.save_book) EmptyString);
             Py.strip (Py.or_ (save_password Visit.save_book) EmptyString);
             Py.join ";" (App._list_photos Sample.cfg Visit.shop "X1") ])
    by (repeat constructor; by vm_compute).
  destruct (Store._find_row (Store._read_all_rows Visit.shop) "X1")
    as [r|] eqn:Hrow; [|by vm_compute in Hrow].
  split; [exact Hadmin|]. split; [exact Hreadable|]. split; [exact Hlen|].
  split; [by exists r|]. split; [exact Hfit|].
  destruct (save_then_edit Sample.cfg Visit.shop Sample.admin "X1" Visit.save_book r
              Hadmin Hreadable Hrow Hlen Hfit)
    as (_ & Hread' & page & Hpage & _ & _ & Hcols).
  split; [exact Hread'|].
  exists page. split; [exact Hpage|].
  unfold Store._csv_columns in Hcols.
  repeat match type of Hcols with
         | Forall2 _ (_ :: _) (_ :: _) =>
             let H := fresh "Hcol" in apply Forall2_cons in Hcols as [H Hcols]
         end.
  by split.
Defined.


Lemma other_listings_kept_witness :
  App._is_admin Sample.cfg Sample.admin = Some true
  ∧ Store.readable Visit.shop = true
  ∧ ("X1" ≠ "X2")
  ∧ PathFacts.plain "X2"
  ∧ Store.readable (Admin.admin_delete Sample.cfg Visit.shop Sample.admin "X2").2.2
    = true
  ∧ Store._find_row
      (Store._read_all_rows
         (Admin.admin_delete Sample.cfg Visit.shop Sample.admin "X2").2.2) "X1"
    = Store.reread <$> Store._find_row (Store._read_all_rows Visit.shop) "X1".
Proof.
  assert (Hother : "X1" ≠ "X2") by done.
  assert (Hplain : PathFacts.plain "X2") by (split; [reflexivity | done]).
  assert (Hreadable : Store.readable Visit.shop = true) by (by vm_compute).
  split; [reflexivity|]. split; [exact Hreadable|]. split; [exact Hother|].
  split; [exact Hplain|].
  exact (proj1 (other_listings_kept Sample.cfg Visit.shop Sample.admin "X2" "X1"
                  Visit.save_book eq_refl Hreadable Hother) Hplain).
Defined.

Lemma photos_resynced_witness :
  let w' := (App.admin_photo_delete Sample.cfg Visit.shop Sample.admin "X1"
               "photo.jpg").2 in
  App._is_admin Sample.cfg Sample.admin = Some true
  ∧ PathFacts.plain "X1"
  ∧ Store.readable Visit.shop = true
  ∧ (∃ r, Store._find_row (Store._read_all_rows Visit.shop) "X1" = Some r)
  ∧ (App.admin_photo_delete Sample.cfg Visit.shop Sample.admin "X1" "photo.jpg").1
    = Redirect ("/admin/edit/" +:+ "X1")
  ∧ Csv.too_long (Py.join ";" (App._list_photos Sample.cfg w' "X1")) = false
  ∧ Store.readable w' = true
  ∧ ∃ r', Store._find_row (Store._read_all_rows w') "X1" = Some r'
          ∧ Dict.get r' "photos"
            = Some (Py.join ";" (App._list_photos Sample.cfg w' "X1")).
Proof.
  cbv zeta.
  assert (Hadmin : App._is_admin Sample.cfg Sample.admin = Some true) by reflexivity.
  assert (Hplain : PathFacts.plain "X1") by (split; [reflexivity | done]).
  assert (Hreadable : Store.readable Visit.shop = true) by (by vm_compute).
  assert (Hanswer : (App.admin_photo_delete Sample.cfg Visit.shop Sample.admin "X1"
                       "photo.jpg").1 = Redirect ("/admin/edit/" +:+ "X1"))
    by (by vm_compute).
  assert (Hfit : Csv.too_long
                   (Py.join ";"
                      (App._list_photos Sample.cfg
                         (App.admin_photo_delete Sample.cfg Visit.shop Sample.admin
                            "X1" "photo.jpg").2 "X1")) = false)
    by (by vm_compute).
  destruct (Store._find_row (Store._read_all_rows Visit.shop) "X1")
    as [r|] eqn:Hrow; [|by vm_compute in Hrow].
  split; [exact Hadmin|]. split; [exact Hplain|]. split; [exact Hreadable|].
  split; [by exists r|]. split; [exact Hanswer|]. split; [exact Hfit|].
  exact (photos_resynced Sample.cfg Visit.shop Sample.admin "X1" "photo.jpg" r
           Hadmin Hplain Hreadable Hrow Hanswer Hfit).
Defined.


Lemma saved_password_gates_witness :
  let w' := (Admin.admin_save Sample.cfg Visit.shop Sample.admin "X1"
               Visit.save_book).2.2 in
  App._is_admin Sample.cfg Sample.admin = Some true
  ∧ Store.readable Visit.shop = true
  ∧ (∃ r, Store._find_row (Store._read_all_rows Visit.shop) "X1" = Some r)
  ∧ (save_length Visit.save_book ≤ MAX_CONTENT_LENGTH Sample.cfg)%Z
  ∧ Forall (λ v, Csv.too_long v = false)
           [ Py.strip (Py.or_ (save_title Visit.save_book) EmptyString);
             Py.strip (Py.or_ (save_price_tenge Visit.save_book) EmptyString);
             Py.strip (Py.or_ (save_description Visit.save_book) EmptyString);
             Py.strip (Py.or_ (save_password Visit.save_book) EmptyString);
             Py.join ";" (App._list_photos Sample.cfg Visit.shop "X1") ]
  ∧ Store.readable w' = true
  ∧ App.uploads Sample.cfg w' Sample.visitor "X1" "photo.jpg" = Abort 403
  ∧ (App.unlock w' Sample.visitor "X1" (Some "key")).1 = Redirect "/"
  ∧ "X1" ∈ App.unlocked_of (App.unlock w' Sample.visitor "X1" (Some "key")).2.
Proof.
  cbv zeta.
  assert (Hadmin : App._is_admin Sample.cfg Sample.admin = Some true) by reflexivity.
  assert (Hreadable : Store.readable Visit.shop = true) by (by vm_compute).
  assert (Hlen : (save_length Visit.save_book ≤ MAX_CONTENT_LENGTH Sample.cfg)%Z)
    by (by vm_compute).
  assert (Hfit : Forall (λ v, Csv.too_long v = false)
           [ Py.strip (Py.or_ (save_title Visit.save_book) EmptyString);
             Py.strip (Py.or_ (save_price_tenge Visit.save_book) EmptyString);
             Py.strip (Py.or_ (save_description Visit.save_book) EmptyString);
             Py.strip (Py.or_ (save_password Visit.save_book) EmptyString);
             Py.join ";" (App._list_photos Sample.cfg Visit.shop "X1") ])
    by (repeat constructor; by vm_compute).
  assert (Hset : Py.strip (Py.or_ (save_password Visit.save_book) EmptyString)
                 ≠ EmptyString) by (by vm_compute).
  destruct (Store._find_row (Store._read_all_rows Visit.shop) "X1")
    as [r|] eqn:Hrow; [|by vm_compute in Hrow].
  split; [exact Hadmin|]. split; [exact Hreadable|]. split; [by exists r|].
  split; [exact Hlen|]. split; [exact Hfit|].
  destruct (saved_password_gates Sample.cfg Visit.shop Sample.admin "X1"
              Visit.save_book r Hadmin Hreadable Hrow Hlen Hfit)
    as (Hread' & _ & Hlocked & Hunlock).
  split; [exact Hread'|]. split.
  - apply (Hlocked Hset); [reflexivity|]. apply not_elem_of_nil.
  - exact (Hunlock Hset eq_refl Sample.visitor (Some "key") eq_refl).
Defined.

Lemma handlers_keep_store_shape_witness :
  StoreFacts2.store_ok Visit.shop
  ∧ StoreFacts2.store_ok
      (Admin.admin_create Visit.as_given Visit.token Sample.cfg Visit.shop Sample.admin
         Visit.create_lamp "X2" "2024-05-01T00:00:00+00:00").2.2
  ∧ StoreFacts2.store_ok
      (App.admin_photo_delete Sample.cfg Visit.shop Sample.admin "X1" "photo.jpg").2.
Proof.
  assert (Hok : StoreFacts2.store_ok Visit.shop)
    by (right; exists Visit.shop_lines; by vm_compute).
  split; [exact Hok|].
  pose proof (handlers_keep_store_shape Visit.as_given Visit.token Sample.cfg Visit.shop
                Sample.admin "X1" "photo.jpg" Visit.create_lamp Visit.save_book
                Visit.one_photo "X2" "2024-05-01T00:00:00+00:00" Hok)
    as (Hcreate & _ & _ & _ & Hphoto).
  by split.
Defined.

Lemma served_from_listing_directory_witness :
  App.uploads Sample.cfg Visit.shop Sample.admin "X1" "sub/../photo.jpg"
  = SendFile "JPEG"
  ∧ ∃ more,
      files Visit.shop
        !! (Path.resolve (Path.joinpath (UPLOADS_DIR Sample.cfg) "X1") ++ more)
      = Some "JPEG".
Proof.
  assert (Hsent : App.uploads Sample.cfg Visit.shop Sample.admin "X1" "sub/../photo.jpg"
                  = SendFile "JPEG") by (by vm_compute).
  split; [exact Hsent|].
  exact (served_from_listing_directory Sample.cfg Visit.shop Sample.admin "X1"
           "sub/../photo.jpg" "JPEG" Hsent).
Defined.
